(** * OpenArt workflow scraper (scraper.py): a shallow embedding

    The scraper drives a browser, polls a download directory and merges the
    downloaded JSON files.  Everything outside the script (browser, clock,
    operating system, the json library) is gathered in an environment [Env]
    that answers each external call; the script itself is embedded as a
    state-and-exception monad over the fields of [OpenArtScraper] and the
    files it touches. *)

From Stdlib Require Import ZArith Lia Ascii String.
From stdpp Require Import gmap strings list fin_maps pretty.

Open Scope Z_scope.
Open Scope string_scope.

(** ** Python string operations used by the script *)

Module PyStr.

(** [s.endswith(suf)] *)
Fixpoint endswith (s suf : string) : bool :=
  if String.eqb s suf then true
  else match s with
       | EmptyString => false
       | String _ s' => endswith s' suf
       end.

(** [s.endswith((a, b, ...))]: a tuple of suffixes *)
Definition endswith_any (s : string) (sufs : list string) : bool :=
  existsb (endswith s) sufs.

(** [needle in hay] *)
Fixpoint contains (needle hay : string) : bool :=
  if String.prefix needle hay then true
  else match hay with
       | EmptyString => false
       | String _ hay' => contains needle hay'
       end.

(** [fnmatch] restricted to literal characters and [*], the only
    metacharacter of the pattern the merger uses. *)
Fixpoint fnmatch (pat s : string) : bool :=
  match pat with
  | EmptyString => match s with EmptyString => true | _ => false end
  | String c pat' =>
      if Ascii.eqb c "*"%char then
        (fix star (s : string) : bool :=
           if fnmatch pat' s then true
           else match s with
                | EmptyString => false
                | String _ s' => star s'
                end) s
      else match s with
           | EmptyString => false
           | String d s' => Ascii.eqb c d && fnmatch pat' s'
           end
  end.

(** A pattern without metacharacter. *)
Fixpoint literal (pat : string) : Prop :=
  match pat with
  | EmptyString => True
  | String c pat' => c <> "*"%char /\ literal pat'
  end.

(** [str(n)] for a Python int *)
Definition str_int (n : Z) : string := pretty n.

End PyStr.

(** ** Exceptions and results *)

Inductive exn : Type :=
  | TimeoutException
  | NoSuchElementException
  | StaleElementReferenceException
  | WebDriverException
  | OSError
  | ValueError
  | KeyboardInterrupt
  | SystemExit.

(** [isinstance(e, Exception)]: everything but the two [BaseException]-only
    classes. *)
Definition is_Exception (e : exn) : bool :=
  match e with
  | KeyboardInterrupt | SystemExit => false
  | _ => true
  end.

Definition is_TimeoutException (e : exn) : bool :=
  match e with TimeoutException => true | _ => false end.
Definition is_NoSuchElementException (e : exn) : bool :=
  match e with NoSuchElementException => true | _ => false end.
Definition is_StaleElementReferenceException (e : exn) : bool :=
  match e with StaleElementReferenceException => true | _ => false end.
Definition is_KeyboardInterrupt (e : exn) : bool :=
  match e with KeyboardInterrupt => true | _ => false end.

(** The outcome of running a piece of the script: a value, a raised
    exception, or [OutOfFuel] when the unbounded scroll loop was cut off. *)
Inductive res (A : Type) : Type :=
  | Val (a : A)
  | Raise (e : exn)
  | OutOfFuel.
Arguments Val {A} a.
Arguments Raise {A} e.
Arguments OutOfFuel {A}.

(** ** Data *)

(** Parsed JSON documents, as [json.load] builds them. *)
#[warnings="-register-all"]
Inductive json : Type :=
  | JNull
  | JBool (b : bool)
  | JNum (n : Z)
  | JStr (s : string)
  | JArr (l : list json)
  | JObj (l : list (string * json)).

(** One entry of the merged document: [{'filename': ..., 'workflow': ...}]. *)
Record MergedRecord : Type := mkRecord {
  filename : string;
  workflow : json
}.

(** What the merged file holds once it was opened for writing: [open(..., 'w')]
    creates or truncates it, and it holds the whole document only when
    [json.dump] has returned. *)
Inductive merged_document : Type :=
  | Unfinished
  | Dumped (data : list MergedRecord).

Inductive WebElement : Type := Element (id : nat).

(** What [element.get_attribute('href')] does for one anchor element. *)
Inductive anchor : Type :=
  | Href (h : option string)
  | AttrRaises (e : exn).

Inductive platform : Type := Posix | Windows.

(** An order in which the names of a set come out, where the script has no
    say in it: the iteration of a Python set of str, the listing of a
    directory by the file system. *)
Record listing : Type := mkListing {
  in_order : gset string -> list string;
  in_order_perm : forall X, in_order X ≡ₚ elements X
}.

(** The listing of [elements]. *)
Definition by_elements : listing :=
  {| in_order := elements; in_order_perm := fun X => Permutation_refl _ |}.

Record Config : Type := mkConfig {
  base_url : string;
  target_count : Z;
  download_folder : string;
  merged_file : string;
  scroll_pause : Z;
  page_load_timeout : Z;
  headless : bool
}.

Definition CONFIG : Config := {|
  base_url := "https://openart.ai/workflows/all";
  target_count := 2000;
  download_folder := "./workflows";
  merged_file := "./workflows_merged.json";
  scroll_pause := 2;
  page_load_timeout := 30;
  headless := false
|}.

(** ** The environment

    Every external call the script makes is numbered (the [tick] of the
    state); the environment says, for each call number, whether the call
    raises and what it observes.  A call of [get_attribute] on an anchor is
    numbered too; what it returns or raises is given with the anchor. *)
Record Env : Type := mkEnv {
  (** the call with this number raises (a [get_attribute] call excepted,
      for which the anchor says) *)
  fault : nat -> option exn;
  (** [document.body.scrollHeight] *)
  page_height : nat -> Z;
  (** the anchors [find_elements] returns, each with what its
      [get_attribute('href')] will do *)
  page_links : nat -> list anchor;
  (** [find_element(By.XPATH, selector)]: [None] is NoSuchElementException *)
  locate : nat -> string -> option WebElement;
  (** [int(time.time())] *)
  clock : nat -> Z;
  (** what the browser process does to the download directory while the
      script sleeps or clicks *)
  browser_writes : nat -> gmap string string -> gmap string string;
  (** [json.load] on the text of a file; [None] is a decode error *)
  json_load : string -> option json;
  (** the merged list holds a str that UTF-8 cannot encode (a lone
      surrogate): [json.dump] to the file raises UnicodeEncodeError, a
      ValueError *)
  unencodable : list MergedRecord -> bool;
  (** the order in which Python iterates a set of str, by call number *)
  hash_order : nat -> listing;
  (** the order in which the file system lists a directory, by call number *)
  dir_order : nat -> listing;
  os_platform : platform
}.

(** ** Log lines

    One constructor per [logger] call of the script; the block of lines that
    [run] writes as its final summary is one [MsgSummary]. *)

Inductive level : Type := INFO | WARNING | ERROR.

Inductive log_msg : Type :=
  | MsgDriverInitialized
  | MsgOpening (url : string)
  | MsgCollectedSoFar (n : Z)
  | MsgFindError (e : exn)
  | MsgNoNewContent (attempts : Z)
  | MsgTotalCollected (n : Z)
  | MsgProcessing (index total : Z) (url : string)
  | MsgButtonNotFound (url : string)
  | MsgSavedAs (name : string)
  | MsgDownloadTimeout (url : string)
  | MsgPageLoadTimeout (url : string)
  | MsgDownloadError (url : string) (e : exn)
  | MsgMergeStart
  | MsgFoundFiles (n : Z)
  | MsgReadError (name : string) (e : exn)
  | MsgMerged (n : Z) (path : string)
  | MsgStarting
  | MsgPhase (n : Z)
  | MsgOnlyFound (n target : Z)
  | MsgProgress (idx total ok failed : Z)
  | MsgSummary (urls ok failed merged : Z) (path : string)
  | MsgFailedUrls
  | MsgFailedUrl (url : string)
  | MsgAndMore (n : Z)
  | MsgInterrupted
  | MsgUnexpected (e : exn)
  | MsgDriverClosed.

(** ** State: the fields of [OpenArtScraper] and the files it touches *)

Record State : Type := mkState {
  tick : nat;                          (* external calls made so far *)
  files : gmap string string;          (* the download folder: name -> text *)
  merged_out : option merged_document; (* merged_file, once opened for writing *)
  log : list (level * log_msg);
  driver : bool;                       (* self.driver is not None *)
  quit_calls : nat;                    (* calls of self.driver.quit() *)
  workflow_urls : gset string;
  downloaded_count : Z;
  failed_downloads : list string
}.

Definition set_tick (n : nat) (s : State) : State :=
  mkState n (files s) (merged_out s) (log s) (driver s) (quit_calls s)
          (workflow_urls s) (downloaded_count s) (failed_downloads s).
Definition set_files (f : gmap string string) (s : State) : State :=
  mkState (tick s) f (merged_out s) (log s) (driver s) (quit_calls s)
          (workflow_urls s) (downloaded_count s) (failed_downloads s).
Definition set_merged_out (m : option merged_document) (s : State) : State :=
  mkState (tick s) (files s) m (log s) (driver s) (quit_calls s)
          (workflow_urls s) (downloaded_count s) (failed_downloads s).
Definition set_log (l : list (level * log_msg)) (s : State) : State :=
  mkState (tick s) (files s) (merged_out s) l (driver s) (quit_calls s)
          (workflow_urls s) (downloaded_count s) (failed_downloads s).
Definition set_driver (d : bool) (s : State) : State :=
  mkState (tick s) (files s) (merged_out s) (log s) d (quit_calls s)
          (workflow_urls s) (downloaded_count s) (failed_downloads s).
Definition set_quit_calls (q : nat) (s : State) : State :=
  mkState (tick s) (files s) (merged_out s) (log s) (driver s) q
          (workflow_urls s) (downloaded_count s) (failed_downloads s).
Definition set_workflow_urls (u : gset string) (s : State) : State :=
  mkState (tick s) (files s) (merged_out s) (log s) (driver s) (quit_calls s)
          u (downloaded_count s) (failed_downloads s).
Definition set_downloaded_count (c : Z) (s : State) : State :=
  mkState (tick s) (files s) (merged_out s) (log s) (driver s) (quit_calls s)
          (workflow_urls s) c (failed_downloads s).
Definition set_failed_downloads (l : list string) (s : State) : State :=
  mkState (tick s) (files s) (merged_out s) (log s) (driver s) (quit_calls s)
          (workflow_urls s) (downloaded_count s) l.

(** [OpenArtScraper.__init__] over a download folder with the given files. *)
Definition init (dir : gmap string string) : State :=
  mkState 0 dir None [] false 0 ∅ 0 [].

(** ** The monad *)

Definition M (A : Type) : Type := State -> res A * State.

Definition ret {A} (a : A) : M A := fun s => (Val a, s).

Definition bind {A B} (m : M A) (k : A -> M B) : M B :=
  fun s =>
    match m s with
    | (Val a, s') => k a s'
    | (Raise e, s') => (Raise e, s')
    | (OutOfFuel, s') => (OutOfFuel, s')
    end.

Definition raise {A} (e : exn) : M A := fun s => (Raise e, s).
Definition out_of_fuel {A} : M A := fun s => (OutOfFuel, s).

Notation "x <- m1 ;; m2" := (bind m1 (fun x => m2))
  (at level 100, m1 at next level, right associativity).
Notation "m1 ;;; m2" := (bind m1 (fun _ => m2))
  (at level 100, right associativity).

Definition get_state : M State := fun s => (Val s, s).
Definition modify (f : State -> State) : M unit := fun s => (Val tt, f s).

(** [try: body  except <handles>: handler] *)
Definition try_except {A} (body : M A) (handles : exn -> bool)
    (handler : exn -> M A) : M A :=
  fun s =>
    match body s with
    | (Raise e, s') => if handles e then handler e s' else (Raise e, s')
    | r => r
    end.

(** [try: body  except <handles1>: handler1  except <handles2>: handler2];
    the first matching clause runs, and what it raises is not caught by the
    second. *)
Definition try_except2 {A} (body : M A)
    (handles1 : exn -> bool) (handler1 : exn -> M A)
    (handles2 : exn -> bool) (handler2 : exn -> M A) : M A :=
  fun s =>
    match body s with
    | (Raise e, s') =>
        if handles1 e then handler1 e s'
        else if handles2 e then handler2 e s'
        else (Raise e, s')
    | r => r
    end.

(** [try: body  finally: fin].  A body that never finishes never reaches
    the [finally] block. *)
Definition try_finally {A} (body : M A) (fin : M unit) : M A :=
  fun s =>
    match body s with
    | (OutOfFuel, s') => (OutOfFuel, s')
    | (r, s') =>
        match fin s' with
        | (Val _, s'') => (r, s'')
        | (Raise e, s'') => (Raise e, s'')
        | (OutOfFuel, s'') => (OutOfFuel, s'')
        end
    end.

Definition logger (l : level) (m : log_msg) : M unit :=
  modify (fun s => set_log (log s ++ [(l, m)])%list s).

(** ** The script *)

Section Scraper.

Variable env : Env.
Variable config : Config.

(** An external call: it takes the next call number, raises if the
    environment says so, and otherwise runs [f] with that number. *)
Definition external {A} (f : nat -> M A) : M A :=
  fun s =>
    let n := tick s in
    let s' := set_tick (S n) s in
    match fault env n with
    | Some e => (Raise e, s')
    | None => f n s'
    end.

(** *** Browser *)

(** [webdriver.Chrome(options=...)], assigned to [self.driver]. *)
Definition webdriver_Chrome : M unit :=
  external (fun _ => modify (set_driver true)).

Definition driver_set_page_load_timeout (secs : Z) : M unit :=
  external (fun _ => ret tt).

Definition driver_get (url : string) : M unit :=
  external (fun _ => ret tt).

(** [execute_script("return document.body.scrollHeight")] *)
Definition driver_scroll_height : M Z :=
  external (fun n => ret (page_height env n)).

(** [execute_script("window.scrollTo(0, document.body.scrollHeight);")] *)
Definition driver_scroll_to_bottom : M unit :=
  external (fun _ => ret tt).

(** [find_elements(By.CSS_SELECTOR, 'a[href*="/workflows/"]')] *)
Definition driver_find_elements : M (list anchor) :=
  external (fun n => ret (page_links env n)).

(** [element.get_attribute('href')]: one more call to the browser, which
    returns or raises what the anchor says. *)
Definition element_get_attribute (el : anchor) : M (option string) :=
  fun s =>
    let s' := set_tick (S (tick s)) s in
    match el with
    | Href h => (Val h, s')
    | AttrRaises e => (Raise e, s')
    end.

(** [WebDriverWait(driver, timeout).until(presence_of_element_located(body))] *)
Definition wait_for_body (timeout : Z) : M unit :=
  external (fun _ => ret tt).

Definition driver_find_element (selector : string) : M WebElement :=
  external (fun n =>
    match locate env n selector with
    | Some el => ret el
    | None => raise NoSuchElementException
    end).

(** [download_button.click()]: the browser may start writing files. *)
Definition element_click (el : WebElement) : M unit :=
  external (fun n => modify (fun s => set_files (browser_writes env n (files s)) s)).

(** [self.driver.quit()]; the call is counted whether or not it raises. *)
Definition driver_quit : M unit :=
  modify (fun s => set_quit_calls (S (quit_calls s)) s) ;;;
  external (fun _ => ret tt).

(** *** Clock *)

(** [time.sleep(secs)]: the browser keeps working meanwhile. *)
Definition time_sleep (secs : Z) : M unit :=
  external (fun n => modify (fun s => set_files (browser_writes env n (files s)) s)).

(** [int(time.time())] *)
Definition time_time : M Z :=
  external (fun n => ret (clock env n)).

(** *** Files of the download folder, addressed by name *)

(** [set(os.listdir(self.download_folder))] *)
Definition os_listdir : M (gset string) :=
  external (fun _ => s <- get_state ;; ret (dom (files s))).

(** [path.exists()] *)
Definition path_exists (name : string) : M bool :=
  external (fun _ => s <- get_state ;; ret (bool_decide (name ∈ dom (files s)))).

(** [os.rename(old, new)]: on POSIX an existing destination is replaced
    silently, on Windows it makes the call raise. *)
Definition os_rename (old new : string) : M unit :=
  external (fun _ =>
    s <- get_state ;;
    match files s !! old with
    | None => raise OSError
    | Some text =>
        if bool_decide (old = new) then ret tt
        else
          match os_platform env, files s !! new with
          | Windows, Some _ => raise OSError
          | _, _ => modify (set_files (<[new := text]> (delete old (files s))))
          end
    end).

(** [list(self.download_folder.glob(pattern))], as file names, in the
    order the file system lists them. *)
Definition folder_glob (pattern : string) : M (list string) :=
  external (fun n =>
    s <- get_state ;;
    ret (filter (fun name => PyStr.fnmatch pattern name = true)
                (in_order (dir_order env n) (dom (files s))))).

(** [with open(json_file, 'r', encoding='utf-8') as f: json.load(f)] *)
Definition open_and_load (name : string) : M json :=
  external (fun _ =>
    s <- get_state ;;
    match files s !! name with
    | None => raise OSError
    | Some text =>
        match json_load env text with
        | Some data => ret data
        | None => raise ValueError
        end
    end).

(** [open(merged_path, 'w', encoding='utf-8')]: the file is created, or
    truncated if it exists. *)
Definition open_for_writing : M unit :=
  external (fun _ => modify (set_merged_out (Some Unfinished))).

(** [json.dump(data, f, indent=2, ensure_ascii=False)] and the close of the
    file at the end of the [with] block: the file holds the document only
    when the dump has gone through. *)
Definition json_dump (data : list MergedRecord) : M unit :=
  external (fun _ =>
    if unencodable env data then raise ValueError
    else modify (set_merged_out (Some (Dumped data)))).

(** [with open(merged_path, 'w', encoding='utf-8') as f: json.dump(data, f, ...)] *)
Definition open_and_dump (data : list MergedRecord) : M unit :=
  open_for_writing ;;;
  json_dump data.

(** *** setup_driver *)

Definition setup_driver : M unit :=
  webdriver_Chrome ;;;
  driver_set_page_load_timeout 30 ;;;
  logger INFO MsgDriverInitialized.

(** *** scroll_and_collect_urls *)

Definition py_len_set (u : gset string) : Z := Z.of_nat (size u).

(** The two nested [if]s of the [for element] body: does [url] get added? *)
Definition qualifies (url : option string) (seen : gset string) : bool :=
  match url with
  | None => false
  | Some u =>
      negb (String.eqb u "")
      && PyStr.contains "/workflows/" u
      && negb (bool_decide (u ∈ seen))
      && (negb (String.eqb u (base_url config))
          && negb (PyStr.endswith u "/workflows/all"))
  end.

(** [for element in workflow_elements: try: ... except
    StaleElementReferenceException: continue] *)
Fixpoint collect_from (elements : list anchor) : M unit :=
  match elements with
  | [] => ret tt
  | el :: rest =>
      try_except
        (url <- element_get_attribute el ;;
         s <- get_state ;;
         if qualifies url (workflow_urls s)
         then match url with
              | Some u => modify (set_workflow_urls ({[u]} ∪ workflow_urls s))
              | None => ret tt
              end
         else ret tt)
        is_StaleElementReferenceException
        (fun _ => ret tt) ;;;
      collect_from rest
  end.

Definition max_no_new_attempts : Z := 5.

(** The [try] block of the loop body: scrape the anchors on the page. *)
Definition scrape_links : M unit :=
  try_except
    (workflow_elements <- driver_find_elements ;;
     collect_from workflow_elements ;;;
     s <- get_state ;;
     logger INFO (MsgCollectedSoFar (py_len_set (workflow_urls s))))
    is_Exception
    (fun e => logger ERROR (MsgFindError e)).

(** One pass of the loop body up to the height check: scrape, scroll to
    the bottom, pause, read the new height. *)
Definition scroll_attempt : M Z :=
  scrape_links ;;;
  driver_scroll_to_bottom ;;;
  time_sleep (scroll_pause config) ;;;
  driver_scroll_height.

(** The [while] loop; [fuel] bounds the number of iterations tried. *)
Fixpoint scroll_loop (fuel : nat) (last_height no_new_content_count : Z)
    : M unit :=
  s <- get_state ;;
  if negb (py_len_set (workflow_urls s) <? target_count config)%Z then ret tt
  else
    match fuel with
    | O => out_of_fuel
    | S fuel' =>
        new_height <- scroll_attempt ;;
        if (new_height =? last_height)%Z then
          let no_new_content_count := (no_new_content_count + 1)%Z in
          if (max_no_new_attempts <=? no_new_content_count)%Z then
            logger WARNING (MsgNoNewContent max_no_new_attempts)
          else scroll_loop fuel' last_height no_new_content_count
        else scroll_loop fuel' new_height 0
    end.

Definition scroll_and_collect_urls (fuel : nat) : M (list string) :=
  logger INFO (MsgOpening (base_url config)) ;;;
  driver_get (base_url config) ;;;
  time_sleep 5 ;;;
  last_height <- driver_scroll_height ;;
  scroll_loop fuel last_height 0 ;;;
  s <- get_state ;;
  logger INFO (MsgTotalCollected (py_len_set (workflow_urls s))) ;;;
  ret (in_order (hash_order env (tick s)) (workflow_urls s)).

(** *** download_workflow *)

Definition selectors : list string :=
  [ "//button[contains(text(), 'Download')]";
    "//button[contains(text(), 'download')]";
    "//a[contains(text(), 'Download')]";
    "//button[contains(@class, 'download')]";
    "//a[contains(@href, '.json')]";
    "//button[.//span[contains(text(), 'Download')]]" ].

(** [for selector in selectors: try: ...; break  except
    NoSuchElementException: continue]; [None] when no selector matched. *)
Fixpoint find_download_button (sels : list string) : M (option WebElement) :=
  match sels with
  | [] => ret None
  | selector :: rest =>
      try_except
        (download_button <- driver_find_element selector ;;
         ret (Some download_button))
        is_NoSuchElementException
        (fun _ => find_download_button rest)
  end.

(** [f"workflow_{index}.json"] *)
Definition workflow_name (index : Z) : string :=
  "workflow_" +:+ PyStr.str_int index +:+ ".json".

(** [f"workflow_{index}_{int(time.time())}.json"] *)
Definition workflow_name_stamped (index now : Z) : string :=
  "workflow_" +:+ PyStr.str_int index +:+ "_" +:+ PyStr.str_int now +:+ ".json".

Definition is_partial (f : string) : bool :=
  PyStr.endswith_any f [".crdownload"; ".tmp"].

(** A partial-download marker, in the words of the specification: a name
    ending in [.crdownload] or [.tmp]. *)
Definition partial_marker (f : string) : Prop :=
  exists stem, f = stem +:+ ".crdownload" \/ f = stem +:+ ".tmp".

(** [[f for f in new_files if not f.endswith(('.crdownload', '.tmp'))]],
    [new_files] being a set that Python iterates in the order [o]. *)
Definition completed_files (o : listing) (new_files : gset string)
    : list string :=
  filter (fun f => is_partial f = false) (in_order o new_files).

(** The rename step: the destination is [workflow_<index>.json], or the
    time-stamped name when that one exists.  Returns the destination. *)
Definition rename_download (completed : string) (index : Z) : M string :=
  let old_path := completed in
  let new_path := workflow_name index in
  taken <- path_exists new_path ;;
  new_path <- (if taken : bool
               then now <- time_time ;; ret (workflow_name_stamped index now)
               else ret new_path) ;;
  os_rename old_path new_path ;;;
  ret new_path.

Definition record_failure (url : string) : M unit :=
  modify (fun s => set_failed_downloads (failed_downloads s ++ [url])%list s).

(** What the poll loop does with the file it picked: rename, log, count,
    [return True]. *)
Definition save_download (completed : string) (index : Z) : M bool :=
  new_path <- rename_download completed index ;;
  logger INFO (MsgSavedAs new_path) ;;;
  modify (fun s => set_downloaded_count (downloaded_count s + 1)%Z s) ;;;
  ret true.

Definition max_wait : nat := 30.

(** [while elapsed < max_wait]; [remaining] is [max_wait - elapsed].  The
    set of new files is iterated in the order Python has for it after the
    listing call. *)
Fixpoint wait_for_download (remaining : nat) (url : string) (index : Z)
    (initial_files : gset string) : M bool :=
  match remaining with
  | O =>
      logger WARNING (MsgDownloadTimeout url) ;;;
      record_failure url ;;;
      ret false
  | S remaining' =>
      current_files <- os_listdir ;;
      let new_files := current_files ∖ initial_files in
      s <- get_state ;;
      match completed_files (hash_order env (tick s)) new_files with
      | completed :: _ => save_download completed index
      | [] =>
          time_sleep 1 ;;;
          wait_for_download remaining' url index initial_files
      end
  end.

(** The [try] body of [download_workflow] after its first log line. *)
Definition download_steps (url : string) (index : Z) : M bool :=
  driver_get url ;;;
  wait_for_body (page_load_timeout config) ;;;
  time_sleep 2 ;;;
  download_button <- find_download_button selectors ;;
  match download_button with
  | None =>
      logger WARNING (MsgButtonNotFound url) ;;;
      record_failure url ;;;
      ret false
  | Some button =>
      initial_files <- os_listdir ;;
      element_click button ;;;
      time_sleep 3 ;;;
      wait_for_download max_wait url index initial_files
  end.

Definition download_workflow (url : string) (index : Z) : M bool :=
  try_except2
    (s <- get_state ;;
     logger INFO (MsgProcessing index (py_len_set (workflow_urls s)) url) ;;;
     download_steps url index)
    is_TimeoutException
    (fun _ =>
       logger ERROR (MsgPageLoadTimeout url) ;;;
       record_failure url ;;;
       ret false)
    is_Exception
    (fun e =>
       logger ERROR (MsgDownloadError url e) ;;;
       record_failure url ;;;
       ret false).

(** *** merge_json_files *)

Definition py_len {A} (l : list A) : Z := Z.of_nat (length l).

(** [for json_file in json_files: try: ... except Exception: ...] *)
Fixpoint merge_loop (json_files : list string)
    (merged_data : list MergedRecord) : M (list MergedRecord) :=
  match json_files with
  | [] => ret merged_data
  | json_file :: rest =>
      merged_data <-
        try_except
          (data <- open_and_load json_file ;;
           ret (merged_data ++ [mkRecord json_file data])%list)
          is_Exception
          (fun e =>
             logger ERROR (MsgReadError json_file e) ;;;
             ret merged_data) ;;
      merge_loop rest merged_data
  end.

Definition merge_json_files : M Z :=
  logger INFO MsgMergeStart ;;;
  json_files <- folder_glob "workflow_*.json" ;;
  logger INFO (MsgFoundFiles (py_len json_files)) ;;;
  merged_data <- merge_loop json_files [] ;;
  open_and_dump merged_data ;;;
  logger INFO (MsgMerged (py_len merged_data) (merged_file config)) ;;;
  ret (py_len merged_data).

(** *** run *)

(** [for idx, url in enumerate(workflow_urls, 1)] *)
Fixpoint download_all (urls : list string) (idx total : Z) : M unit :=
  match urls with
  | [] => ret tt
  | url :: rest =>
      download_workflow url idx ;;;
      (if (idx mod 50 =? 0)%Z
       then s <- get_state ;;
            logger INFO (MsgProgress idx total (downloaded_count s)
                                     (py_len (failed_downloads s)))
       else ret tt) ;;;
      download_all rest (idx + 1)%Z total
  end.

Fixpoint log_each (urls : list string) : M unit :=
  match urls with
  | [] => ret tt
  | url :: rest => logger INFO (MsgFailedUrl url) ;;; log_each rest
  end.

(** The final summary of [run]. *)
Definition report (urls : list string) (merged_count : Z) : M unit :=
  s <- get_state ;;
  logger INFO (MsgSummary (py_len urls) (downloaded_count s)
                          (py_len (failed_downloads s)) merged_count
                          (merged_file config)) ;;;
  match failed_downloads s with
  | [] => ret tt
  | _ =>
      logger INFO MsgFailedUrls ;;;
      log_each (take 10 (failed_downloads s)) ;;;
      if (10 <? py_len (failed_downloads s))%Z
      then logger INFO (MsgAndMore (py_len (failed_downloads s) - 10)%Z)
      else ret tt
  end.

(** What [run] does once the URLs are collected: warn if below target,
    download each, merge, report. *)
Definition download_and_merge (urls : list string) : M unit :=
  (if (py_len urls <? target_count config)%Z
   then logger WARNING (MsgOnlyFound (py_len urls) (target_count config))
   else ret tt) ;;;
  logger INFO (MsgPhase 2) ;;;
  download_all urls 1 (py_len urls) ;;;
  logger INFO (MsgPhase 3) ;;;
  merged_count <- merge_json_files ;;
  report urls merged_count.

(** The body of the [try] in [run]. *)
Definition run_body (fuel : nat) : M unit :=
  logger INFO MsgStarting ;;;
  setup_driver ;;;
  logger INFO (MsgPhase 1) ;;;
  urls <- scroll_and_collect_urls fuel ;;
  download_and_merge urls.

(** The [finally] block of [run]. *)
Definition run_cleanup : M unit :=
  s <- get_state ;;
  if driver s
  then driver_quit ;;; logger INFO MsgDriverClosed
  else ret tt.

Definition run (fuel : nat) : M unit :=
  try_finally
    (try_except2 (run_body fuel)
       is_KeyboardInterrupt (fun _ => logger INFO MsgInterrupted)
       is_Exception (fun e => logger ERROR (MsgUnexpected e)))
    run_cleanup.

End Scraper.

(** ** Vocabulary for statements about runs *)

(** [Q] holds of the result and final state of [m] started in [s]. *)
Definition wp {A} (m : M A) (Q : res A -> State -> Prop) (s : State) : Prop :=
  Q (m s).1 (m s).2.

(** Whatever [m] does, the final state is [R]-related to the initial one. *)
Definition stable {A} (R : State -> State -> Prop) (m : M A) : Prop :=
  forall s, R s (m s).2.

(** [m] always finishes, with a value or an exception. *)
Definition total {A} (m : M A) : Prop :=
  forall s, (m s).1 <> OutOfFuel.

(** The download attempts a log records: the (index, url) of each
    [Processing] line, which [download_workflow] writes first thing. *)
Definition is_attempt (m : log_msg) : bool :=
  match m with MsgProcessing _ _ _ => true | _ => false end.

Fixpoint attempts (l : list (level * log_msg)) : list (Z * string) :=
  match l with
  | [] => []
  | (_, MsgProcessing index _ url) :: l' => (index, url) :: attempts l'
  | _ :: l' => attempts l'
  end.

(** A relation between states that no external call and no log line other
    than a [Processing] line can break. *)
Class Frame (R : State -> State -> Prop) : Prop := {
  frame_preorder :: PreOrder R;
  frame_tick : forall s, R s (set_tick (S (tick s)) s);
  frame_files : forall f s, R s (set_files f s);
  frame_log : forall lvl m s,
    is_attempt m = false -> R s (set_log (log s ++ [(lvl, m)])%list s)
}.

Definition same_browser (s s' : State) : Prop :=
  quit_calls s' = quit_calls s /\ driver s' = driver s.

Definition same_counters (s s' : State) : Prop :=
  downloaded_count s' = downloaded_count s
  /\ failed_downloads s' = failed_downloads s.

Definition same_attempts (s s' : State) : Prop :=
  attempts (log s') = attempts (log s).

Definition same_merged (s s' : State) : Prop :=
  merged_out s' = merged_out s.

Definition later (s s' : State) : Prop := (tick s <= tick s')%nat.

(** No external call from call number [n] on raises. *)
Definition quiet (env : Env) (n : nat) : Prop :=
  forall k, (n <= k)%nat -> fault env k = None.

(** Every exception [m] can raise satisfies [P]. *)
Definition raises {A} (P : exn -> Prop) (m : M A) : Prop :=
  forall s e, (m s).1 = Raise e -> P e.

(** The last log line reports the failure of [url], at WARNING or ERROR. *)
Definition failure_logged (url : string) (s : State) : Prop :=
  exists lvl msg,
    last (log s) = Some (lvl, msg)
    /\ lvl <> INFO
    /\ (msg = MsgButtonNotFound url \/ msg = MsgDownloadTimeout url
        \/ msg = MsgPageLoadTimeout url \/ exists e, msg = MsgDownloadError url e).

(** The two outcomes a call of [download_workflow] for [url] can have on
    the run counters: a success counted once, or a failure recorded once. *)
Definition exactly_one_outcome (url : string) (s : State) (r : res bool)
    (s' : State) : Prop :=
  (r = Val true
   /\ downloaded_count s' = (downloaded_count s + 1)%Z
   /\ failed_downloads s' = failed_downloads s)
  \/ (r = Val false
      /\ downloaded_count s' = downloaded_count s
      /\ failed_downloads s' = (failed_downloads s ++ [url])%list).

(** What a call of [download_workflow] for [url] does: one of the two
    outcomes, a failure being logged, or an exception that is not an
    [Exception] passing through with both counters untouched. *)
Definition download_outcome (url : string) (s : State) (r : res bool)
    (s' : State) : Prop :=
  match r with
  | Val true =>
      downloaded_count s' = (downloaded_count s + 1)%Z
      /\ failed_downloads s' = failed_downloads s
  | Val false =>
      downloaded_count s' = downloaded_count s
      /\ failed_downloads s' = (failed_downloads s ++ [url])%list
      /\ failure_logged url s'
  | Raise e => is_Exception e = false /\ same_counters s s'
  | OutOfFuel => False
  end.

(** The same for the [try] body, before the [except] clauses have run. *)
Definition steps_outcome (url : string) (s : State) (r : res bool)
    (s' : State) : Prop :=
  match r with
  | Val true =>
      downloaded_count s' = (downloaded_count s + 1)%Z
      /\ failed_downloads s' = failed_downloads s
  | Val false =>
      downloaded_count s' = downloaded_count s
      /\ failed_downloads s' = (failed_downloads s ++ [url])%list
      /\ failure_logged url s'
  | Raise e => same_counters s s'
  | OutOfFuel => False
  end.

(** [enumerate(urls, idx)] *)
Fixpoint enumerate (urls : list string) (idx : Z) : list (Z * string) :=
  match urls with
  | [] => []
  | url :: rest => (idx, url) :: enumerate rest (idx + 1)%Z
  end.

(** ** Vocabulary for the merger *)

(** A file name of the form [workflow_<anything>.json]. *)
Definition workflow_file (name : string) : Prop :=
  exists mid, name = "workflow_" +:+ mid +:+ ".json".

(** The names [glob("workflow_*.json")] lists in a folder, here in the
    order of [elements]; the file system has its own. *)
Definition merge_candidates (dir : gmap string string) : list string :=
  filter (fun name => PyStr.fnmatch "workflow_*.json" name = true)
         (elements (dom dir)).

(** The same names in the order [o], as [glob] lists them when the file
    system lists the folder in that order. *)
Definition listed_candidates (o : listing) (dir : gmap string string)
    : list string :=
  filter (fun name => PyStr.fnmatch "workflow_*.json" name = true)
         (in_order o (dom dir)).

(** Why reading [name] fails, if it does. *)
Definition read_error (env : Env) (dir : gmap string string) (name : string)
    : option exn :=
  match dir !! name with
  | None => Some OSError
  | Some text =>
      match json_load env text with
      | None => Some ValueError
      | Some _ => None
      end
  end.

(** The merged entry [name] contributes when it reads and parses. *)
Definition load_entry (env : Env) (dir : gmap string string) (name : string)
    : option MergedRecord :=
  match dir !! name with
  | None => None
  | Some text =>
      match json_load env text with
      | None => None
      | Some data => Some (mkRecord name data)
      end
  end.

Definition read_error_line (env : Env) (dir : gmap string string)
    (name : string) : option (level * log_msg) :=
  match read_error env dir name with
  | Some e => Some (ERROR, MsgReadError name e)
  | None => None
  end.

(** ** Vocabulary for the URL collector *)

(** No URL of the set is the listing page or ends in the listing path. *)
Definition clean (config : Config) (urls : gset string) : Prop :=
  forall u, u ∈ urls ->
    u <> base_url config /\ PyStr.endswith u "/workflows/all" = false.

Definition keeps_clean (config : Config) (s s' : State) : Prop :=
  clean config (workflow_urls s) -> clean config (workflow_urls s').

Definition log_grows (s s' : State) : Prop :=
  exists l, log s' = (log s ++ l)%list.

(** Between [s] and [s'] a prefix of [enumerate(urls, 1)] was attempted, in
    order, and nothing else. *)
Definition attempted (s : State) (urls : list string) (s' : State) : Prop :=
  exists k,
    attempts (log s') = (attempts (log s) ++ take k (enumerate urls 1))%list.

(** ** Example environments and folders *)

Module Examples.

(** A page with two workflow links whose height never changes; the third
    selector finds the button; nothing ever raises; the browser writes
    nothing. *)
Definition still_page : Env := {|
  fault := fun _ => None;
  page_height := fun _ => 1080;
  page_links := fun _ =>
    [ Href (Some "https://openart.ai/workflows/cat/1");
      Href (Some "https://openart.ai/workflows/all");
      Href None;
      AttrRaises StaleElementReferenceException;
      Href (Some "https://openart.ai/workflows/dog/2") ];
  locate := fun _ selector =>
    if String.eqb selector "//a[contains(text(), 'Download')]"
    then Some (Element 0) else None;
  clock := fun _ => 1700000000;
  browser_writes := fun _ dir => dir;
  json_load := fun _ => None;
  unencodable := fun _ => false;
  hash_order := fun _ => by_elements;
  dir_order := fun _ => by_elements;
  os_platform := Posix
|}.

(** The same, but the first external call is interrupted by the user. *)
Definition interrupted : Env := {|
  fault := fun n => match n with O => Some KeyboardInterrupt | _ => None end;
  page_height := page_height still_page;
  page_links := page_links still_page;
  locate := locate still_page;
  clock := clock still_page;
  browser_writes := browser_writes still_page;
  json_load := json_load still_page;
  unencodable := fun _ => false;
  hash_order := fun _ => by_elements;
  dir_order := fun _ => by_elements;
  os_platform := Posix
|}.

(** A page that grows at every look and never shows a workflow link. *)
Definition growing_page : Env := {|
  fault := fun _ => None;
  page_height := fun n => Z.of_nat n;
  page_links := fun _ => [];
  locate := fun _ _ => None;
  clock := fun _ => 1700000000;
  browser_writes := fun _ dir => dir;
  json_load := fun _ => None;
  unencodable := fun _ => false;
  hash_order := fun _ => by_elements;
  dir_order := fun _ => by_elements;
  os_platform := Posix
|}.

(** The user interrupts while the listing page is being scrolled. *)
Definition interrupted_while_scrolling : Env := {|
  fault := fun n => if Nat.eqb n 11 then Some KeyboardInterrupt else None;
  page_height := page_height still_page;
  page_links := page_links still_page;
  locate := locate still_page;
  clock := clock still_page;
  browser_writes := browser_writes still_page;
  json_load := json_load still_page;
  unencodable := fun _ => false;
  hash_order := fun _ => by_elements;
  dir_order := fun _ => by_elements;
  os_platform := Posix
|}.

(** The browser crashes while the listing page is being scrolled. *)
Definition crashing_browser : Env := {|
  fault := fun n => if Nat.eqb n 11 then Some WebDriverException else None;
  page_height := page_height still_page;
  page_links := page_links still_page;
  locate := locate still_page;
  clock := clock still_page;
  browser_writes := browser_writes still_page;
  json_load := json_load still_page;
  unencodable := fun _ => false;
  hash_order := fun _ => by_elements;
  dir_order := fun _ => by_elements;
  os_platform := Posix
|}.

(** A listing page without any workflow link. *)
Definition empty_page : Env := {|
  fault := fun _ => None;
  page_height := fun _ => 1080;
  page_links := fun _ => [];
  locate := fun _ _ => None;
  clock := fun _ => 1700000000;
  browser_writes := fun _ dir => dir;
  json_load := fun _ => None;
  unencodable := fun _ => false;
  hash_order := fun _ => by_elements;
  dir_order := fun _ => by_elements;
  os_platform := Posix
|}.

(** The item page never gets ready: the wait for its body times out. *)
Definition slow_page : Env := {|
  fault := fun n => if Nat.eqb n 1 then Some TimeoutException else None;
  page_height := page_height still_page;
  page_links := page_links still_page;
  locate := locate still_page;
  clock := clock still_page;
  browser_writes := browser_writes still_page;
  json_load := json_load still_page;
  unencodable := fun _ => false;
  hash_order := fun _ => by_elements;
  dir_order := fun _ => by_elements;
  os_platform := Posix
|}.

(** A folder in which a finished download sits next to a partial one. *)
Definition downloading_folder : gmap string string :=
  <["flow.json" := "{}"]> (<["other.json.crdownload" := ""]> ∅).

Definition cat_url : string := "https://openart.ai/workflows/cat/1".

(** A folder left by two earlier runs, plus a fresh download. *)
Definition crowded_folder : gmap string string :=
  <["workflow_1.json" := "first"]>
    (<["workflow_1_1700000000.json" := "second"]>
       (<["download.json" := "third"]> ∅)).

Definition dquote : string := String (Ascii.ascii_of_nat 34) EmptyString.

(** The text of an object with one member, a mapped to 1, and its parse. *)
Definition a1_text : string := "{" +:+ dquote +:+ "a" +:+ dquote +:+ ":1}".
Definition a1_json : json := JObj [("a", JNum 1)].

(** An environment whose json library accepts that one document. *)
Definition one_document : Env := {|
  fault := fun _ => None;
  page_height := page_height still_page;
  page_links := page_links still_page;
  locate := locate still_page;
  clock := clock still_page;
  browser_writes := browser_writes still_page;
  json_load := fun text => if String.eqb text a1_text then Some a1_json else None;
  unencodable := fun _ => false;
  hash_order := fun _ => by_elements;
  dir_order := fun _ => by_elements;
  os_platform := Posix
|}.

(** The text of a JSON string whose one character is an escaped lone
    surrogate, and a folder with one workflow file holding it. *)
Definition surrogate_text : string := dquote +:+ "\ud800" +:+ dquote.

Definition surrogate_folder : gmap string string :=
  <["workflow_1.json" := surrogate_text]> ∅.

(** The json library reads that text as a str holding the lone surrogate,
    which [json.dump] cannot write to a UTF-8 file: UnicodeEncodeError, a
    ValueError.  It reads nothing else, so that every list with an entry is
    unencodable. *)
Definition lone_surrogate : Env := {|
  fault := fun _ => None;
  page_height := page_height still_page;
  page_links := page_links still_page;
  locate := locate still_page;
  clock := clock still_page;
  browser_writes := browser_writes still_page;
  json_load := fun text =>
    if String.eqb text surrogate_text then Some (JStr "\ud800") else None;
  unencodable := fun data => match data with [] => false | _ => true end;
  hash_order := fun _ => by_elements;
  dir_order := fun _ => by_elements;
  os_platform := Posix
|}.

(** The listing of [elements] backwards. *)
Definition backwards : listing :=
  {| in_order := fun X => reverse (elements X);
     in_order_perm := fun X => reverse_Permutation _ |}.

(** Python iterates its sets backwards. *)
Definition backwards_sets : Env := {|
  fault := fun _ => None;
  page_height := page_height still_page;
  page_links := page_links still_page;
  locate := locate still_page;
  clock := clock still_page;
  browser_writes := browser_writes still_page;
  json_load := json_load still_page;
  unencodable := fun _ => false;
  hash_order := fun _ => backwards;
  dir_order := fun _ => by_elements;
  os_platform := Posix
|}.

Definition two_workflows : gmap string string :=
  <["workflow_1.json" := a1_text]> (<["workflow_2.json" := "<corrupt>"]> ∅).

End Examples.

(** ** The entry point *)

(** [main()]: a scraper over [CONFIG], then [run()]; [dir] is what the
    download folder holds when the process starts. *)
Definition main (env : Env) (fuel : nat) (dir : gmap string string)
    : res unit * State :=
  run env CONFIG fuel (init dir).

(** ** More vocabulary *)

(** The tests of the collector on one href that do not depend on what has
    been collected so far. *)
Definition link_ok (config : Config) (u : string) : bool :=
  negb (String.eqb u "")
  && PyStr.contains "/workflows/" u
  && (negb (String.eqb u (base_url config))
      && negb (PyStr.endswith u "/workflows/all")).

(** An anchor whose [get_attribute] returns, or raises the one exception the
    collector skips. *)
Definition readable (el : anchor) : Prop :=
  match el with
  | Href _ => True
  | AttrRaises e => e = StaleElementReferenceException
  end.

(** Every URL of the set passed the collector's tests and was the href of
    an anchor the page showed at some call. *)
Definition from_page (env : Env) (config : Config) (urls : gset string) : Prop :=
  forall u, u ∈ urls ->
    link_ok config u = true /\ exists n, Href (Some u) ∈ page_links env n.

Definition keeps_from_page (env : Env) (config : Config) (s s' : State) : Prop :=
  from_page env config (workflow_urls s) ->
  from_page env config (workflow_urls s').

Definition urls_grow (s s' : State) : Prop :=
  workflow_urls s ⊆ workflow_urls s'.

(** [extra] is what the merger's loop gets from the files [names], read one
    per call from call number [n] on: entries in the order of the names and
    at most one for each, every entry the parse of the file it names, and no
    entry missing of a file whose read goes through and parses. *)
Definition merged_from (env : Env) (dir : gmap string string) (n : nat)
    (names : list string) (extra : list MergedRecord) : Prop :=
  sublist (filename <$> extra) names
  /\ Forall (fun r => load_entry env dir (filename r) = Some r) extra
  /\ (forall i name r,
        names !! i = Some name ->
        fault env (n + i) = None ->
        load_entry env dir name = Some r ->
        r ∈ extra).

(** The log lines [report] writes about the failures. *)
Definition failure_lines (failed : list string) : list (level * log_msg) :=
  match failed with
  | [] => []
  | _ =>
      [(INFO, MsgFailedUrls)]
        ++ ((fun url => (INFO, MsgFailedUrl url)) <$> take 10 failed)
        ++ (if (10 <? py_len failed)%Z
            then [(INFO, MsgAndMore (py_len failed - 10)%Z)]
            else [])
  end%list.

Module MoreExamples.

Import Examples.

(** The second selector finds the button, the first does not. *)
Definition second_selector : Env := {|
  fault := fun _ => None;
  page_height := page_height still_page;
  page_links := page_links still_page;
  locate := fun _ selector =>
    if String.eqb selector "//button[contains(text(), 'download')]"
    then Some (Element 7) else None;
  clock := clock still_page;
  browser_writes := browser_writes still_page;
  json_load := json_load still_page;
  unencodable := fun _ => false;
  hash_order := fun _ => by_elements;
  dir_order := fun _ => by_elements;
  os_platform := Posix
|}.

(** A folder holding one finished download and nothing else. *)
Definition fresh_download : gmap string string :=
  <["download.json" := "third"]> ∅.

(** The browser cannot be started. *)
Definition no_browser : Env := {|
  fault := fun n => match n with O => Some WebDriverException | _ => None end;
  page_height := page_height still_page;
  page_links := page_links still_page;
  locate := locate still_page;
  clock := clock still_page;
  browser_writes := browser_writes still_page;
  json_load := json_load still_page;
  unencodable := fun _ => false;
  hash_order := fun _ => by_elements;
  dir_order := fun _ => by_elements;
  os_platform := Posix
|}.

(** The first selector finds the button, and the click makes the browser
    write one finished file. *)
Definition downloading : Env := {|
  fault := fun _ => None;
  page_height := page_height still_page;
  page_links := page_links still_page;
  locate := fun _ selector =>
    if String.eqb selector "//button[contains(text(), 'Download')]"
    then Some (Element 1) else None;
  clock := clock still_page;
  browser_writes := fun n dir =>
    if Nat.eqb n 5 then <["cat.json" := "{}"]> dir else dir;
  json_load := json_load still_page;
  unencodable := fun _ => false;
  hash_order := fun _ => by_elements;
  dir_order := fun _ => by_elements;
  os_platform := Posix
|}.

(** Windows, with the clock at 1700000000. *)
Definition on_windows : Env := {|
  fault := fun _ => None;
  page_height := page_height still_page;
  page_links := page_links still_page;
  locate := locate still_page;
  clock := clock still_page;
  browser_writes := browser_writes still_page;
  json_load := json_load still_page;
  unencodable := fun _ => false;
  hash_order := fun _ => by_elements;
  dir_order := fun _ => by_elements;
  os_platform := Windows
|}.

(** The process is told to exit while the listing page is being scrolled. *)
Definition exiting : Env := {|
  fault := fun n => if Nat.eqb n 11 then Some SystemExit else None;
  page_height := page_height still_page;
  page_links := page_links still_page;
  locate := locate still_page;
  clock := clock still_page;
  browser_writes := browser_writes still_page;
  json_load := json_load still_page;
  unencodable := fun _ => false;
  hash_order := fun _ => by_elements;
  dir_order := fun _ => by_elements;
  os_platform := Posix
|}.

End MoreExamples.

(** * Properties *)

Open Scope list_scope.

(** ** Strings *)

Lemma endswith_unfold (s suf : string) :
  PyStr.endswith s suf =
  if String.eqb s suf then true
  else match s with
       | EmptyString => false
       | String _ s' => PyStr.endswith s' suf
       end.
Proof. by destruct s. Qed.

Lemma endswith_spec (s suf : string) :
  PyStr.endswith s suf = true <-> exists p, s = p +:+ suf.
Proof.
  split.
  - induction s as [|a s IH]; rewrite endswith_unfold;
      destruct (String.eqb _ suf) eqn:E;
      try (intros _; exists ""; apply String.eqb_eq in E; by subst).
    + discriminate.
    + intros H. destruct (IH H) as [p ->]. by exists (String a p).
  - intros [p ->]. induction p as [|a p IH]; rewrite endswith_unfold.
    + by rewrite String.eqb_refl.
    + destruct (String.eqb _ suf); [done|apply IH].
Qed.

Lemma string_app_inj_l (p a b : string) : p +:+ a = p +:+ b -> a = b.
Proof. induction p; simpl; [done|]. intros [= H]. auto. Qed.

Lemma fnmatch_char (c : ascii) (pat s : string) :
  c <> "*"%char ->
  PyStr.fnmatch (String c pat) s =
  match s with
  | EmptyString => false
  | String d s' => Ascii.eqb c d && PyStr.fnmatch pat s'
  end.
Proof.
  intros Hc. cbn [PyStr.fnmatch].
  destruct (Ascii.eqb c "*") eqn:E; [|done].
  by apply Ascii.eqb_eq in E.
Qed.

Lemma fnmatch_star (pat s : string) :
  PyStr.fnmatch (String "*" pat) s =
  if PyStr.fnmatch pat s then true
  else match s with
       | EmptyString => false
       | String _ s' => PyStr.fnmatch (String "*" pat) s'
       end.
Proof. by destruct s. Qed.

Lemma fnmatch_literal (pat s : string) :
  PyStr.literal pat -> PyStr.fnmatch pat s = true <-> s = pat.
Proof.
  revert s. induction pat as [|c pat IH]; intros s Hlit.
  - destruct s; simpl; split; congruence.
  - destruct Hlit as [Hc Hlit]. rewrite fnmatch_char by done.
    destruct s as [|d s]; [split; congruence|].
    rewrite andb_true_iff, Ascii.eqb_eq, IH by done.
    split; [intros [-> ->]; done|intros [= -> ->]; done].
Qed.

Lemma fnmatch_star_literal (pat s : string) :
  PyStr.literal pat ->
  PyStr.fnmatch (String "*" pat) s = true <-> exists mid, s = mid +:+ pat.
Proof.
  intros Hlit. split.
  - induction s as [|a s IH]; rewrite fnmatch_star;
      destruct (PyStr.fnmatch pat _) eqn:E;
      try (intros _; apply fnmatch_literal in E; [|done]; exists ""; exact E).
    + cbn; discriminate.
    + intros H. destruct (IH H) as [mid ->]. by exists (String a mid).
  - intros [mid ->]. induction mid as [|a mid IH]; rewrite fnmatch_star.
    + replace (PyStr.fnmatch pat ("" +:+ pat)) with true; [done|].
      symmetry. by apply fnmatch_literal.
    + destruct (PyStr.fnmatch pat _); [done|apply IH].
Qed.

Lemma fnmatch_literal_prefix (pre pat s : string) :
  PyStr.literal pre ->
  PyStr.fnmatch (pre +:+ pat) s = true
  <-> exists s', s = pre +:+ s' /\ PyStr.fnmatch pat s' = true.
Proof.
  revert s. induction pre as [|c pre IH]; intros s Hlit.
  - split; [intros H; by exists s|intros (s' & -> & H); done].
  - destruct Hlit as [Hc Hlit]. change (String c pre +:+ pat) with (String c (pre +:+ pat)).
    rewrite fnmatch_char by done.
    destruct s as [|d s].
    + split; [discriminate|intros (s' & [=] & _)].
    + rewrite andb_true_iff, Ascii.eqb_eq, IH by done. split.
      * intros [-> (s' & -> & H)]. by exists s'.
      * intros (s' & [= -> ->] & H). split; [done|by exists s'].
Qed.

Lemma fnmatch_workflow_pattern (name : string) :
  PyStr.fnmatch "workflow_*.json" name = true
  <-> exists mid, name = "workflow_" +:+ mid +:+ ".json".
Proof.
  change "workflow_*.json" with ("workflow_" +:+ "*.json").
  rewrite fnmatch_literal_prefix by (cbn; repeat split; discriminate).
  split.
  - intros (s' & -> & H).
    apply fnmatch_star_literal in H as [mid ->]; [by exists mid|].
    cbn; repeat split; discriminate.
  - intros [mid ->]. exists (mid +:+ ".json"). split; [done|].
    apply fnmatch_star_literal; [cbn; repeat split; discriminate|by exists mid].
Qed.

(** ** Running the monad *)

Lemma external_ok env {A} (f : nat -> M A) s :
  fault env (tick s) = None ->
  external env f s = f (tick s) (set_tick (S (tick s)) s).
Proof. unfold external. by intros ->. Qed.

(** ** The poll for a completed download *)

Lemma is_partial_spec (f : string) : is_partial f = true <-> partial_marker f.
Proof.
  unfold is_partial, partial_marker, PyStr.endswith_any. cbn [existsb].
  rewrite orb_false_r, orb_true_iff, !endswith_spec.
  split; [intros [[x ->]|[x ->]]; exists x; tauto|intros [x [->| ->]]; [left|right]; by exists x].
Qed.

Lemma completed_files_spec (o : listing) (new_files : gset string) (f : string) :
  f ∈ completed_files o new_files <-> f ∈ new_files /\ is_partial f = false.
Proof.
  unfold completed_files.
  rewrite list_elem_of_filter, (in_order_perm o), elem_of_elements. tauto.
Qed.

Lemma completed_files_head (o : listing) (new_files : gset string) (f : string) rest :
  completed_files o new_files = f :: rest ->
  f ∈ new_files /\ is_partial f = false.
Proof. intros H. apply (completed_files_spec o). rewrite H. left. Qed.

Lemma completed_files_all_partial (o : listing) (new_files : gset string) :
  (forall f, f ∈ new_files -> partial_marker f) -> completed_files o new_files = [].
Proof.
  intros H. destruct (completed_files o new_files) as [|f rest] eqn:E; [done|].
  apply completed_files_head in E as [Hin Hf].
  apply H, is_partial_spec in Hin. congruence.
Qed.

Lemma not_partial_marker (f : string) : ~ partial_marker f <-> is_partial f = false.
Proof.
  rewrite <- is_partial_spec. destruct (is_partial f); split; intros H.
  - by destruct H.
  - discriminate.
  - done.
  - discriminate.
Qed.

Lemma completed_files_some (o : listing) (new_files : gset string) (f : string) :
  f ∈ new_files -> ~ partial_marker f ->
  exists completed rest, completed_files o new_files = completed :: rest.
Proof.
  intros Hin Hf. destruct (completed_files o new_files) as [|c rest] eqn:E;
    [|by eauto].
  assert (f ∈ completed_files o new_files) as Hc.
  { apply completed_files_spec. split; [done|]. by apply not_partial_marker. }
  rewrite E in Hc. by apply elem_of_nil in Hc.
Qed.

Lemma wait_for_download_listed env remaining url index initial s :
  fault env (tick s) = None ->
  wait_for_download env (S remaining) url index initial s =
  match completed_files (hash_order env (S (tick s))) (dom (files s) ∖ initial) with
  | completed :: _ =>
      save_download env completed index (set_tick (S (tick s)) s)
  | [] =>
      (time_sleep env 1 ;;; wait_for_download env remaining url index initial)
        (set_tick (S (tick s)) s)
  end.
Proof.
  intros Hok. cbn [wait_for_download].
  unfold bind at 1. unfold os_listdir. rewrite external_ok by done.
  unfold bind at 1, get_state, ret. cbn [files set_tick].
  unfold bind at 1. cbn [tick set_tick].
  by destruct (completed_files _ _).
Qed.

(** C5.  A poll whose listing call goes through hands to the rename step a
    new file that is not a partial-download marker (a name ending in
    .crdownload or .tmp) whenever the files that appeared since the click
    hold one, whatever markers and other files appeared with it and in
    whatever order Python iterates the set: the files it chooses from are
    exactly the new files that are not markers, and when there is only one
    such file, that file is the one picked.  When every new file is a marker
    the poll picks nothing, sleeps and polls again. *)
Theorem poll_selects_completed_only env remaining url index
    (initial : gset string) s :
  fault env (tick s) = None ->
  let new_files := dom (files s) ∖ initial in
  let polled := set_tick (S (tick s)) s in
  let chosen_from := completed_files (hash_order env (tick polled)) new_files in
  (forall g, g ∈ chosen_from <-> g ∈ new_files /\ ~ partial_marker g)
  /\ (forall f,
        f ∈ new_files -> ~ partial_marker f ->
        exists completed,
          head chosen_from = Some completed
          /\ completed ∈ new_files
          /\ ~ partial_marker completed
          /\ wait_for_download env (S remaining) url index initial s
             = save_download env completed index polled
          /\ ((forall g, g ∈ new_files -> ~ partial_marker g -> g = f) ->
              completed = f))
  /\ ((forall g, g ∈ new_files -> partial_marker g) ->
        chosen_from = []
        /\ wait_for_download env (S remaining) url index initial s
           = (time_sleep env 1 ;;;
              wait_for_download env remaining url index initial) polled).
Proof.
  intros Hok new_files polled chosen_from.
  assert (forall g, g ∈ chosen_from <-> g ∈ new_files /\ ~ partial_marker g) as Hspec.
  { intros g. unfold chosen_from.
    rewrite completed_files_spec, not_partial_marker. tauto. }
  split; [exact Hspec|]. split.
  - intros f Hin Hf.
    destruct (completed_files_some (hash_order env (tick polled)) new_files f Hin Hf)
      as (completed & rest & Hsel).
    fold chosen_from in Hsel.
    assert (completed ∈ new_files /\ ~ partial_marker completed) as [Hc Hnp].
    { apply Hspec. rewrite Hsel. left. }
    exists completed. split_and!; [by rewrite Hsel|done|done| |].
    + rewrite wait_for_download_listed by done.
      fold new_files. change (S (tick s)) with (tick polled).
      fold chosen_from. by rewrite Hsel.
    + intros Honly. by apply Honly.
  - intros Hall.
    pose proof (completed_files_all_partial (hash_order env (tick polled)) _ Hall)
      as Hnone.
    fold chosen_from in Hnone. split; [done|].
    rewrite wait_for_download_listed by done.
    fold new_files. change (S (tick s)) with (tick polled).
    fold chosen_from. by rewrite Hnone.
Qed.

Lemma poll_selects_completed_only_witness :
  wait_for_download Examples.backwards_sets 30 Examples.cat_url 1 ∅
    (init Examples.downloading_folder)
  = save_download Examples.backwards_sets "flow.json" 1
      (set_tick 1 (init Examples.downloading_folder)).
Proof.
  assert (~ partial_marker "flow.json") as Hf.
  { apply not_partial_marker. reflexivity. }
  assert (forall g : string,
            g ∈ dom (files (init Examples.downloading_folder)) ∖ (∅ : gset string) ->
            g = "flow.json" \/ g = "other.json.crdownload") as Hnew.
  { intros g. cbn [files init]. unfold Examples.downloading_folder.
    rewrite !dom_insert_L, dom_empty_L. set_unfold. tauto. }
  destruct (poll_selects_completed_only Examples.backwards_sets 29
              Examples.cat_url 1 ∅ (init Examples.downloading_folder) eq_refl)
    as (_ & Hpick & _).
  destruct (Hpick "flow.json") as (completed & _ & _ & _ & Hrun & Honly).
  - cbn [files init]. unfold Examples.downloading_folder.
    rewrite !dom_insert_L, dom_empty_L. set_unfold. tauto.
  - exact Hf.
  - rewrite Hrun. f_equal. apply Honly.
    intros g Hg Hnp. destruct (Hnew g Hg) as [->| ->]; [done|].
    exfalso. apply Hnp. exists "other.json". by left.
Defined.

(** ** Rules for [wp], [stable] and [total] *)

Section Rules.

Context {A B : Type}.
Implicit Types (m : M A) (k : A -> M B) (s : State).

Lemma wp_ret (a : A) (Q : res A -> State -> Prop) s :
  Q (Val a) s -> wp (ret a) Q s.
Proof. done. Qed.

Lemma wp_bind m k (Q : res B -> State -> Prop) s :
  wp m (fun r s' =>
          match r with
          | Val a => wp (k a) Q s'
          | Raise e => Q (Raise e) s'
          | OutOfFuel => Q OutOfFuel s'
          end) s ->
  wp (bind m k) Q s.
Proof. unfold wp, bind. by destruct (m s) as [[a|e|] s']. Qed.

Lemma wp_mono m (Q Q' : res A -> State -> Prop) s :
  (forall r s', Q r s' -> Q' r s') -> wp m Q s -> wp m Q' s.
Proof. unfold wp. auto. Qed.

Lemma wp_external env (f : nat -> M A) (Q : res A -> State -> Prop) s :
  (forall e, fault env (tick s) = Some e ->
             Q (Raise e) (set_tick (S (tick s)) s)) ->
  (fault env (tick s) = None ->
   wp (f (tick s)) Q (set_tick (S (tick s)) s)) ->
  wp (external env f) Q s.
Proof.
  unfold wp, external. intros Hf Hok.
  destruct (fault env (tick s)) as [e|]; [by apply Hf|by apply Hok].
Qed.

Lemma wp_try_except m (handles : exn -> bool) (handler : exn -> M A)
    (Q : res A -> State -> Prop) s :
  wp m (fun r s' =>
          match r with
          | Raise e => if handles e then wp (handler e) Q s' else Q (Raise e) s'
          | _ => Q r s'
          end) s ->
  wp (try_except m handles handler) Q s.
Proof.
  unfold wp, try_except. destruct (m s) as [[a|e|] s']; cbn; [done| |done].
  by destruct (handles e).
Qed.

Lemma wp_try_except2 m (h1 h2 : exn -> bool) (k1 k2 : exn -> M A)
    (Q : res A -> State -> Prop) s :
  wp m (fun r s' =>
          match r with
          | Raise e =>
              if h1 e then wp (k1 e) Q s'
              else if h2 e then wp (k2 e) Q s'
              else Q (Raise e) s'
          | _ => Q r s'
          end) s ->
  wp (try_except2 m h1 k1 h2 k2) Q s.
Proof.
  unfold wp, try_except2. destruct (m s) as [[a|e|] s']; cbn; [done| |done].
  by destruct (h1 e), (h2 e).
Qed.

Lemma wp_stable (R : State -> State -> Prop) m (Q : res A -> State -> Prop) s :
  stable R m -> (forall r s', R s s' -> Q r s') -> wp m Q s.
Proof. unfold wp. intros Hm HQ. apply HQ, Hm. Qed.

Lemma wp_stable_total (R : State -> State -> Prop) m
    (Q : res A -> State -> Prop) s :
  stable R m -> total m ->
  (forall r s', R s s' -> r <> OutOfFuel -> Q r s') -> wp m Q s.
Proof. unfold wp. intros Hm Ht HQ. apply HQ; [apply Hm|apply Ht]. Qed.

(** *** stable *)

Context (R : State -> State -> Prop) `{!PreOrder R}.

Lemma stable_ret (a : A) : stable R (ret a).
Proof. intros s. reflexivity. Qed.

Lemma stable_raise (e : exn) : stable R (@raise A e).
Proof. intros s. reflexivity. Qed.

Lemma stable_out_of_fuel : stable R (@out_of_fuel A).
Proof. intros s. reflexivity. Qed.

Lemma stable_bind m k :
  stable R m -> (forall a, stable R (k a)) -> stable R (bind m k).
Proof.
  intros Hm Hk s. unfold bind. specialize (Hm s).
  destruct (m s) as [[a|e|] s']; [|done..].
  etrans; [exact Hm|apply Hk].
Qed.

Lemma stable_external env (f : nat -> M A) :
  (forall s, R s (set_tick (S (tick s)) s)) ->
  (forall n, stable R (f n)) -> stable R (external env f).
Proof.
  intros Ht Hf s. unfold external.
  destruct (fault env (tick s)); [apply Ht|].
  etrans; [apply Ht|apply Hf].
Qed.

Lemma stable_try_except m (handles : exn -> bool) (handler : exn -> M A) :
  stable R m -> (forall e, stable R (handler e)) ->
  stable R (try_except m handles handler).
Proof.
  intros Hm Hh s. unfold try_except. specialize (Hm s).
  destruct (m s) as [[a|e|] s']; [done| |done].
  destruct (handles e); [|done]. etrans; [exact Hm|apply Hh].
Qed.

Lemma stable_try_except2 m (h1 h2 : exn -> bool) (k1 k2 : exn -> M A) :
  stable R m -> (forall e, stable R (k1 e)) -> (forall e, stable R (k2 e)) ->
  stable R (try_except2 m h1 k1 h2 k2).
Proof.
  intros Hm H1 H2 s. unfold try_except2. specialize (Hm s).
  destruct (m s) as [[a|e|] s']; [done| |done].
  destruct (h1 e); [etrans; [exact Hm|apply H1]|].
  destruct (h2 e); [etrans; [exact Hm|apply H2]|done].
Qed.

(** *** total *)

Lemma total_ret (a : A) : total (ret a).
Proof. by intros s. Qed.

Lemma total_raise (e : exn) : total (@raise A e).
Proof. by intros s. Qed.

Lemma total_bind m k : total m -> (forall a, total (k a)) -> total (bind m k).
Proof.
  intros Hm Hk s. unfold bind. specialize (Hm s).
  destruct (m s) as [[a|e|] s']; [apply Hk|done|done].
Qed.

Lemma total_external env (f : nat -> M A) :
  (forall n, total (f n)) -> total (external env f).
Proof.
  intros Hf s. unfold external. destruct (fault env (tick s)); [done|apply Hf].
Qed.

Lemma total_try_except m (handles : exn -> bool) (handler : exn -> M A) :
  total m -> (forall e, total (handler e)) ->
  total (try_except m handles handler).
Proof.
  intros Hm Hh s. unfold try_except. specialize (Hm s).
  destruct (m s) as [[a|e|] s']; [done| |done].
  destruct (handles e); [apply Hh|done].
Qed.

Lemma total_try_except2 m (h1 h2 : exn -> bool) (k1 k2 : exn -> M A) :
  total m -> (forall e, total (k1 e)) -> (forall e, total (k2 e)) ->
  total (try_except2 m h1 k1 h2 k2).
Proof.
  intros Hm H1 H2 s. unfold try_except2. specialize (Hm s).
  destruct (m s) as [[a|e|] s']; [done| |done].
  destruct (h1 e); [apply H1|]. destruct (h2 e); [apply H2|done].
Qed.

End Rules.

Lemma wp_get_state (Q : res State -> State -> Prop) s :
  Q (Val s) s -> wp get_state Q s.
Proof. done. Qed.

Lemma wp_modify (f : State -> State) (Q : res unit -> State -> Prop) s :
  Q (Val tt) (f s) -> wp (modify f) Q s.
Proof. done. Qed.

Lemma wp_logger lvl msg (Q : res unit -> State -> Prop) s :
  Q (Val tt) (set_log (log s ++ [(lvl, msg)]) s) -> wp (logger lvl msg) Q s.
Proof. done. Qed.

Lemma wp_raise {A} (e : exn) (Q : res A -> State -> Prop) s :
  Q (Raise e) s -> wp (raise e) Q s.
Proof. done. Qed.

Lemma stable_get_state (R : State -> State -> Prop) `{!PreOrder R} :
  stable R get_state.
Proof. intros s. reflexivity. Qed.

Lemma stable_modify (R : State -> State -> Prop) (f : State -> State) :
  (forall s, R s (f s)) -> stable R (modify f).
Proof. intros H s. apply H. Qed.

Lemma stable_logger (R : State -> State -> Prop) `{!Frame R} lvl msg :
  is_attempt msg = false -> stable R (logger lvl msg).
Proof. intros H s. by apply frame_log. Qed.

Lemma total_get_state : total get_state.
Proof. by intros s. Qed.

Lemma total_modify (f : State -> State) : total (modify f).
Proof. by intros s. Qed.

Lemma total_logger lvl msg : total (logger lvl msg).
Proof. by intros s. Qed.

Lemma wp_bind_any {A B} (m : M A) (k : A -> M B) (Q : res B -> State -> Prop) s :
  (forall a s1, wp (k a) Q s1) ->
  (forall e s1, Q (Raise e) s1) ->
  (forall s1, Q OutOfFuel s1) ->
  wp (bind m k) Q s.
Proof.
  intros Hk He Ho. apply wp_bind. unfold wp.
  destruct (m s) as [[a|e|] s1]; cbn; [apply Hk|apply He|apply Ho].
Qed.

Lemma wp_bind_stable {A B} (R : State -> State -> Prop) (m : M A) (k : A -> M B)
    (Q : res B -> State -> Prop) s :
  stable R m ->
  (forall a s1, R s s1 -> wp (k a) Q s1) ->
  (forall e s1, R s s1 -> Q (Raise e) s1) ->
  (forall s1, R s s1 -> Q OutOfFuel s1) ->
  wp (bind m k) Q s.
Proof.
  intros Hm Hk He Ho. apply wp_bind. apply (wp_stable R); [done|].
  intros [a|e|] s1 HR; [by apply Hk|by apply He|by apply Ho].
Qed.

Lemma wp_bind_stable_total {A B} (R : State -> State -> Prop) (m : M A)
    (k : A -> M B) (Q : res B -> State -> Prop) s :
  stable R m -> total m ->
  (forall a s1, R s s1 -> wp (k a) Q s1) ->
  (forall e s1, R s s1 -> Q (Raise e) s1) ->
  wp (bind m k) Q s.
Proof.
  intros Hm Ht Hk He. apply wp_bind. apply (wp_stable_total R); [done..|].
  intros [a|e|] s1 HR Hr; [by apply Hk|by apply He|done].
Qed.

(** ** The frame relations *)

Lemma attempts_app (l1 l2 : list (level * log_msg)) :
  attempts (l1 ++ l2) = attempts l1 ++ attempts l2.
Proof.
  induction l1 as [|[lvl m] l1 IH]; [done|].
  destruct m; cbn; by rewrite ?IH.
Qed.

Lemma attempts_other lvl m : is_attempt m = false -> attempts [(lvl, m)] = [].
Proof. by destruct m. Qed.

#[export] Instance same_browser_frame : Frame same_browser.
Proof.
  split; [split|..]; unfold same_browser.
  - by intros s.
  - intros s1 s2 s3 [-> ->] [-> ->]. done.
  - done.
  - done.
  - done.
Qed.

#[export] Instance same_counters_frame : Frame same_counters.
Proof.
  split; [split|..]; unfold same_counters.
  - by intros s.
  - intros s1 s2 s3 [-> ->] [-> ->]. done.
  - done.
  - done.
  - done.
Qed.

#[export] Instance same_attempts_frame : Frame same_attempts.
Proof.
  split; [split|..]; unfold same_attempts.
  - by intros s.
  - intros s1 s2 s3 -> ->. done.
  - done.
  - done.
  - intros lvl m s Hm. cbn. by rewrite attempts_app, attempts_other, app_nil_r.
Qed.

#[export] Instance same_merged_frame : Frame same_merged.
Proof.
  split; [split|..]; unfold same_merged.
  - by intros s.
  - intros s1 s2 s3 -> ->. done.
  - done.
  - done.
  - done.
Qed.

#[export] Instance later_frame : Frame later.
Proof.
  split; [split|..]; unfold later.
  - by intros s.
  - intros s1 s2 s3 ? ?. lia.
  - intros s. cbn. lia.
  - done.
  - done.
Qed.

(** ** Footprints: what each function of the script can change *)

Ltac stable_step :=
  cbv beta;
  lazymatch goal with
  | |- stable ?R (bind ?m ?k) => apply (stable_bind R m k); [|intros ?; cbv beta]
  | |- stable ?R (ret ?a) => apply (stable_ret R a)
  | |- stable ?R (raise ?e) => apply (stable_raise R e)
  | |- stable ?R out_of_fuel => apply (stable_out_of_fuel R)
  | |- stable ?R get_state => apply (stable_get_state R)
  | |- stable ?R (logger ?l ?m) =>
      first [apply (stable_logger R l m); reflexivity
            |unfold logger; apply stable_modify; intros ?; auto]
  | |- stable ?R (external ?env ?f) =>
      apply (stable_external R env f); [apply frame_tick|intros ?; cbv beta]
  | |- stable ?R (try_except ?m ?h ?k) =>
      apply (stable_try_except R m h k); [|intros ?; cbv beta]
  | |- stable ?R (try_except2 ?m ?h1 ?k1 ?h2 ?k2) =>
      apply (stable_try_except2 R m h1 h2 k1 k2);
      [|intros ?; cbv beta|intros ?; cbv beta]
  | |- stable _ (modify _) =>
      apply stable_modify; intros ?; first [apply frame_files|auto]
  | |- stable _ (match ?x with _ => _ end) => destruct x
  end.

Create HintDb stable.

Ltac stable_auto := repeat first [stable_step | solve [eauto with stable]].

Ltac total_step :=
  cbv beta;
  lazymatch goal with
  | |- total (bind _ _) => apply total_bind; [|intros ?; cbv beta]
  | |- total (ret _) => apply total_ret
  | |- total (raise _) => apply total_raise
  | |- total get_state => apply total_get_state
  | |- total (logger _ _) => apply total_logger
  | |- total (modify _) => apply total_modify
  | |- total (external _ _) => apply total_external; intros ?; cbv beta
  | |- total (try_except _ _ _) => apply total_try_except; [|intros ?; cbv beta]
  | |- total (try_except2 _ _ _ _ _) =>
      apply total_try_except2; [|intros ?|intros ?; cbv beta]
  | |- total (match ?x with _ => _ end) => destruct x
  end.

Section Footprints.

Context (R : State -> State -> Prop) `{!Frame R}.
Variable env : Env.
Variable config : Config.

Hypothesis R_urls : forall u s, R s (set_workflow_urls u s).
Hypothesis R_count : forall c s, R s (set_downloaded_count c s).
Hypothesis R_failed : forall l s, R s (set_failed_downloads l s).
Hypothesis R_attempt : forall l s, R s (set_log l s).
Hypothesis R_merged : forall m s, R s (set_merged_out m s).
Hypothesis R_driver : forall d s, R s (set_driver d s).

Lemma stable_driver_get url : stable R (driver_get env url).
Proof. unfold driver_get. stable_auto. Qed.
#[local] Hint Resolve stable_driver_get : stable.

Lemma stable_driver_set_page_load_timeout n : stable R (driver_set_page_load_timeout env n).
Proof. unfold driver_set_page_load_timeout. stable_auto. Qed.
#[local] Hint Resolve stable_driver_set_page_load_timeout : stable.

Lemma stable_driver_scroll_height : stable R (driver_scroll_height env).
Proof. unfold driver_scroll_height. stable_auto. Qed.
#[local] Hint Resolve stable_driver_scroll_height : stable.

Lemma stable_driver_scroll_to_bottom : stable R (driver_scroll_to_bottom env).
Proof. unfold driver_scroll_to_bottom. stable_auto. Qed.
#[local] Hint Resolve stable_driver_scroll_to_bottom : stable.

Lemma stable_driver_find_elements : stable R (driver_find_elements env).
Proof. unfold driver_find_elements. stable_auto. Qed.
#[local] Hint Resolve stable_driver_find_elements : stable.

Lemma stable_wait_for_body n : stable R (wait_for_body env n).
Proof. unfold wait_for_body. stable_auto. Qed.
#[local] Hint Resolve stable_wait_for_body : stable.

Lemma stable_driver_find_element sel : stable R (driver_find_element env sel).
Proof. unfold driver_find_element. stable_auto. Qed.
#[local] Hint Resolve stable_driver_find_element : stable.

Lemma stable_element_click el : stable R (element_click env el).
Proof. unfold element_click. stable_auto. Qed.
#[local] Hint Resolve stable_element_click : stable.

Lemma stable_time_sleep n : stable R (time_sleep env n).
Proof. unfold time_sleep. stable_auto. Qed.
#[local] Hint Resolve stable_time_sleep : stable.

Lemma stable_time_time : stable R (time_time env).
Proof. unfold time_time. stable_auto. Qed.
#[local] Hint Resolve stable_time_time : stable.

Lemma stable_os_listdir : stable R (os_listdir env).
Proof. unfold os_listdir. stable_auto. Qed.
#[local] Hint Resolve stable_os_listdir : stable.

Lemma stable_path_exists name : stable R (path_exists env name).
Proof. unfold path_exists. stable_auto. Qed.
#[local] Hint Resolve stable_path_exists : stable.

Lemma stable_os_rename old new : stable R (os_rename env old new).
Proof. unfold os_rename. stable_auto. Qed.
#[local] Hint Resolve stable_os_rename : stable.

Lemma stable_folder_glob pat : stable R (folder_glob env pat).
Proof. unfold folder_glob. stable_auto. Qed.
#[local] Hint Resolve stable_folder_glob : stable.

Lemma stable_open_and_load name : stable R (open_and_load env name).
Proof. unfold open_and_load. stable_auto. Qed.
#[local] Hint Resolve stable_open_and_load : stable.

Lemma stable_open_and_dump data : stable R (open_and_dump env data).
Proof. unfold open_and_dump, open_for_writing, json_dump. stable_auto. Qed.
#[local] Hint Resolve stable_open_and_dump : stable.

Lemma stable_record_failure url : stable R (record_failure url).
Proof. unfold record_failure. stable_auto. Qed.
#[local] Hint Resolve stable_record_failure : stable.

Lemma stable_setup_driver : stable R (setup_driver env).
Proof. unfold setup_driver, webdriver_Chrome. stable_auto. Qed.
#[local] Hint Resolve stable_setup_driver : stable.

Lemma stable_element_get_attribute el : stable R (element_get_attribute el).
Proof. intros s. unfold element_get_attribute. destruct el; apply frame_tick. Qed.
#[local] Hint Resolve stable_element_get_attribute : stable.

Lemma stable_collect_from l : stable R (collect_from config l).
Proof. induction l as [|el l IH]; cbn [collect_from]; stable_auto. Qed.
#[local] Hint Resolve stable_collect_from : stable.

(** The scroll loop changes the state only through external calls, log
    lines and [collect_from]. *)
Section Scroll.

Hypothesis R_collect : forall l, stable R (collect_from config l).

Lemma stable_scrape_links_with : stable R (scrape_links env config).
Proof. unfold scrape_links. stable_auto. Qed.
#[local] Hint Resolve stable_scrape_links_with : stable.

Lemma stable_scroll_attempt_with : stable R (scroll_attempt env config).
Proof. unfold scroll_attempt. stable_auto. Qed.
#[local] Hint Resolve stable_scroll_attempt_with : stable.

Lemma stable_scroll_loop_with fuel h c :
  stable R (scroll_loop env config fuel h c).
Proof.
  revert h c. induction fuel as [|fuel IH]; intros h c; cbn [scroll_loop];
    stable_auto.
Qed.
#[local] Hint Resolve stable_scroll_loop_with : stable.

Lemma stable_scroll_and_collect_urls_with fuel :
  stable R (scroll_and_collect_urls env config fuel).
Proof. unfold scroll_and_collect_urls. stable_auto. Qed.

End Scroll.

Lemma stable_scrape_links : stable R (scrape_links env config).
Proof. unfold scrape_links. stable_auto. Qed.
#[local] Hint Resolve stable_scrape_links : stable.

Lemma stable_scroll_attempt : stable R (scroll_attempt env config).
Proof. unfold scroll_attempt. stable_auto. Qed.
#[local] Hint Resolve stable_scroll_attempt : stable.

Lemma stable_scroll_loop fuel h c : stable R (scroll_loop env config fuel h c).
Proof.
  revert h c. induction fuel as [|fuel IH]; intros h c; cbn [scroll_loop];
    stable_auto.
Qed.
#[local] Hint Resolve stable_scroll_loop : stable.

Lemma stable_scroll_and_collect_urls fuel :
  stable R (scroll_and_collect_urls env config fuel).
Proof. unfold scroll_and_collect_urls. stable_auto. Qed.
#[local] Hint Resolve stable_scroll_and_collect_urls : stable.

Lemma stable_find_download_button sels :
  stable R (find_download_button env sels).
Proof.
  induction sels as [|sel sels IH]; cbn [find_download_button]; stable_auto.
Qed.
#[local] Hint Resolve stable_find_download_button : stable.

Lemma stable_rename_download completed index :
  stable R (rename_download env completed index).
Proof. unfold rename_download. stable_auto. Qed.
#[local] Hint Resolve stable_rename_download : stable.

Lemma stable_save_download completed index :
  stable R (save_download env completed index).
Proof. unfold save_download. stable_auto. Qed.
#[local] Hint Resolve stable_save_download : stable.

Lemma stable_wait_for_download remaining url index initial :
  stable R (wait_for_download env remaining url index initial).
Proof.
  induction remaining as [|n IH]; cbn [wait_for_download]; stable_auto.
Qed.
#[local] Hint Resolve stable_wait_for_download : stable.

Lemma stable_download_steps url index :
  stable R (download_steps env config url index).
Proof. unfold download_steps. stable_auto. Qed.
#[local] Hint Resolve stable_download_steps : stable.

Lemma stable_download_workflow url index :
  stable R (download_workflow env config url index).
Proof. unfold download_workflow. stable_auto. Qed.
#[local] Hint Resolve stable_download_workflow : stable.

Lemma stable_merge_loop l acc : stable R (merge_loop env l acc).
Proof.
  revert acc. induction l as [|f l IH]; intros acc; cbn [merge_loop];
    stable_auto.
Qed.
#[local] Hint Resolve stable_merge_loop : stable.

Lemma stable_merge_json_files : stable R (merge_json_files env config).
Proof. unfold merge_json_files. stable_auto. Qed.
#[local] Hint Resolve stable_merge_json_files : stable.

Lemma stable_download_all urls idx total_urls :
  stable R (download_all env config urls idx total_urls).
Proof.
  revert idx. induction urls as [|url urls IH]; intros idx; cbn [download_all];
    stable_auto.
Qed.
#[local] Hint Resolve stable_download_all : stable.

Lemma stable_log_each urls : stable R (log_each urls).
Proof. induction urls as [|url urls IH]; cbn [log_each]; stable_auto. Qed.
#[local] Hint Resolve stable_log_each : stable.

Lemma stable_report urls n : stable R (report config urls n).
Proof. unfold report. stable_auto. Qed.
#[local] Hint Resolve stable_report : stable.

Lemma stable_download_and_merge_nil :
  stable R (download_and_merge env config []).
Proof. unfold download_and_merge. cbn [download_all]. stable_auto. Qed.

Lemma stable_download_and_merge urls :
  stable R (download_and_merge env config urls).
Proof. unfold download_and_merge. stable_auto. Qed.

End Footprints.

Ltac frame_side :=
  solve [ done
        | intros; unfold later; cbn; lia
        | intros; unfold log_grows; cbn; exists []; by rewrite app_nil_r ].

Ltac use_stable lem := apply lem; [apply _|frame_side..].

Ltac stable_lib :=
  first
    [ use_stable stable_driver_get
    | use_stable stable_driver_set_page_load_timeout
    | use_stable stable_driver_scroll_height
    | use_stable stable_driver_scroll_to_bottom
    | use_stable stable_driver_find_elements
    | use_stable stable_wait_for_body
    | use_stable stable_driver_find_element
    | use_stable stable_element_click
    | use_stable stable_time_sleep
    | use_stable stable_time_time
    | use_stable stable_os_listdir
    | use_stable stable_path_exists
    | use_stable stable_os_rename
    | use_stable stable_folder_glob
    | use_stable stable_open_and_load
    | use_stable stable_open_and_dump
    | use_stable stable_record_failure
    | use_stable stable_setup_driver
    | use_stable stable_element_get_attribute
    | use_stable stable_collect_from
    | use_stable stable_scrape_links
    | use_stable stable_scroll_attempt
    | use_stable stable_scroll_loop
    | use_stable stable_scroll_and_collect_urls
    | use_stable stable_find_download_button
    | use_stable stable_rename_download
    | use_stable stable_save_download
    | use_stable stable_wait_for_download
    | use_stable stable_download_steps
    | use_stable stable_download_workflow
    | use_stable stable_merge_loop
    | use_stable stable_merge_json_files
    | use_stable stable_download_all
    | use_stable stable_log_each
    | use_stable stable_report
    | use_stable stable_download_and_merge_nil
    | use_stable stable_download_and_merge ].

Ltac stable_solve := repeat first [stable_step | stable_lib].

(** ** Everything but the scroll loop always finishes *)

Create HintDb total.

Ltac total_auto := repeat first [total_step | solve [eauto with total]].

Section Totals.

Variable env : Env.
Variable config : Config.

Lemma total_driver_get url : total (driver_get env url).
Proof. unfold driver_get. total_auto. Qed.
#[local] Hint Resolve total_driver_get : total.

Lemma total_driver_set_page_load_timeout n : total (driver_set_page_load_timeout env n).
Proof. unfold driver_set_page_load_timeout. total_auto. Qed.
#[local] Hint Resolve total_driver_set_page_load_timeout : total.

Lemma total_driver_scroll_height : total (driver_scroll_height env).
Proof. unfold driver_scroll_height. total_auto. Qed.
#[local] Hint Resolve total_driver_scroll_height : total.

Lemma total_driver_scroll_to_bottom : total (driver_scroll_to_bottom env).
Proof. unfold driver_scroll_to_bottom. total_auto. Qed.
#[local] Hint Resolve total_driver_scroll_to_bottom : total.

Lemma total_driver_find_elements : total (driver_find_elements env).
Proof. unfold driver_find_elements. total_auto. Qed.
#[local] Hint Resolve total_driver_find_elements : total.

Lemma total_wait_for_body n : total (wait_for_body env n).
Proof. unfold wait_for_body. total_auto. Qed.
#[local] Hint Resolve total_wait_for_body : total.

Lemma total_driver_find_element sel : total (driver_find_element env sel).
Proof. unfold driver_find_element. total_auto. Qed.
#[local] Hint Resolve total_driver_find_element : total.

Lemma total_element_click el : total (element_click env el).
Proof. unfold element_click. total_auto. Qed.
#[local] Hint Resolve total_element_click : total.

Lemma total_time_sleep n : total (time_sleep env n).
Proof. unfold time_sleep. total_auto. Qed.
#[local] Hint Resolve total_time_sleep : total.

Lemma total_time_time : total (time_time env).
Proof. unfold time_time. total_auto. Qed.
#[local] Hint Resolve total_time_time : total.

Lemma total_os_listdir : total (os_listdir env).
Proof. unfold os_listdir. total_auto. Qed.
#[local] Hint Resolve total_os_listdir : total.

Lemma total_path_exists name : total (path_exists env name).
Proof. unfold path_exists. total_auto. Qed.
#[local] Hint Resolve total_path_exists : total.

Lemma total_os_rename old new : total (os_rename env old new).
Proof. unfold os_rename. total_auto. Qed.
#[local] Hint Resolve total_os_rename : total.

Lemma total_folder_glob pat : total (folder_glob env pat).
Proof. unfold folder_glob. total_auto. Qed.
#[local] Hint Resolve total_folder_glob : total.

Lemma total_open_and_load name : total (open_and_load env name).
Proof. unfold open_and_load. total_auto. Qed.
#[local] Hint Resolve total_open_and_load : total.

Lemma total_open_and_dump data : total (open_and_dump env data).
Proof. unfold open_and_dump, open_for_writing, json_dump. total_auto. Qed.
#[local] Hint Resolve total_open_and_dump : total.

Lemma total_record_failure url : total (record_failure url).
Proof. unfold record_failure. total_auto. Qed.
#[local] Hint Resolve total_record_failure : total.

Lemma total_webdriver_Chrome : total (webdriver_Chrome env).
Proof. unfold webdriver_Chrome. total_auto. Qed.
#[local] Hint Resolve total_webdriver_Chrome : total.

Lemma total_driver_quit : total (driver_quit env).
Proof. unfold driver_quit. total_auto. Qed.
#[local] Hint Resolve total_driver_quit : total.

Lemma total_setup_driver : total (setup_driver env).
Proof. unfold setup_driver. total_auto. Qed.
#[local] Hint Resolve total_setup_driver : total.

Lemma total_element_get_attribute el : total (element_get_attribute el).
Proof. intros s. unfold element_get_attribute. by destruct el. Qed.
#[local] Hint Resolve total_element_get_attribute : total.

Lemma total_collect_from l : total (collect_from config l).
Proof. induction l as [|el l IH]; cbn [collect_from]; total_auto. Qed.
#[local] Hint Resolve total_collect_from : total.

Lemma total_scrape_links : total (scrape_links env config).
Proof. unfold scrape_links. total_auto. Qed.
#[local] Hint Resolve total_scrape_links : total.

Lemma total_scroll_attempt : total (scroll_attempt env config).
Proof. unfold scroll_attempt. total_auto. Qed.
#[local] Hint Resolve total_scroll_attempt : total.

Lemma total_find_download_button sels : total (find_download_button env sels).
Proof. induction sels as [|sel sels IH]; cbn [find_download_button]; total_auto. Qed.
#[local] Hint Resolve total_find_download_button : total.

Lemma total_rename_download completed index : total (rename_download env completed index).
Proof. unfold rename_download. total_auto. Qed.
#[local] Hint Resolve total_rename_download : total.

Lemma total_save_download completed index : total (save_download env completed index).
Proof. unfold save_download. total_auto. Qed.
#[local] Hint Resolve total_save_download : total.

Lemma total_wait_for_download remaining url index initial : total (wait_for_download env remaining url index initial).
Proof. induction remaining as [|n IH]; cbn [wait_for_download]; total_auto. Qed.
#[local] Hint Resolve total_wait_for_download : total.

Lemma total_download_steps url index : total (download_steps env config url index).
Proof. unfold download_steps. total_auto. Qed.
#[local] Hint Resolve total_download_steps : total.

Lemma total_download_workflow url index : total (download_workflow env config url index).
Proof. unfold download_workflow. total_auto. Qed.
#[local] Hint Resolve total_download_workflow : total.

Lemma total_merge_loop l acc : total (merge_loop env l acc).
Proof. revert acc; induction l as [|f l IH]; intros acc; cbn [merge_loop]; total_auto. Qed.
#[local] Hint Resolve total_merge_loop : total.

Lemma total_merge_json_files : total (merge_json_files env config).
Proof. unfold merge_json_files. total_auto. Qed.
#[local] Hint Resolve total_merge_json_files : total.

Lemma total_download_all urls idx total_urls : total (download_all env config urls idx total_urls).
Proof. revert idx; induction urls as [|url urls IH]; intros idx; cbn [download_all]; total_auto. Qed.
#[local] Hint Resolve total_download_all : total.

Lemma total_log_each urls : total (log_each urls).
Proof. induction urls as [|url urls IH]; cbn [log_each]; total_auto. Qed.
#[local] Hint Resolve total_log_each : total.

Lemma total_report urls n : total (report config urls n).
Proof. unfold report. total_auto. Qed.
#[local] Hint Resolve total_report : total.

Lemma total_download_and_merge urls : total (download_and_merge env config urls).
Proof. unfold download_and_merge. total_auto. Qed.
#[local] Hint Resolve total_download_and_merge : total.

Lemma total_run_cleanup : total (run_cleanup env).
Proof. unfold run_cleanup. total_auto. Qed.
#[local] Hint Resolve total_run_cleanup : total.

End Totals.

(** ** The per-URL download and the run counters *)

Section Download.

Variable env : Env.
Variable config : Config.

Lemma failure_logged_last url s l lvl msg :
  log s = l ++ [(lvl, msg)] ->
  lvl <> INFO ->
  (msg = MsgButtonNotFound url \/ msg = MsgDownloadTimeout url
   \/ msg = MsgPageLoadTimeout url \/ exists e, msg = MsgDownloadError url e) ->
  failure_logged url s.
Proof. intros Hl ? ?. exists lvl, msg. by rewrite Hl, last_snoc. Qed.

Ltac failure_case :=
  unfold wp; cbn; split_and!; try done;
  eapply failure_logged_last; [reflexivity|done|eauto 6].

Lemma steps_outcome_after url s s1 r s' :
  same_counters s s1 -> steps_outcome url s1 r s' -> steps_outcome url s r s'.
Proof.
  unfold steps_outcome, same_counters. intros [Hc Hf].
  destruct r as [[]|e|]; rewrite ?Hc, ?Hf; try done.
Qed.

(** A step that leaves the counters alone and always finishes, followed
    by a continuation that meets [steps_outcome]. *)
Lemma wp_steps_bind {A} (m : M A) (k : A -> M bool) url s :
  stable same_counters m -> total m ->
  (forall a s1, same_counters s s1 -> wp (k a) (steps_outcome url s1) s1) ->
  wp (bind m k) (steps_outcome url s) s.
Proof.
  intros Hm Ht Hk. apply wp_bind.
  apply (wp_stable_total same_counters); [done..|].
  intros [a|e|] s1 HR Hr; [|done|done].
  eapply wp_mono; [|by apply Hk].
  intros r s'. by apply steps_outcome_after.
Qed.

Lemma save_download_outcome completed index url s :
  wp (save_download env completed index) (steps_outcome url s) s.
Proof.
  unfold save_download. apply wp_bind.
  apply (wp_stable_total same_counters);
    [use_stable stable_rename_download|apply total_rename_download|].
  intros [new_path|e|] s1 [Hc Hf] Hr; [|done|done].
  unfold wp; cbn. by rewrite Hc, Hf.
Qed.

Lemma wait_for_download_outcome remaining url index initial s :
  wp (wait_for_download env remaining url index initial) (steps_outcome url s) s.
Proof.
  revert s. induction remaining as [|n IH]; intros s; cbn [wait_for_download].
  - failure_case.
  - apply wp_steps_bind; [use_stable stable_os_listdir|apply total_os_listdir|].
    intros current s1 _.
    apply wp_bind, wp_get_state.
    destruct (completed_files _ _) as [|completed ?].
    + apply wp_steps_bind; [use_stable stable_time_sleep|apply total_time_sleep|].
      intros _ s2 _. apply IH.
    + apply save_download_outcome.
Qed.

Lemma download_steps_outcome url index s :
  wp (download_steps env config url index) (steps_outcome url s) s.
Proof.
  unfold download_steps.
  apply wp_steps_bind; [use_stable stable_driver_get|apply total_driver_get|].
  intros _ s1 _.
  apply wp_steps_bind; [use_stable stable_wait_for_body|apply total_wait_for_body|].
  intros _ s2 _.
  apply wp_steps_bind; [use_stable stable_time_sleep|apply total_time_sleep|].
  intros _ s3 _.
  apply wp_steps_bind;
    [use_stable stable_find_download_button|apply total_find_download_button|].
  intros [button|] s4 _.
  - apply wp_steps_bind; [use_stable stable_os_listdir|apply total_os_listdir|].
    intros initial s5 _.
    apply wp_steps_bind; [use_stable stable_element_click|apply total_element_click|].
    intros _ s6 _.
    apply wp_steps_bind; [use_stable stable_time_sleep|apply total_time_sleep|].
    intros _ s7 _. apply wait_for_download_outcome.
  - failure_case.
Qed.

Lemma download_workflow_outcome url index s :
  wp (download_workflow env config url index) (download_outcome url s) s.
Proof.
  unfold download_workflow. apply wp_try_except2.
  apply wp_bind, wp_get_state, wp_bind, wp_logger.
  eapply wp_mono; [|apply download_steps_outcome].
  intros [[]|e|] s'; cbn; try done.
  intros [Hc Hf]. cbn in Hc, Hf.
  destruct e; cbn; try done; rewrite <- ?Hc, <- ?Hf; failure_case.
Qed.

Lemma download_workflow_attempt url index s :
  attempts (log (download_workflow env config url index s).2)
  = attempts (log s) ++ [(index, url)].
Proof.
  change (wp (download_workflow env config url index)
            (fun _ s' => attempts (log s') = attempts (log s) ++ [(index, url)]) s).
  unfold download_workflow. apply wp_try_except2.
  apply wp_bind, wp_get_state, wp_bind, wp_logger.
  set (s1 := set_log _ s).
  assert (attempts (log s1) = attempts (log s) ++ [(index, url)]) as H1.
  { subst s1. cbn. by rewrite attempts_app. }
  apply (wp_stable same_attempts); [use_stable stable_download_steps|].
  intros r s2 H2. red in H2. rewrite <- H1, <- H2.
  destruct r as [b|e|]; [done| |done].
  destruct (is_TimeoutException e); [by unfold wp; cbn; rewrite attempts_app, app_nil_r|].
  destruct (is_Exception e); [by unfold wp; cbn; rewrite attempts_app, app_nil_r|done].
Qed.

End Download.

(** ** Where exceptions come from *)

Section RaisesRules.

Context {A B : Type} (P : exn -> Prop).

Lemma raises_ret (a : A) : raises P (ret a).
Proof. by intros s e. Qed.

Lemma raises_raise (e : exn) : P e -> raises P (@raise A e).
Proof. intros He s e' [= <-]. done. Qed.

Lemma raises_bind (m : M A) (k : A -> M B) :
  raises P m -> (forall a, raises P (k a)) -> raises P (bind m k).
Proof.
  intros Hm Hk s e. unfold bind. specialize (Hm s).
  destruct (m s) as [[a|e'|] s']; cbn in *; [apply Hk|intros [= <-]; auto|done].
Qed.

Lemma raises_external env (f : nat -> M A) :
  (forall n e, fault env n = Some e -> P e) ->
  (forall n, raises P (f n)) -> raises P (external env f).
Proof.
  intros Hfault Hf s e. unfold external.
  destruct (fault env (tick s)) as [e'|] eqn:E; [|apply Hf].
  intros [= <-]. eauto.
Qed.

Lemma raises_try_except (m : M A) (handles : exn -> bool) (handler : exn -> M A) :
  raises P m -> (forall e, raises P (handler e)) ->
  raises P (try_except m handles handler).
Proof.
  intros Hm Hh s e. unfold try_except. specialize (Hm s).
  destruct (m s) as [[a|e'|] s']; cbn in *; [done| |done].
  destruct (handles e'); [apply Hh|intros [= <-]; auto].
Qed.

Lemma raises_try_except2 (m : M A) (h1 h2 : exn -> bool) (k1 k2 : exn -> M A) :
  raises P m -> (forall e, raises P (k1 e)) -> (forall e, raises P (k2 e)) ->
  raises P (try_except2 m h1 k1 h2 k2).
Proof.
  intros Hm H1 H2 s e. unfold try_except2. specialize (Hm s).
  destruct (m s) as [[a|e'|] s']; cbn in *; [done| |done].
  destruct (h1 e'); [apply H1|]. destruct (h2 e'); [apply H2|intros [= <-]; auto].
Qed.

End RaisesRules.

Lemma raises_get_state P : raises P get_state.
Proof. by intros s e. Qed.

Lemma raises_modify P f : raises P (modify f).
Proof. by intros s e. Qed.

Lemma raises_logger P lvl msg : raises P (logger lvl msg).
Proof. by intros s e. Qed.

Create HintDb raises.

Ltac raises_step :=
  cbv beta;
  lazymatch goal with
  | |- raises _ (bind _ _) => apply raises_bind; [|intros ?; cbv beta]
  | |- raises _ (ret _) => apply raises_ret
  | |- raises _ (raise _) => apply raises_raise; auto
  | |- raises _ get_state => apply raises_get_state
  | |- raises _ (logger _ _) => apply raises_logger
  | |- raises _ (modify _) => apply raises_modify
  | |- raises _ (external _ _) =>
      apply raises_external; [assumption|intros ?; cbv beta]
  | |- raises _ (try_except _ _ _) => apply raises_try_except; [|intros ?; cbv beta]
  | |- raises _ (try_except2 _ _ _ _ _) =>
      apply raises_try_except2; [|intros ?; cbv beta|intros ?; cbv beta]
  | |- raises _ (match ?x with _ => _ end) => destruct x
  end.

Ltac raises_auto := repeat first [raises_step | solve [eauto with raises]].

(** Every exception the script raises is either an [Exception] or was
    raised by an external call. *)
Section Raises.

Variable env : Env.
Variable config : Config.
Variable P : exn -> Prop.
Hypothesis P_fault : forall n e, fault env n = Some e -> P e.
Hypothesis P_Exception : forall e, is_Exception e = true -> P e.

Lemma raises_driver_get url : raises P (driver_get env url).
Proof. unfold driver_get. raises_auto. Qed.
#[local] Hint Resolve raises_driver_get : raises.

Lemma raises_driver_set_page_load_timeout n : raises P (driver_set_page_load_timeout env n).
Proof. unfold driver_set_page_load_timeout. raises_auto. Qed.
#[local] Hint Resolve raises_driver_set_page_load_timeout : raises.

Lemma raises_driver_scroll_height : raises P (driver_scroll_height env).
Proof. unfold driver_scroll_height. raises_auto. Qed.
#[local] Hint Resolve raises_driver_scroll_height : raises.

Lemma raises_driver_scroll_to_bottom : raises P (driver_scroll_to_bottom env).
Proof. unfold driver_scroll_to_bottom. raises_auto. Qed.
#[local] Hint Resolve raises_driver_scroll_to_bottom : raises.

Lemma raises_driver_find_elements : raises P (driver_find_elements env).
Proof. unfold driver_find_elements. raises_auto. Qed.
#[local] Hint Resolve raises_driver_find_elements : raises.

Lemma raises_wait_for_body n : raises P (wait_for_body env n).
Proof. unfold wait_for_body. raises_auto. Qed.
#[local] Hint Resolve raises_wait_for_body : raises.

Lemma raises_driver_find_element sel : raises P (driver_find_element env sel).
Proof. unfold driver_find_element. raises_auto. Qed.
#[local] Hint Resolve raises_driver_find_element : raises.

Lemma raises_element_click el : raises P (element_click env el).
Proof. unfold element_click. raises_auto. Qed.
#[local] Hint Resolve raises_element_click : raises.

Lemma raises_time_sleep n : raises P (time_sleep env n).
Proof. unfold time_sleep. raises_auto. Qed.
#[local] Hint Resolve raises_time_sleep : raises.

Lemma raises_time_time : raises P (time_time env).
Proof. unfold time_time. raises_auto. Qed.
#[local] Hint Resolve raises_time_time : raises.

Lemma raises_os_listdir : raises P (os_listdir env).
Proof. unfold os_listdir. raises_auto. Qed.
#[local] Hint Resolve raises_os_listdir : raises.

Lemma raises_path_exists name : raises P (path_exists env name).
Proof. unfold path_exists. raises_auto. Qed.
#[local] Hint Resolve raises_path_exists : raises.

Lemma raises_os_rename old new : raises P (os_rename env old new).
Proof. unfold os_rename. raises_auto. Qed.
#[local] Hint Resolve raises_os_rename : raises.

Lemma raises_folder_glob pat : raises P (folder_glob env pat).
Proof. unfold folder_glob. raises_auto. Qed.
#[local] Hint Resolve raises_folder_glob : raises.

Lemma raises_open_and_load name : raises P (open_and_load env name).
Proof. unfold open_and_load. raises_auto. Qed.
#[local] Hint Resolve raises_open_and_load : raises.

Lemma raises_open_and_dump data : raises P (open_and_dump env data).
Proof. unfold open_and_dump, open_for_writing, json_dump. raises_auto. Qed.
#[local] Hint Resolve raises_open_and_dump : raises.

Lemma raises_record_failure url : raises P (record_failure url).
Proof. unfold record_failure. raises_auto. Qed.
#[local] Hint Resolve raises_record_failure : raises.

Lemma raises_webdriver_Chrome : raises P (webdriver_Chrome env).
Proof. unfold webdriver_Chrome. raises_auto. Qed.
#[local] Hint Resolve raises_webdriver_Chrome : raises.

Lemma raises_driver_quit : raises P (driver_quit env).
Proof. unfold driver_quit. raises_auto. Qed.
#[local] Hint Resolve raises_driver_quit : raises.

Lemma raises_setup_driver : raises P (setup_driver env).
Proof. unfold setup_driver. raises_auto. Qed.
#[local] Hint Resolve raises_setup_driver : raises.

Lemma raises_find_download_button sels : raises P (find_download_button env sels).
Proof. induction sels as [|sel sels IH]; cbn [find_download_button]; raises_auto. Qed.
#[local] Hint Resolve raises_find_download_button : raises.

Lemma raises_rename_download completed index : raises P (rename_download env completed index).
Proof. unfold rename_download. raises_auto. Qed.
#[local] Hint Resolve raises_rename_download : raises.

Lemma raises_save_download completed index : raises P (save_download env completed index).
Proof. unfold save_download. raises_auto. Qed.
#[local] Hint Resolve raises_save_download : raises.

Lemma raises_wait_for_download remaining url index initial : raises P (wait_for_download env remaining url index initial).
Proof. induction remaining as [|n IH]; cbn [wait_for_download]; raises_auto. Qed.
#[local] Hint Resolve raises_wait_for_download : raises.

Lemma raises_download_steps url index : raises P (download_steps env config url index).
Proof. unfold download_steps. raises_auto. Qed.
#[local] Hint Resolve raises_download_steps : raises.

Lemma raises_download_workflow url index : raises P (download_workflow env config url index).
Proof. unfold download_workflow. raises_auto. Qed.
#[local] Hint Resolve raises_download_workflow : raises.

Lemma raises_merge_loop l acc : raises P (merge_loop env l acc).
Proof. revert acc; induction l as [|f l IH]; intros acc; cbn [merge_loop]; raises_auto. Qed.
#[local] Hint Resolve raises_merge_loop : raises.

Lemma raises_merge_json_files : raises P (merge_json_files env config).
Proof. unfold merge_json_files. raises_auto. Qed.
#[local] Hint Resolve raises_merge_json_files : raises.

Lemma raises_download_all urls idx total_urls : raises P (download_all env config urls idx total_urls).
Proof. revert idx; induction urls as [|url urls IH]; intros idx; cbn [download_all]; raises_auto. Qed.
#[local] Hint Resolve raises_download_all : raises.

Lemma raises_log_each urls : raises P (log_each urls).
Proof. induction urls as [|url urls IH]; cbn [log_each]; raises_auto. Qed.
#[local] Hint Resolve raises_log_each : raises.

Lemma raises_report urls n : raises P (report config urls n).
Proof. unfold report. raises_auto. Qed.
#[local] Hint Resolve raises_report : raises.

Lemma raises_download_and_merge urls : raises P (download_and_merge env config urls).
Proof. unfold download_and_merge. raises_auto. Qed.
#[local] Hint Resolve raises_download_and_merge : raises.

End Raises.

(** ** The download loop of [run] *)

Section DownloadLoop.

Variable env : Env.
Variable config : Config.

Lemma download_workflow_cases url index s :
  exists r s',
    download_workflow env config url index s = (r, s')
    /\ download_outcome url s r s'
    /\ attempts (log s') = attempts (log s) ++ [(index, url)]
    /\ (forall e, r = Raise e -> exists n, fault env n = Some e).
Proof.
  pose proof (download_workflow_outcome env config url index s) as Ho.
  pose proof (download_workflow_attempt env config url index s) as Ha.
  assert (raises (fun e => is_Exception e = true \/ exists n, fault env n = Some e)
            (download_workflow env config url index)) as Hr.
  { apply raises_download_workflow; [intros n e ?; right; by exists n|by left]. }
  specialize (Hr s).
  unfold wp in Ho.
  destruct (download_workflow env config url index s) as [r s'].
  exists r, s'. split_and!; try done.
  intros e ->. destruct (Hr e eq_refl) as [He|He]; [|done].
  cbn in Ho. destruct Ho as [Ho _]. congruence.
Qed.

Lemma download_all_attempts urls idx total_urls s :
  exists k r s',
    download_all env config urls idx total_urls s = (r, s')
    /\ (k <= length urls)%nat
    /\ attempts (log s') = attempts (log s) ++ take k (enumerate urls idx)
    /\ match r with
       | Val _ => k = length urls
       | Raise e => is_Exception e = false /\ exists n, fault env n = Some e
       | OutOfFuel => False
       end.
Proof.
  revert idx s. induction urls as [|url urls IH]; intros idx s.
  { exists 0%nat, (Val tt), s. cbn. by rewrite app_nil_r. }
  cbn [download_all]. unfold bind at 1.
  destruct (download_workflow_cases url idx s) as (r & s1 & -> & Ho & Ha & Hf).
  destruct r as [b|e|]; [|exists 1%nat, (Raise e), s1|done].
  - unfold bind at 1.
    set (progress := if (idx mod 50 =? 0)%Z then _ else _).
    assert (same_attempts s1 (progress s1).2 /\ exists u, (progress s1).1 = Val u)
      as [Hp [u Hu]].
    { subst progress. destruct (_ =? _)%Z; cbn; (split; [|by eexists]); [|done].
      red. cbn. by rewrite attempts_app, app_nil_r. }
    destruct (progress s1) as [rp s2]. cbn in Hp, Hu. subst rp.
    destruct (IH (idx + 1)%Z s2) as (k & r & s' & -> & Hk & Hatt & Hres).
    exists (S k), r, s'. split; [done|]. split; [cbn; lia|].
    split; [|destruct r; [cbn; lia|done..]].
    rewrite Hatt, Hp, Ha. cbn [enumerate take]. by rewrite <- app_assoc.
  - cbn. split; [done|]. split; [lia|]. split; [by rewrite Ha|].
    split; [by destruct Ho|by apply Hf].
Qed.

End DownloadLoop.

(** ** C1: the rename step *)

Lemma workflow_name_stamped_fresh_name (index now : Z) :
  workflow_name_stamped index now <> workflow_name index.
Proof.
  unfold workflow_name_stamped, workflow_name. intros H.
  apply (string_app_inj_l "workflow_") in H.
  apply (string_app_inj_l (PyStr.str_int index)) in H.
  discriminate.
Qed.

Lemma os_rename_files env old new s s' :
  os_rename env old new s = (Val tt, s') ->
  files s' !! new = files s !! old
  /\ is_Some (files s !! old)
  /\ (old <> new -> files s' !! old = None)
  /\ (forall name, name <> old -> name <> new -> files s' !! name = files s !! name).
Proof.
  unfold os_rename, external, bind, get_state, raise, ret, modify.
  destruct (fault env (tick s)); [done|]. cbn.
  destruct (files s !! old) as [text|] eqn:Hold; [|done].
  case_bool_decide as Hsame.
  { intros [= <-]. subst new. cbn. rewrite Hold. split_and!; by eauto. }
  destruct (os_platform env), (files s !! new); try done;
    intros [= <-]; cbn;
    (split_and!; [by rewrite lookup_insert_eq|by eauto
                 |intros _; by rewrite lookup_insert_ne, lookup_delete_eq
                 |intros name ? ?; by rewrite lookup_insert_ne, lookup_delete_ne]).
Qed.

Lemma rename_download_taken env completed index s dest s' :
  workflow_name index ∈ dom (files s) ->
  rename_download env completed index s = (Val dest, s') ->
  dest = workflow_name_stamped index (clock env (S (tick s)))
  /\ os_rename env completed dest
       (set_tick (S (S (tick s))) s) = (Val tt, s').
Proof.
  intros Hin. unfold rename_download, path_exists, time_time.
  unfold bind at 1. unfold external at 1.
  destruct (fault env (tick s)); [done|].
  unfold bind at 1, get_state, ret. cbn [files set_tick].
  rewrite bool_decide_eq_true_2 by done.
  unfold bind at 1. unfold bind at 1. unfold external at 1. cbn [tick set_tick].
  destruct (fault env (S (tick s))); [done|].
  unfold bind at 1.
  destruct (os_rename env completed _ _) as [[[]|e|] s2] eqn:E; [|done..].
  intros [= <- <-]. split; [done|]. exact E.
Qed.

(** C1, as stated, fails: with [workflow_1.json] present and the clock at
    1700000000, the destination is [workflow_1_1700000000.json]; a file of
    that name left by an earlier run is already in the folder, and on POSIX
    the rename replaces it. *)
Lemma stamped_name_can_collide :
  let s := init Examples.crowded_folder in
  let renamed := rename_download Examples.still_page "download.json" 1 s in
  files s !! "workflow_1.json" = Some "first"
  /\ renamed.1 = Val "workflow_1_1700000000.json"
  /\ files s !! "workflow_1_1700000000.json" = Some "second"
  /\ files renamed.2 !! "workflow_1_1700000000.json" = Some "third".
Proof. cbv zeta. split_and!; reflexivity. Qed.

(** C1, amended.  When [workflow_<index>.json] already exists, a rename step
    that succeeds moves the download to the time-stamped name
    [workflow_<index>_<now>.json], which differs from [workflow_<index>.json];
    every file other than the download itself and one already bearing the
    time-stamped name is left as it was, so [workflow_<index>.json] is not
    overwritten, and if no file bears the time-stamped name nothing is. *)
Theorem rename_collision_is_stamped env completed index s dest s' :
  workflow_name index ∈ dom (files s) ->
  rename_download env completed index s = (Val dest, s') ->
  dest = workflow_name_stamped index (clock env (S (tick s)))
  /\ dest <> workflow_name index
  /\ files s' !! dest = files s !! completed
  /\ (forall name, name <> completed -> name <> dest ->
                   files s' !! name = files s !! name)
  /\ (completed <> workflow_name index ->
      files s' !! workflow_name index = files s !! workflow_name index)
  /\ (dest ∉ dom (files s) ->
      forall name, name ∈ dom (files s) -> name <> completed ->
                   files s' !! name = files s !! name).
Proof.
  intros Hin Hrun.
  destruct (rename_download_taken _ _ _ _ _ _ Hin Hrun) as [-> Hren].
  apply os_rename_files in Hren as (Hnew & Hold & _ & Hother). cbn in *.
  pose proof (workflow_name_stamped_fresh_name index (clock env (S (tick s)))) as Hne.
  split_and!; try done.
  - intros Hc. apply Hother; [done|]. congruence.
  - intros Hfresh name Hname Hc. apply Hother; [done|]. set_solver.
Qed.

Lemma rename_collision_is_stamped_witness :
  let s := init Examples.crowded_folder in
  let dest := "workflow_1_1700000000.json" in
  dest <> workflow_name 1
  /\ files (rename_download Examples.still_page "download.json" 1 s).2
       !! workflow_name 1 = files s !! workflow_name 1.
Proof.
  cbv zeta.
  assert ("workflow_1.json" ∈ dom (files (init Examples.crowded_folder))) as Hin.
  { apply elem_of_dom. exists "first". reflexivity. }
  destruct (rename_collision_is_stamped Examples.still_page "download.json" 1
              (init Examples.crowded_folder) "workflow_1_1700000000.json"
              (rename_download Examples.still_page "download.json" 1
                 (init Examples.crowded_folder)).2 Hin eq_refl)
    as (_ & Hne & _ & _ & Hkept & _).
  split; [exact Hne|]. apply Hkept. discriminate.
Defined.

(** ** The merger when no external call raises *)

Section Merge.

Variable env : Env.
Variable config : Config.

Lemma quiet_now s : quiet env (tick s) -> fault env (tick s) = None.
Proof. intros H. by apply H. Qed.

Lemma quiet_later n m : quiet env n -> (n <= m)%nat -> quiet env m.
Proof. intros H ? k ?. apply H. lia. Qed.

Lemma merge_loop_quiet l acc s :
  quiet env (tick s) ->
  exists s',
    merge_loop env l acc s = (Val (acc ++ omap (load_entry env (files s)) l), s')
    /\ files s' = files s
    /\ merged_out s' = merged_out s
    /\ tick s' = (tick s + length l)%nat
    /\ log s' = log s ++ omap (read_error_line env (files s)) l.
Proof.
  revert acc s. induction l as [|name l IH]; intros acc s Hq.
  { exists s. cbn. rewrite !app_nil_r. split_and!; [done..|lia|done]. }
  cbn [merge_loop]. unfold bind at 1, try_except, open_and_load.
  unfold bind at 1. rewrite external_ok by by apply quiet_now.
  unfold bind at 1, get_state. cbn [files set_tick omap list_omap].
  unfold load_entry at 1, read_error_line at 1, read_error at 1.
  set (s1 := set_tick (S (tick s)) s).
  assert (quiet env (tick s1)) as Hq1 by (apply (quiet_later (tick s)); [done|cbn; lia]).
  destruct (files s !! name) as [text|]; [destruct (json_load env text) as [data|]|]; cbn.
  - destruct (IH (acc ++ [mkRecord name data]) s1 Hq1) as (s' & -> & ? & ? & ? & ?).
    exists s'. cbn in *. rewrite <- app_assoc. split_and!; [done..|lia|done].
  - destruct (IH acc (set_log (log s ++ [(ERROR, MsgReadError name ValueError)]) s1))
      as (s' & -> & ? & ? & ? & Hlog); [done|].
    exists s'. cbn in *. rewrite Hlog, <- app_assoc. split_and!; [done..|lia|done].
  - destruct (IH acc (set_log (log s ++ [(ERROR, MsgReadError name OSError)]) s1))
      as (s' & -> & ? & ? & ? & Hlog); [done|].
    exists s'. cbn in *. rewrite Hlog, <- app_assoc. split_and!; [done..|lia|done].
Qed.

Lemma listed_candidates_perm (o : listing) (dir : gmap string string) :
  listed_candidates o dir ≡ₚ merge_candidates dir.
Proof.
  unfold listed_candidates, merge_candidates. by rewrite (in_order_perm o).
Qed.

Lemma merge_json_files_quiet s :
  quiet env (tick s) ->
  let json_files := listed_candidates (dir_order env (tick s)) (files s) in
  let data := omap (load_entry env (files s)) json_files in
  exists s',
    merge_json_files env config s
    = (if unencodable env data then Raise ValueError else Val (py_len data), s')
    /\ merged_out s'
       = Some (if unencodable env data then Unfinished else Dumped data)
    /\ files s' = files s
    /\ log s' = log s
         ++ [(INFO, MsgMergeStart); (INFO, MsgFoundFiles (py_len json_files))]
         ++ omap (read_error_line env (files s)) json_files
         ++ (if unencodable env data then []
             else [(INFO, MsgMerged (py_len data) (merged_file config))]).
Proof.
  intros Hq json_files data. unfold merge_json_files.
  unfold bind at 1, logger at 1, modify. unfold bind at 1, folder_glob.
  rewrite external_ok by by apply quiet_now.
  unfold bind at 1, get_state, ret. cbn [files set_tick set_log tick].
  fold (listed_candidates (dir_order env (tick s)) (files s)). fold json_files.
  unfold bind at 1, logger at 1, modify. unfold bind at 1.
  set (s1 := set_log _ _).
  destruct (merge_loop_quiet json_files [] s1) as (s2 & -> & Hf & Hm & Ht & Hl).
  { apply (quiet_later (tick s)); [done|cbn; lia]. }
  cbn [app] in *. change (files s1) with (files s) in *. fold data.
  unfold bind at 1, open_and_dump. unfold bind at 1, open_for_writing.
  rewrite external_ok.
  2:{ apply Hq. rewrite Ht. cbn. lia. }
  cbn [modify]. unfold json_dump. rewrite external_ok.
  2:{ apply Hq. cbn. rewrite Ht. cbn. lia. }
  destruct (unencodable env data); cbn; (eexists; split; [reflexivity|]); cbn;
    (split_and!; [done..|]); rewrite Hl; cbn; by rewrite ?app_nil_r, <- ?app_assoc.
Qed.

End Merge.

(** ** C2 and C10: what the merged document holds *)

Lemma merge_candidates_spec (dir : gmap string string) (name : string) :
  name ∈ merge_candidates dir <-> name ∈ dom dir /\ workflow_file name.
Proof.
  unfold merge_candidates, workflow_file.
  rewrite list_elem_of_filter, elem_of_elements, fnmatch_workflow_pattern. tauto.
Qed.

Lemma merge_candidates_NoDup (dir : gmap string string) :
  NoDup (merge_candidates dir).
Proof. apply NoDup_filter, NoDup_elements. Qed.

Lemma load_entry_Some env dir name r :
  load_entry env dir name = Some r <->
  exists text v, dir !! name = Some text /\ json_load env text = Some v
                 /\ r = mkRecord name v.
Proof.
  unfold load_entry. destruct (dir !! name) as [text|].
  - destruct (json_load env text) as [v|] eqn:E; split.
    + intros [= <-]. by exists text, v.
    + intros (text' & v' & [= <-] & Hv & ->). congruence.
    + done.
    + intros (text' & v' & [= <-] & Hv & ->). congruence.
  - split; [done|]. by intros (text' & v' & ? & _).
Qed.

Lemma loaded_entries_spec env dir (l : list string) name v :
  mkRecord name v ∈ omap (load_entry env dir) l <->
  name ∈ l /\ exists text, dir !! name = Some text /\ json_load env text = Some v.
Proof.
  rewrite list_elem_of_omap. split.
  - intros (n & Hn & Hl). apply load_entry_Some in Hl as (text & v' & ? & ? & [= -> ->]).
    eauto.
  - intros (Hn & text & ? & ?). exists name. split; [done|].
    apply load_entry_Some. eauto.
Qed.

Lemma loaded_entries_names env dir (l : list string) name :
  name ∈ filename <$> omap (load_entry env dir) l ->
  name ∈ l /\ exists text v, dir !! name = Some text /\ json_load env text = Some v.
Proof.
  rewrite list_elem_of_fmap. intros ([n v] & -> & Hr).
  apply loaded_entries_spec in Hr as (? & text & ? & ?). cbn. eauto.
Qed.

Lemma loaded_entries_NoDup env dir (l : list string) :
  NoDup l -> NoDup (filename <$> omap (load_entry env dir) l).
Proof.
  induction 1 as [|name l Hnotin Hnd IH]; cbn; [constructor|].
  destruct (load_entry env dir name) as [r|] eqn:E; [|done].
  apply load_entry_Some in E as (text & v & _ & _ & ->). cbn.
  constructor; [|done]. intros Hin. by apply loaded_entries_names in Hin as [? _].
Qed.

Lemma read_error_logged env dir (l : list string) name text :
  name ∈ l -> dir !! name = Some text -> json_load env text = None ->
  (ERROR, MsgReadError name ValueError) ∈ omap (read_error_line env dir) l.
Proof.
  intros Hin Htext Hload. apply list_elem_of_omap. exists name. split; [done|].
  unfold read_error_line, read_error. by rewrite Htext, Hload.
Qed.

Lemma loaded_entries_perm env dir (l1 l2 : list string) :
  l1 ≡ₚ l2 -> omap (load_entry env dir) l1 ≡ₚ omap (load_entry env dir) l2.
Proof. intros H. by rewrite H. Qed.

(** C2, as stated, fails: the one file of the folder parses, yet the merged
    list is not written.  The json library reads a str that UTF-8 cannot
    encode; [json.dump] raises on it after the merged file was opened and
    truncated, and the merge aborts. *)
Lemma merge_aborts_on_unencodable_data :
  let s := init Examples.surrogate_folder in
  let merged := merge_json_files Examples.lone_surrogate CONFIG s in
  merge_candidates (files s) = ["workflow_1.json"]
  /\ load_entry Examples.lone_surrogate (files s) "workflow_1.json"
     = Some (mkRecord "workflow_1.json" (JStr "\ud800"))
  /\ merged.1 = Raise ValueError
  /\ merged_out merged.2 = Some Unfinished.
Proof. cbv zeta. split_and!; reflexivity. Qed.

(** C2, amended.  When no external call of the merge raises, the list the
    merger collects has exactly one entry {filename, workflow} for each
    enumerated file that parses and none for a file that does not; such a
    file is logged at ERROR and skipped, and the merge goes on to write its
    list.  The list is what the merged file holds afterwards unless
    [json.dump] cannot encode it: then the merge raises ValueError and the
    file is left truncated.  With [workflow_1.json] holding the one-member
    object and an unparsable [workflow_2.json], the list is the single entry
    for [workflow_1.json]. *)
Theorem merge_keeps_parsed_skips_failed env config s :
  quiet env (tick s) ->
  exists data s',
    merge_json_files env config s
    = (if unencodable env data then Raise ValueError else Val (py_len data), s')
    /\ merged_out s'
       = Some (if unencodable env data then Unfinished else Dumped data)
    /\ NoDup (filename <$> data)
    /\ (forall name v,
          mkRecord name v ∈ data <->
          name ∈ merge_candidates (files s)
          /\ exists text, files s !! name = Some text
                          /\ json_load env text = Some v)
    /\ (forall name text,
          name ∈ merge_candidates (files s) ->
          files s !! name = Some text ->
          json_load env text = None ->
          (name ∉ filename <$> data)
          /\ (ERROR, MsgReadError name ValueError) ∈ log s')
    /\ (forall text2,
          files s = <["workflow_1.json" := Examples.a1_text]>
                      (<["workflow_2.json" := text2]> ∅) ->
          json_load env Examples.a1_text = Some Examples.a1_json ->
          json_load env text2 = None ->
          data = [mkRecord "workflow_1.json" Examples.a1_json]).
Proof.
  intros Hq.
  destruct (merge_json_files_quiet env config s Hq) as (s' & Hrun & Hout & _ & Hlog).
  cbv zeta in *.
  pose proof (listed_candidates_perm (dir_order env (tick s)) (files s)) as Hperm.
  set (json_files := listed_candidates (dir_order env (tick s)) (files s)) in *.
  set (data := omap (load_entry env (files s)) json_files) in *.
  assert (NoDup (filename <$> data)) as Hnd.
  { apply loaded_entries_NoDup. rewrite Hperm. apply merge_candidates_NoDup. }
  assert (forall name v,
            mkRecord name v ∈ data <->
            name ∈ merge_candidates (files s)
            /\ exists text, files s !! name = Some text
                            /\ json_load env text = Some v) as Hspec.
  { intros name v. subst data. rewrite loaded_entries_spec. by rewrite Hperm. }
  exists data, s'. split_and!; [done|done|done|done|..].
  - intros name text Hin Htext Hload. split.
    + intros Hn. apply loaded_entries_names in Hn as (_ & text' & v & ? & ?).
      congruence.
    + rewrite Hlog, !elem_of_app. right. right. left.
      eapply read_error_logged; [|done..]. by rewrite Hperm.
  - intros text2 Hfiles H1 H2.
    apply Permutation_singleton_r, NoDup_Permutation.
    + by eapply NoDup_fmap_1.
    + apply NoDup_singleton.
    + intros [name v]. rewrite Hspec, Hfiles, list_elem_of_singleton.
      assert (merge_candidates (<["workflow_1.json" := Examples.a1_text]>
                                  (<["workflow_2.json" := text2]> ∅))
              = ["workflow_1.json"; "workflow_2.json"]) as -> by by vm_compute.
      split.
      * intros [Hname (text & Htext & Hv)].
        apply elem_of_cons in Hname as [->|Hname].
        { rewrite lookup_insert_eq in Htext. congruence. }
        apply list_elem_of_singleton in Hname as ->.
        rewrite lookup_insert_ne, lookup_insert_eq in Htext by done. congruence.
      * intros [= -> ->]. split; [left|].
        exists Examples.a1_text. by rewrite lookup_insert_eq.
Qed.

Lemma merge_keeps_parsed_skips_failed_witness :
  merged_out
    (merge_json_files Examples.one_document CONFIG
       (init Examples.two_workflows)).2
  = Some (Dumped [mkRecord "workflow_1.json" Examples.a1_json]).
Proof.
  assert (quiet Examples.one_document (tick (init Examples.two_workflows))) as Hq.
  { intros k _. reflexivity. }
  destruct (merge_keeps_parsed_skips_failed Examples.one_document CONFIG
              (init Examples.two_workflows) Hq)
    as (data & s' & Hrun & Hout & _ & _ & _ & Hexample).
  rewrite Hrun. cbn [snd]. rewrite Hout. cbn. do 2 f_equal.
  apply (Hexample "<corrupt>"); reflexivity.
Defined.

(** C10.  The merger enumerates its input by the pattern [workflow_*.json]
    alone: the candidates are exactly the names in the download folder of
    that form, whatever the state of the run (counters, log, failure list),
    and [glob] lists them all, in the order of the file system; every entry
    of the merged list comes from such a file, every such file that parses
    gets its entry, and two folders that agree on the files of that form
    give the same entries whatever else they hold.  (The list is what the
    merged file holds unless [json.dump] cannot encode it.) *)
Theorem merge_enumerates_by_pattern env config s :
  quiet env (tick s) ->
  (forall name,
     name ∈ merge_candidates (files s) <-> name ∈ dom (files s) /\ workflow_file name)
  /\ (exists json_files,
        (folder_glob env "workflow_*.json" s).1 = Val json_files
        /\ json_files ≡ₚ merge_candidates (files s))
  /\ exists data s',
      merge_json_files env config s
      = (if unencodable env data then Raise ValueError else Val (py_len data), s')
      /\ merged_out s'
         = Some (if unencodable env data then Unfinished else Dumped data)
      /\ (forall r, r ∈ data ->
            workflow_file (filename r) /\ filename r ∈ dom (files s))
      /\ (forall name text v,
            workflow_file name -> files s !! name = Some text ->
            json_load env text = Some v -> mkRecord name v ∈ data)
      /\ (forall s2,
            quiet env (tick s2) ->
            (forall name, workflow_file name -> files s2 !! name = files s !! name) ->
            exists data2,
              merged_out (merge_json_files env config s2).2
              = Some (if unencodable env data2 then Unfinished else Dumped data2)
              /\ data2 ≡ₚ data).
Proof.
  intros Hq. split; [intros name; apply merge_candidates_spec|]. split.
  { exists (listed_candidates (dir_order env (tick s)) (files s)). split.
    - unfold folder_glob. rewrite external_ok by by apply Hq. done.
    - apply listed_candidates_perm. }
  destruct (merge_json_files_quiet env config s Hq) as (s' & Hrun & Hout & _ & _).
  cbv zeta in *.
  pose proof (listed_candidates_perm (dir_order env (tick s)) (files s)) as Hperm.
  set (json_files := listed_candidates (dir_order env (tick s)) (files s)) in *.
  set (data := omap (load_entry env (files s)) json_files) in *.
  exists data, s'. split_and!; [done|done|..].
  - intros [name v] Hr. apply loaded_entries_spec in Hr as [Hc _].
    rewrite Hperm in Hc. apply merge_candidates_spec in Hc. tauto.
  - intros name text v Hw Htext Hload. apply loaded_entries_spec. split; [|by eauto].
    rewrite Hperm. apply merge_candidates_spec. split; [|done].
    apply elem_of_dom. eauto.
  - intros s2 Hq2 Hagree.
    destruct (merge_json_files_quiet env config s2 Hq2) as (s2' & Hrun2 & Hout2 & _ & _).
    cbv zeta in *. rewrite Hrun2. eexists. split; [exact Hout2|].
    pose proof (listed_candidates_perm (dir_order env (tick s2)) (files s2)) as Hperm2.
    apply NoDup_Permutation.
    + eapply NoDup_fmap_1, loaded_entries_NoDup. rewrite Hperm2.
      apply merge_candidates_NoDup.
    + eapply NoDup_fmap_1, loaded_entries_NoDup. rewrite Hperm.
      apply merge_candidates_NoDup.
    + intros [name v]. subst data. rewrite !loaded_entries_spec.
      rewrite Hperm, Hperm2, !merge_candidates_spec.
      rewrite !elem_of_dom.
      split; intros [[Hd Hw] Ht]; rewrite ?Hagree in * by done;
        (split; [split|]; try done); by rewrite Hagree.
Qed.

Lemma merge_enumerates_by_pattern_witness :
  "workflow_2.json" ∈ merge_candidates (files (init Examples.two_workflows)).
Proof.
  assert (quiet Examples.one_document (tick (init Examples.two_workflows))) as Hq.
  { intros k _. reflexivity. }
  destruct (merge_enumerates_by_pattern Examples.one_document CONFIG
              (init Examples.two_workflows) Hq) as [Hc _].
  apply Hc. split.
  - apply elem_of_dom. exists "<corrupt>". reflexivity.
  - exists "2". reflexivity.
Defined.

(** ** C4: the collected URLs *)

#[export] Instance keeps_clean_frame config : Frame (keeps_clean config).
Proof.
  split; [split|..]; unfold keeps_clean.
  - by intros s.
  - intros s1 s2 s3 H12 H23 H. auto.
  - done.
  - done.
  - done.
Qed.

Lemma qualifies_clean config u seen :
  qualifies config (Some u) seen = true ->
  u <> base_url config /\ PyStr.endswith u "/workflows/all" = false
  /\ PyStr.contains "/workflows/" u = true /\ u ∉ seen.
Proof.
  unfold qualifies. rewrite !andb_true_iff, !negb_true_iff.
  intros [[[_ Hc] Hs] [Hb He]].
  split_and!; [|done|done|].
  - intros ->. by rewrite String.eqb_refl in Hb.
  - by apply bool_decide_eq_false in Hs.
Qed.

Lemma stable_collect_from_clean config l :
  stable (keeps_clean config) (collect_from config l).
Proof.
  induction l as [|el l IH]; cbn [collect_from]; [by intros s|].
  apply (stable_bind (keeps_clean config)); [|intros _; exact IH].
  intros s. unfold try_except, bind, get_state, element_get_attribute, keeps_clean.
  destruct el as [url|e]; cbn.
  - destruct (qualifies config url (workflow_urls s)) eqn:Hq; [|done].
    destruct url as [u|]; [|done]. cbn.
    apply qualifies_clean in Hq as (Hb & He & _).
    intros Hclean u' [->%elem_of_singleton|Hin]%elem_of_union; auto.
  - by destruct (is_StaleElementReferenceException e).
Qed.

Lemma scroll_returns_elements env config fuel s l s' :
  scroll_and_collect_urls env config fuel s = (Val l, s') ->
  l ≡ₚ elements (workflow_urls s').
Proof.
  intros Hrun.
  assert (wp (scroll_and_collect_urls env config fuel)
            (fun r s' => forall l, r = Val l -> l ≡ₚ elements (workflow_urls s')) s)
    as Hwp.
  { unfold scroll_and_collect_urls.
    do 5 (apply wp_bind_any; [intros ? ?|done|done]).
    unfold wp; cbn. intros ? [= <-]. apply in_order_perm. }
  unfold wp in Hwp. rewrite Hrun in Hwp. by apply Hwp.
Qed.

Lemma scroll_returns_set env config fuel s l s' :
  scroll_and_collect_urls env config fuel s = (Val l, s') ->
  NoDup l /\ forall u, u ∈ l <-> u ∈ workflow_urls s'.
Proof.
  intros Hrun. pose proof (scroll_returns_elements _ _ _ _ _ _ Hrun) as Hperm.
  split.
  - rewrite Hperm. apply NoDup_elements.
  - intros u. by rewrite Hperm, elem_of_elements.
Qed.

(** C4.  Started with an empty URL set, as [__init__] leaves it, the list
    [scroll_and_collect_urls] returns has no duplicate, does not contain the
    listing page's own URL, and contains no URL ending in [/workflows/all]. *)
Theorem collected_urls_are_unique_and_filtered env config fuel s l s' :
  workflow_urls s = ∅ ->
  scroll_and_collect_urls env config fuel s = (Val l, s') ->
  NoDup l
  /\ (base_url config ∉ l)
  /\ (forall u, u ∈ l -> ~ exists p, u = p +:+ "/workflows/all").
Proof.
  intros Hempty Hrun.
  pose proof (scroll_returns_set _ _ _ _ _ _ Hrun) as [Hnd Hl].
  assert (clean config (workflow_urls s')) as Hclean.
  { pose proof (stable_scroll_and_collect_urls_with (keeps_clean config) env config
                  (stable_collect_from_clean config) fuel s) as Hk.
    rewrite Hrun in Hk. apply Hk. rewrite Hempty. intros u Hu. set_solver. }
  split; [done|]. split.
  - intros Hin%Hl. by destruct (Hclean _ Hin).
  - intros u Hin%Hl Hend. destruct (Hclean _ Hin) as [_ He].
    apply endswith_spec in Hend. congruence.
Qed.

Lemma collected_urls_are_unique_and_filtered_witness :
  let run1 := scroll_and_collect_urls Examples.still_page CONFIG 5 (init ∅) in
  exists l, run1.1 = Val l /\ length l = 2%nat /\ NoDup l /\ (base_url CONFIG ∉ l).
Proof.
  cbv zeta.
  destruct (scroll_and_collect_urls Examples.still_page CONFIG 5 (init ∅))
    as [r s'] eqn:Hrun.
  assert (exists l, r = Val l /\ length l = 2%nat) as (l & -> & Hlen).
  { apply (f_equal fst) in Hrun. vm_compute in Hrun. subst r. eexists. split; reflexivity. }
  exists l. split; [done|]. split; [done|].
  destruct (collected_urls_are_unique_and_filtered Examples.still_page CONFIG 5
              (init ∅) l s' eq_refl Hrun) as (Hnd & Hbase & _).
  by split.
Defined.

(** ** C3: when the scroll loop stops *)

Section ScrollLoop.

Variable env : Env.
Variable config : Config.

(** The height a scroll attempt reads is the page's height at some call
    made during the attempt. *)
Lemma scroll_attempt_height s :
  wp (scroll_attempt env config)
     (fun r s1 =>
        later s s1
        /\ r <> OutOfFuel
        /\ forall h', r = Val h' ->
             exists n, (tick s <= n)%nat /\ h' = page_height env n) s.
Proof.
  unfold scroll_attempt.
  assert (Hraise : forall e s1, later s s1 ->
            later s s1 /\ Raise e <> @OutOfFuel Z
            /\ forall h', Raise e = Val h' ->
                 exists n, (tick s <= n)%nat /\ h' = page_height env n).
  { intros e s1 H1. split; [done|]. split; [done|]. by intros h' [=]. }
  apply (wp_bind_stable_total later);
    [apply stable_scrape_links; [apply _|intros ? ?; unfold later; cbn; lia]
    |apply total_scrape_links| |done].
  intros _ s1 H1.
  apply (wp_bind_stable_total later);
    [apply stable_driver_scroll_to_bottom; apply _
    |apply total_driver_scroll_to_bottom| |].
  2:{ intros e s2 H2. apply Hraise. by etrans. }
  intros _ s2 H2.
  apply (wp_bind_stable_total later);
    [apply stable_time_sleep; apply _|apply total_time_sleep| |].
  2:{ intros e s3 H3. apply Hraise. etrans; [|done]. by etrans. }
  intros _ s3 H3.
  assert (later s s3) as Hs3 by (etrans; [|done]; by etrans).
  unfold driver_scroll_height. apply wp_external.
  - intros e _. apply Hraise. unfold later in *. cbn. lia.
  - intros _. unfold wp; cbn. split; [unfold later in *; cbn; lia|].
    split; [done|]. intros h' [= <-]. exists (tick s3). split; [done|done].
Qed.

Lemma scroll_loop_at_target fuel h c s :
  (target_count config <= py_len_set (workflow_urls s))%Z ->
  scroll_loop env config fuel h c s = (Val tt, s).
Proof.
  intros Ht. destruct fuel; cbn [scroll_loop]; unfold bind, get_state;
    by rewrite (proj2 (Z.ltb_ge _ _) Ht).
Qed.

Lemma scroll_loop_step fuel h c s h' s1 :
  (py_len_set (workflow_urls s) < target_count config)%Z ->
  scroll_attempt env config s = (Val h', s1) ->
  scroll_loop env config (S fuel) h c s =
  if (h' =? h)%Z
  then if (max_no_new_attempts <=? c + 1)%Z
       then logger WARNING (MsgNoNewContent max_no_new_attempts) s1
       else scroll_loop env config fuel h (c + 1)%Z s1
  else scroll_loop env config fuel h' 0%Z s1.
Proof.
  intros Ht Hatt. cbn [scroll_loop]. unfold bind at 1, get_state.
  rewrite (proj2 (Z.ltb_lt _ _) Ht). cbn [negb].
  unfold bind at 1. rewrite Hatt. cbv zeta.
  destruct (h' =? h)%Z; [destruct (_ <=? _)%Z|]; done.
Qed.

Lemma scroll_loop_stagnation fuel h c s :
  (0 <= c < max_no_new_attempts)%Z ->
  (forall n, (tick s <= n)%nat -> page_height env n = h) ->
  (Z.to_nat (max_no_new_attempts - c) <= fuel)%nat ->
  (scroll_loop env config fuel h c s).1 <> OutOfFuel.
Proof.
  revert c s. induction fuel as [|fuel IH]; intros c s Hc Hh Hfuel.
  { unfold max_no_new_attempts in *. lia. }
  destruct (Z.ltb_spec (py_len_set (workflow_urls s)) (target_count config)) as [Ht|Ht].
  2:{ by rewrite scroll_loop_at_target. }
  pose proof (scroll_attempt_height s) as Hatt. unfold wp in Hatt.
  destruct (scroll_attempt env config s) as [[h'|e|] s1] eqn:E; cbn in Hatt.
  - rewrite (scroll_loop_step _ _ _ _ _ _ Ht E).
    destruct Hatt as (Hl & _ & Hh'). destruct (Hh' h' eq_refl) as (n & Hn & ->).
    rewrite (Hh n Hn), Z.eqb_refl.
    destruct (Z.leb_spec max_no_new_attempts (c + 1)) as [Hstop|Hgo]; [done|].
    apply IH; [lia| |unfold max_no_new_attempts in *; lia].
    intros m Hm. apply Hh. unfold later in Hl. lia.
  - cbn [scroll_loop]. unfold bind at 1, get_state.
    rewrite (proj2 (Z.ltb_lt _ _) Ht). cbn [negb].
    unfold bind at 1. by rewrite E.
  - by destruct Hatt as (_ & ? & _).
Qed.

End ScrollLoop.

Lemma scroll_loop_growing fuel h c s :
  workflow_urls s = ∅ ->
  (h < Z.of_nat (tick s))%Z ->
  (scroll_loop Examples.growing_page CONFIG fuel h c s).1 = OutOfFuel.
Proof.
  revert h c s. induction fuel as [|fuel IH]; intros h c s Hu Hh.
  { cbn [scroll_loop]. unfold bind, get_state. by rewrite Hu. }
  assert (exists s1,
            scroll_attempt Examples.growing_page CONFIG s
            = (Val (Z.of_nat (S (S (S (tick s))))), s1)
            /\ workflow_urls s1 = workflow_urls s
            /\ tick s1 = S (S (S (S (tick s))))) as (s1 & Hatt & Hu1 & Ht1).
  { eexists. split; [reflexivity|]. split; reflexivity. }
  assert (py_len_set (workflow_urls s) < target_count CONFIG)%Z as Ht
    by (rewrite Hu; by vm_compute).
  rewrite (scroll_loop_step _ _ _ _ _ _ _ _ Ht Hatt).
  rewrite (proj2 (Z.eqb_neq _ _)) by lia.
  apply IH; [congruence|lia].
Qed.

(** C3, as stated, fails: on a page that grows at every look and never shows
    a workflow link the loop never stops; whatever the fuel, the collector
    runs out of it. *)
Lemma growing_page_never_stops :
  ~ exists fuel,
      (scroll_and_collect_urls Examples.growing_page CONFIG fuel (init ∅)).1
      <> OutOfFuel.
Proof.
  intros [fuel H]. apply H. clear H.
  unfold scroll_and_collect_urls, driver_get, time_sleep, driver_scroll_height,
    logger, modify, external, bind.
  cbn -[scroll_loop].
  match goal with
  | |- context [scroll_loop _ _ fuel ?h ?c ?s] =>
      pose proof (scroll_loop_growing fuel h c s eq_refl) as Hg;
      destruct (scroll_loop Examples.growing_page CONFIG fuel h c s) as [r s']
  end.
  cbn in Hg. rewrite Hg by lia. done.
Qed.

(** C3, amended.  The loop stops when the URL set has reached the target
    count, and it stops after 5 consecutive scroll attempts that leave the
    page height unchanged even if the target is unmet: once the height stays
    the same, at most 5 minus the current count further attempts are made.
    An attempt that changes the height resets the count to 0.  The loop need
    not stop on a page whose height keeps changing while the target stays
    unmet. *)
Theorem scroll_loop_stops env config fuel h c s :
  (0 <= c < max_no_new_attempts)%Z ->
  (forall n, (tick s <= n)%nat -> page_height env n = h) ->
  (Z.to_nat (max_no_new_attempts - c) <= fuel)%nat ->
  (scroll_loop env config fuel h c s).1 <> OutOfFuel
  /\ (forall fuel0 h0 c0 s0,
        (target_count config <= py_len_set (workflow_urls s0))%Z ->
        scroll_loop env config fuel0 h0 c0 s0 = (Val tt, s0))
  /\ (forall fuel0 h0 c0 s0 h' s1,
        (py_len_set (workflow_urls s0) < target_count config)%Z ->
        scroll_attempt env config s0 = (Val h', s1) ->
        scroll_loop env config (S fuel0) h0 c0 s0 =
        if (h' =? h0)%Z
        then if (max_no_new_attempts <=? c0 + 1)%Z
             then logger WARNING (MsgNoNewContent max_no_new_attempts) s1
             else scroll_loop env config fuel0 h0 (c0 + 1)%Z s1
        else scroll_loop env config fuel0 h' 0%Z s1).
Proof.
  intros Hc Hh Hfuel. split_and!.
  - by apply scroll_loop_stagnation.
  - apply scroll_loop_at_target.
  - apply scroll_loop_step.
Qed.

Lemma scroll_loop_stops_witness :
  (scroll_loop Examples.still_page CONFIG 5 1080 0 (init ∅)).1 <> OutOfFuel.
Proof.
  apply (scroll_loop_stops Examples.still_page CONFIG 5 1080 0 (init ∅)).
  - unfold max_no_new_attempts. lia.
  - intros n _. reflexivity.
  - vm_compute. lia.
Defined.

(** ** C7: the driver is always shut down *)

#[export] Instance log_grows_frame : Frame log_grows.
Proof.
  split; [split|..]; unfold log_grows.
  - intros s. exists []. by rewrite app_nil_r.
  - intros s1 s2 s3 [l1 H1] [l2 H2]. exists (l1 ++ l2). by rewrite H2, H1, app_assoc.
  - intros s. exists []. by rewrite app_nil_r.
  - intros f s. exists []. by rewrite app_nil_r.
  - intros lvl m s _. by eexists.
Qed.

Section Run.

Variable env : Env.
Variable config : Config.

(** The state in which the [try] statement of [run] hands over to the
    [finally] block: the driver exists exactly if it existed before or the
    call creating it went through, and it has not been quit. *)
Lemma run_try_browser fuel s :
  wp (try_except2 (run_body env config fuel)
        is_KeyboardInterrupt (fun _ => logger INFO MsgInterrupted)
        is_Exception (fun e => logger ERROR (MsgUnexpected e)))
     (fun _ s1 =>
        quit_calls s1 = quit_calls s
        /\ driver s1 = match fault env (tick s) with
                       | Some _ => driver s
                       | None => true
                       end) s.
Proof.
  apply wp_try_except2. unfold run_body.
  apply wp_bind, wp_logger, wp_bind. unfold setup_driver.
  apply wp_bind. unfold webdriver_Chrome. apply wp_external; cbn [tick set_log].
  - intros e He. rewrite He.
    destruct e; cbn; unfold wp; cbn; done.
  - intros Hok. rewrite Hok. apply wp_modify.
    set (s0 := set_driver true _).
    assert (quit_calls s0 = quit_calls s /\ driver s0 = true) as [Hq0 Hd0] by done.
    clearbody s0.
    apply (wp_stable same_browser); [stable_solve|].
    intros r s1 [Hq1 Hd1].
    assert (forall e s2, same_browser s1 s2 ->
              if is_KeyboardInterrupt e
              then wp (logger INFO MsgInterrupted)
                     (fun _ s3 => quit_calls s3 = quit_calls s /\ driver s3 = true) s2
              else if is_Exception e
                   then wp (logger ERROR (MsgUnexpected e))
                          (fun _ s3 => quit_calls s3 = quit_calls s /\ driver s3 = true) s2
                   else quit_calls s2 = quit_calls s /\ driver s2 = true) as Hhandlers.
    { intros e s2 [Hq2 Hd2].
      destruct (is_KeyboardInterrupt e); [|destruct (is_Exception e)];
        unfold wp; cbn; split; congruence. }
    destruct r as [[]|e|].
    + apply (wp_stable same_browser); [stable_solve|].
      intros r s2 [Hq2 Hd2]. destruct r as [[]|e|].
      * split; congruence.
      * by apply Hhandlers.
      * split; congruence.
    + by apply Hhandlers.
    + split; congruence.
Qed.

Lemma run_cleanup_quits s :
  wp (run_cleanup env)
     (fun r s' =>
        r <> OutOfFuel
        /\ driver s' = driver s
        /\ quit_calls s' = (quit_calls s + if driver s then 1 else 0)%nat) s.
Proof.
  unfold run_cleanup, wp, bind, get_state, driver_quit, modify, external, logger, ret.
  destruct (driver s) eqn:Hd; cbn.
  - destruct (fault env (tick s)); cbn; rewrite Hd; split_and!; (done || lia).
  - rewrite Hd. split_and!; (done || lia).
Qed.

End Run.

(** C7.  Every execution of [run] that ends, whether its [try] body
    completed, was interrupted by the user or raised anything else, has
    called [driver.quit()] exactly once in its [finally] block if a driver
    exists, and not at all otherwise; a driver exists exactly if there was
    one before or the call creating it (the first external call of the run)
    went through. *)
Theorem run_always_quits_driver env config fuel s :
  (run env config fuel s).1 <> OutOfFuel ->
  let s' := (run env config fuel s).2 in
  quit_calls s' = (quit_calls s + if driver s' then 1 else 0)%nat
  /\ driver s' = match fault env (tick s) with
                 | Some _ => driver s
                 | None => true
                 end.
Proof.
  unfold run, try_finally.
  pose proof (run_try_browser env config fuel s) as Htry. unfold wp in Htry.
  destruct (try_except2 _ _ _ _ _ s) as [rb s1]. cbn in Htry.
  destruct Htry as [Hq1 Hd1].
  pose proof (run_cleanup_quits env s1) as Hfin. unfold wp in Hfin.
  destruct rb as [[]|e|]; [| |done];
    destruct (run_cleanup env s1) as [[[]|e'|] s2]; cbn in Hfin |- *;
    destruct Hfin as (Hr & Hd2 & Hq2); try done;
    intros _; rewrite Hq2, Hd2, Hq1, Hd1; done.
Qed.

Lemma run_always_quits_driver_witness :
  quit_calls (run Examples.still_page CONFIG 5 (init ∅)).2 = 1%nat
  /\ quit_calls (run Examples.interrupted_while_scrolling CONFIG 5 (init ∅)).2 = 1%nat
  /\ quit_calls (run Examples.crashing_browser CONFIG 5 (init ∅)).2 = 1%nat
  /\ quit_calls (run Examples.interrupted CONFIG 5 (init ∅)).2 = 0%nat.
Proof.
  split_and!.
  - destruct (run_always_quits_driver Examples.still_page CONFIG 5 (init ∅))
      as [Hq Hd]; [by vm_compute|].
    cbv zeta in Hq, Hd. rewrite Hq, Hd. reflexivity.
  - destruct (run_always_quits_driver Examples.interrupted_while_scrolling CONFIG 5
                (init ∅)) as [Hq Hd]; [by vm_compute|].
    cbv zeta in Hq, Hd. rewrite Hq, Hd. reflexivity.
  - destruct (run_always_quits_driver Examples.crashing_browser CONFIG 5 (init ∅))
      as [Hq Hd]; [by vm_compute|].
    cbv zeta in Hq, Hd. rewrite Hq, Hd. reflexivity.
  - destruct (run_always_quits_driver Examples.interrupted CONFIG 5 (init ∅))
      as [Hq Hd]; [by vm_compute|].
    cbv zeta in Hq, Hd. rewrite Hq, Hd. reflexivity.
Defined.

(** ** C8: nothing collected *)

Section NothingCollected.

Variable env : Env.
Variable config : Config.

(** With no URL the download phase only writes its log lines. *)
Lemma download_and_merge_nil s :
  exists s1,
    download_and_merge env config [] s
    = (merged_count <- merge_json_files env config ;;
       report config [] merged_count) s1
    /\ tick s1 = tick s /\ files s1 = files s /\ log_grows s s1.
Proof.
  unfold download_and_merge. cbn [download_all].
  destruct (_ <? _)%Z.
  - exists (set_log (((log s ++ [(WARNING, MsgOnlyFound (py_len (@nil string)) (target_count config))])
                        ++ [(INFO, MsgPhase 2)]) ++ [(INFO, MsgPhase 3)]) s).
    split; [reflexivity|]. cbn. split_and!; [done|done|].
    eexists. by rewrite <- !app_assoc.
  - exists (set_log ((log s ++ [(INFO, MsgPhase 2)]) ++ [(INFO, MsgPhase 3)]) s).
    split; [reflexivity|]. cbn. split_and!; [done|done|].
    eexists. by rewrite <- !app_assoc.
Qed.

Lemma report_returns urls n s :
  (report config urls n s).1 = Val tt.
Proof.
  pose proof (total_report config urls n s) as Ht.
  pose proof (raises_report config (fun _ => False) urls n s) as Hr.
  destruct (report config urls n s).1 as [[]|e|]; [done| |done].
  destruct (Hr e eq_refl).
Qed.

Lemma merge_start_logged s :
  wp (merged_count <- merge_json_files env config ;;
      report config [] merged_count)
     (fun _ s' => (INFO, MsgMergeStart) ∈ log s') s.
Proof.
  assert (forall s1 s2, (INFO, MsgMergeStart) ∈ log s1 -> log_grows s1 s2 ->
                        (INFO, MsgMergeStart) ∈ log s2) as Hkeep.
  { intros s1 s2 Hin [l ->]. apply elem_of_app. by left. }
  apply wp_bind. unfold merge_json_files. apply wp_bind, wp_logger.
  set (s1 := set_log _ s).
  assert ((INFO, MsgMergeStart) ∈ log s1) as H1.
  { subst s1. cbn. apply elem_of_app. right. by left. }
  clearbody s1.
  apply (wp_stable log_grows); [stable_solve|].
  intros r s2 H2. destruct r as [n|e|]; [|by eapply Hkeep..].
  apply (wp_stable log_grows); [stable_solve|].
  intros r s3 H3. eapply Hkeep; [|exact H3]. by eapply Hkeep.
Qed.

End NothingCollected.

(** C8.  When the collection phase returns the empty list, the download loop
    of [run] does nothing: no download is attempted, nothing is counted and
    no failure is recorded.  The merge phase still runs, and if no external
    call of it raises it opens the merged file and dumps the merged list,
    the entries of the folder's files of the form [workflow_*.json] that
    parse, which is empty when the folder holds no such file; only a list
    that [json.dump] cannot encode leaves the file truncated. *)
Theorem empty_collection_still_merges env config s :
  let after := download_and_merge env config [] s in
  download_all env config [] 1 (py_len (@nil string)) = ret tt
  /\ attempts (log after.2) = attempts (log s)
  /\ downloaded_count after.2 = downloaded_count s
  /\ failed_downloads after.2 = failed_downloads s
  /\ (INFO, MsgMergeStart) ∈ log after.2
  /\ (quiet env (tick s) ->
      exists data,
        data ≡ₚ omap (load_entry env (files s)) (merge_candidates (files s))
        /\ after.1 = (if unencodable env data then Raise ValueError else Val tt)
        /\ merged_out after.2
           = Some (if unencodable env data then Unfinished else Dumped data)
        /\ (merge_candidates (files s) = [] -> data = []))
  /\ (forall fuel s0,
        (logger INFO MsgStarting ;;;
         setup_driver env ;;;
         logger INFO (MsgPhase 1) ;;;
         scroll_and_collect_urls env config fuel) s0 = (Val [], s) ->
        run_body env config fuel s0 = after).
Proof.
  cbv zeta. split; [done|].
  pose proof (stable_download_and_merge_nil same_attempts env config) as Ha.
  pose proof (stable_download_and_merge_nil same_counters env config) as Hc.
  specialize (Ha ltac:(done) s). specialize (Hc ltac:(done) s).
  destruct Hc as [Hc Hf].
  split; [exact Ha|]. split; [exact Hc|]. split; [exact Hf|].
  destruct (download_and_merge_nil env config s) as (s1 & Heq & Ht & Hfiles & Hlog).
  split.
  { rewrite Heq. apply (merge_start_logged env config s1). }
  split.
  - intros Hq. rewrite Heq.
    assert (quiet env (tick s1)) as Hq1 by by rewrite Ht.
    destruct (merge_json_files_quiet env config s1 Hq1) as (s2 & Hrun & Hout & _ & _).
    cbv zeta in Hrun, Hout. rewrite Hfiles, Ht in *.
    pose proof (listed_candidates_perm (dir_order env (tick s)) (files s)) as Hperm.
    set (json_files := listed_candidates (dir_order env (tick s)) (files s)) in *.
    set (data := omap (load_entry env (files s)) json_files) in *.
    exists data. split; [by apply loaded_entries_perm|].
    unfold bind. rewrite Hrun.
    assert (merge_candidates (files s) = [] -> data = []) as Hempty.
    { intros Hnil. rewrite Hnil in Hperm. apply Permutation_nil_r in Hperm.
      subst data. by rewrite Hperm. }
    destruct (unencodable env data).
    + cbn. by split_and!.
    + pose proof (report_returns config [] (py_len data) s2) as Hret.
      pose proof (stable_report same_merged config [] (py_len data) s2) as Hm.
      destruct (report config [] _ s2) as [r s3]. cbn in Hret, Hm |- *.
      red in Hm. rewrite Hm, Hout. by split_and!.
  - intros fuel s0 Hpre. unfold run_body.
    unfold bind in Hpre |- *.
    destruct (logger INFO MsgStarting s0) as [[[]|?|] sa]; [|done..].
    destruct (setup_driver env sa) as [[[]|?|] sb]; [|done..].
    destruct (logger INFO (MsgPhase 1) sb) as [[[]|?|] sc]; [|done..].
    by rewrite Hpre.
Qed.

Lemma empty_collection_still_merges_witness :
  let collected := scroll_and_collect_urls Examples.empty_page CONFIG 5 (init ∅) in
  collected.1 = Val []
  /\ merged_out (download_and_merge Examples.empty_page CONFIG [] collected.2).2
     = Some (Dumped []).
Proof.
  cbv zeta. split; [reflexivity|].
  destruct (empty_collection_still_merges Examples.empty_page CONFIG
              (scroll_and_collect_urls Examples.empty_page CONFIG 5 (init ∅)).2)
    as (_ & _ & _ & _ & _ & Hquiet & _).
  destruct Hquiet as (data & _ & _ & Hout & Hempty).
  - intros k _. reflexivity.
  - rewrite Hout, Hempty by reflexivity. reflexivity.
Defined.

(** ** The attempts of a whole run *)

Section RunAttempts.

Variable env : Env.
Variable config : Config.

Lemma attempted_none s urls s' : same_attempts s s' -> attempted s urls s'.
Proof. intros H. exists 0%nat. cbn. by rewrite app_nil_r. Qed.

Lemma attempted_after s s1 urls s' :
  same_attempts s s1 -> attempted s1 urls s' -> attempted s urls s'.
Proof. intros H [k Hk]. exists k. by rewrite Hk, H. Qed.

Lemma attempted_before s s1 urls s' :
  attempted s urls s1 -> same_attempts s1 s' -> attempted s urls s'.
Proof. intros [k Hk] H. exists k. by rewrite H, Hk. Qed.

Lemma download_and_merge_attempts urls s :
  wp (download_and_merge env config urls)
     (fun _ s' => attempted s urls s') s.
Proof.
  unfold download_and_merge.
  apply (wp_bind_stable same_attempts); [stable_solve| |by intros; apply attempted_none..].
  intros _ s1 H1.
  apply (wp_bind_stable same_attempts); [stable_solve| |by intros; apply attempted_none; etrans..].
  intros _ s2 H2.
  assert (same_attempts s s2) as H12 by by etrans.
  apply wp_bind. unfold wp at 1.
  destruct (download_all_attempts env config urls 1 (py_len urls) s2)
    as (k & r & s3 & -> & _ & Ha & _).
  assert (attempted s urls s3) as H3.
  { apply (attempted_after s s2); [done|by exists k]. }
  cbn. destruct r as [[]|e|]; [|done..].
  apply (wp_bind_stable same_attempts);
    [stable_solve| |by intros; eapply attempted_before..].
  intros _ s4 H4.
  apply (wp_bind_stable same_attempts);
    [stable_solve| |by intros; eapply attempted_before; [|etrans]..].
  intros n s5 H5.
  apply (wp_stable same_attempts); [stable_solve|].
  intros r s6 H6. eapply attempted_before; [exact H3|]. etrans; [|exact H6]. by etrans.
Qed.

Lemma run_body_attempts fuel s :
  wp (run_body env config fuel)
     (fun _ s' => exists urls, NoDup urls /\ attempted s urls s') s.
Proof.
  assert (forall s', same_attempts s s' ->
            exists urls, NoDup urls /\ attempted s urls s') as Hnone.
  { intros s' H. exists []. split; [constructor|by apply attempted_none]. }
  unfold run_body.
  apply (wp_bind_stable same_attempts); [stable_solve| |by intros; apply Hnone..].
  intros _ s1 H1.
  apply (wp_bind_stable same_attempts);
    [stable_solve| |by intros; apply Hnone; etrans..].
  intros _ s2 H2.
  apply (wp_bind_stable same_attempts);
    [stable_solve| |by intros; apply Hnone; etrans; [|done]; etrans..].
  intros _ s3 H3.
  assert (same_attempts s s3) as H03 by (etrans; [|done]; by etrans).
  apply wp_bind. unfold wp at 1.
  pose proof (stable_scroll_and_collect_urls same_attempts env config
                ltac:(done) fuel s3) as H4.
  destruct (scroll_and_collect_urls env config fuel s3) as [r s4] eqn:Hrun.
  cbn in H4 |- *.
  assert (same_attempts s s4) as H04 by by etrans.
  destruct r as [urls|e|]; [|by apply Hnone..].
  apply scroll_returns_set in Hrun as [Hnd _].
  eapply wp_mono; [|apply download_and_merge_attempts].
  intros r s5 H5. exists urls. split; [done|].
  by apply (attempted_after s s4).
Qed.

Lemma run_attempts fuel s :
  exists urls,
    NoDup urls /\ attempted s urls (run env config fuel s).2.
Proof.
  unfold run, try_finally.
  assert (wp (try_except2 (run_body env config fuel)
                is_KeyboardInterrupt (fun _ => logger INFO MsgInterrupted)
                is_Exception (fun e => logger ERROR (MsgUnexpected e)))
            (fun _ s' => exists urls, NoDup urls /\ attempted s urls s') s) as Htry.
  { apply wp_try_except2. eapply wp_mono; [|apply run_body_attempts].
    intros [[]|e|] s1 (urls & Hnd & Ha); [by eauto| |by eauto].
    assert (forall lvl msg, is_attempt msg = false ->
              wp (logger lvl msg)
                 (fun _ s' => exists urls, NoDup urls /\ attempted s urls s') s1) as Hlog.
    { intros lvl msg Hm. unfold wp; cbn. exists urls. split; [done|].
      eapply attempted_before; [done|]. red. cbn.
      by rewrite attempts_app, attempts_other, app_nil_r. }
    destruct (is_KeyboardInterrupt e); [by apply Hlog|].
    destruct (is_Exception e); [by apply Hlog|by eauto]. }
  unfold wp in Htry.
  destruct (try_except2 _ _ _ _ _ s) as [rb s1]. cbn in Htry.
  destruct Htry as (urls & Hnd & Ha). exists urls. split; [done|].
  assert (same_attempts s1 (run_cleanup env s1).2) as Hc.
  { unfold run_cleanup, bind, get_state, driver_quit, modify, external, logger, ret.
    destruct (driver s1); cbn; [|done].
    destruct (fault env (tick s1)); cbn; [done|].
    red. cbn. by rewrite attempts_app, app_nil_r. }
  destruct rb as [[]|e|]; [| |done];
    destruct (run_cleanup env s1) as [[[]|e'|] s2]; cbn in Hc |- *;
    by eapply attempted_before.
Qed.

End RunAttempts.

(** ** A missing button and an exhausted poll *)

Lemma set_tick_set_tick n m s : set_tick n (set_tick m s) = set_tick n s.
Proof. done. Qed.

Lemma find_download_button_none env sels s :
  (forall k, (k < length sels)%nat -> fault env (tick s + k) = None) ->
  (forall j sel, sels !! j = Some sel -> locate env (tick s + j) sel = None) ->
  find_download_button env sels s
  = (Val None, set_tick (tick s + length sels) s).
Proof.
  revert s. induction sels as [|sel0 sels IH]; intros s Hok Hnone.
  { cbn. rewrite Nat.add_0_r. by destruct s. }
  cbn [find_download_button]. unfold try_except, bind, driver_find_element.
  rewrite external_ok by (specialize (Hok 0%nat); rewrite Nat.add_0_r in Hok;
                          apply Hok; cbn; lia).
  specialize (Hnone 0%nat sel0 eq_refl) as H0. rewrite Nat.add_0_r in H0.
  rewrite H0. cbn.
  rewrite IH.
  - rewrite set_tick_set_tick. do 2 f_equal. cbn. lia.
  - intros k Hk. cbn. replace (S (tick s + k)) with (tick s + S k)%nat by lia.
    apply Hok. cbn. lia.
  - intros j sel Hj. cbn. replace (S (tick s + j)) with (tick s + S j)%nat by lia.
    by apply Hnone.
Qed.

(** A selector that always finds something: the search returns a button,
    found by that selector or by one tried before it. *)
Lemma find_download_button_found env sels s sel :
  quiet env (tick s) ->
  sel ∈ sels ->
  (forall n, locate env n sel <> None) ->
  exists el k,
    find_download_button env sels s = (Val (Some el), set_tick (tick s + k) s).
Proof.
  revert s. induction sels as [|sel0 sels IH]; intros s Hq Hin Hloc.
  { by apply elem_of_nil in Hin. }
  cbn [find_download_button]. unfold try_except, bind, driver_find_element.
  rewrite external_ok by (apply Hq; lia).
  destruct (locate env (tick s) sel0) as [el|] eqn:Hat; cbn.
  - exists el, 1%nat. do 2 f_equal. lia.
  - apply elem_of_cons in Hin as [->|Hin]; [by destruct (Hloc (tick s))|].
    destruct (IH (set_tick (S (tick s)) s)) as (el & k & ->); [|done..|].
    + intros m Hm. apply Hq. cbn in Hm. lia.
    + exists el, (S k). rewrite set_tick_set_tick. do 2 f_equal. cbn. lia.
Qed.

(** The page shows no download button: nine calls, then the failure. *)
Lemma download_workflow_button_missing env config url index s :
  (forall k, (k < 9)%nat -> fault env (tick s + k) = None) ->
  (forall j sel, selectors !! j = Some sel ->
                 locate env (tick s + 3 + j) sel = None) ->
  exists s',
    download_workflow env config url index s = (Val false, s')
    /\ tick s' = (tick s + 9)%nat
    /\ failed_downloads s' = failed_downloads s ++ [url]
    /\ downloaded_count s' = downloaded_count s
    /\ log s' = log s
         ++ [(INFO, MsgProcessing index (py_len_set (workflow_urls s)) url);
             (WARNING, MsgButtonNotFound url)]
    /\ files s' = browser_writes env (tick s + 2) (files s).
Proof.
  intros Hok Hnone.
  assert (forall k, (k < 9)%nat -> fault env (k + tick s) = None) as Hok'.
  { intros k Hk. rewrite Nat.add_comm. by apply Hok. }
  unfold download_workflow, try_except2, download_steps.
  unfold bind at 1, get_state. unfold bind at 1, logger at 1, modify.
  unfold bind at 1, driver_get. rewrite external_ok by (apply (Hok' 0%nat); lia).
  cbn [ret tick set_tick set_log].
  unfold bind at 1, wait_for_body. rewrite external_ok by (apply (Hok' 1%nat); lia).
  cbn [ret tick set_tick set_log].
  unfold bind at 1, time_sleep. rewrite external_ok by (apply (Hok' 2%nat); lia).
  cbn [modify tick set_tick set_log set_files files].
  unfold bind at 1.
  rewrite find_download_button_none.
  2:{ intros k Hk. cbn in Hk |- *.
      replace (S (S (S (tick s + k)))) with (tick s + (3 + k))%nat by lia.
      apply Hok. lia. }
  2:{ intros j sel Hj. cbn.
      replace (S (S (S (tick s + j)))) with (tick s + 3 + j)%nat by lia.
      by apply Hnone. }
  cbn. eexists. split; [reflexivity|]. cbn.
  split_and!; try done.
  - lia.
  - by rewrite <- app_assoc.
  - do 2 f_equal. lia.
Qed.

(** No completed file ever appears: the poll runs out. *)
Lemma wait_for_download_exhausted env remaining url index
    (initial : gset string) s :
  quiet env (tick s) ->
  (forall f, f ∈ dom (files s) ∖ initial -> partial_marker f) ->
  (forall n dir,
     (forall f, f ∈ dom dir ∖ initial -> partial_marker f) ->
     forall f, f ∈ dom (browser_writes env n dir) ∖ initial -> partial_marker f) ->
  exists s',
    wait_for_download env remaining url index initial s = (Val false, s')
    /\ tick s' = (tick s + 2 * remaining)%nat
    /\ failed_downloads s' = failed_downloads s ++ [url]
    /\ downloaded_count s' = downloaded_count s
    /\ log s' = log s ++ [(WARNING, MsgDownloadTimeout url)].
Proof.
  intros Hq Hnow Hkeep. revert s Hq Hnow.
  induction remaining as [|n IH]; intros s Hq Hnow.
  { cbn. eexists. split; [reflexivity|]. cbn. split_and!; try done; lia. }
  rewrite wait_for_download_listed by by apply Hq.
  rewrite (completed_files_all_partial _ _ Hnow). unfold bind at 1, time_sleep.
  rewrite external_ok by (apply Hq; cbn; lia).
  cbn [modify tick set_tick files set_files].
  set (s1 := set_files _ _).
  destruct (IH s1) as (s' & Hrun & Ht & Hf & Hc & Hl).
  - intros k Hk. apply Hq. cbn in Hk. lia.
  - subst s1. cbn. by apply Hkeep.
  - exists s'. split; [exact Hrun|]. cbn in *. split_and!; try done; lia.
Qed.

(** The button is there, but clicking it never gives a completed file. *)
Lemma download_workflow_poll_exhausted env config url index s sel :
  quiet env (tick s) ->
  sel ∈ selectors ->
  (forall n, locate env n sel <> None) ->
  (forall n dir f,
     f ∈ dom (browser_writes env n dir) -> f ∈ dom dir \/ partial_marker f) ->
  exists s',
    download_workflow env config url index s = (Val false, s')
    /\ failed_downloads s' = failed_downloads s ++ [url]
    /\ downloaded_count s' = downloaded_count s
    /\ log s' = log s
         ++ [(INFO, MsgProcessing index (py_len_set (workflow_urls s)) url);
             (WARNING, MsgDownloadTimeout url)].
Proof.
  intros Hq Hsel Hloc Hbrowser.
  unfold download_workflow, try_except2, download_steps.
  unfold bind at 1, get_state. unfold bind at 1, logger at 1, modify.
  unfold bind at 1, driver_get. rewrite external_ok by (apply Hq; cbn; lia).
  cbn [ret tick set_tick set_log].
  unfold bind at 1, wait_for_body. rewrite external_ok by (apply Hq; cbn; lia).
  cbn [ret tick set_tick set_log].
  unfold bind at 1, time_sleep at 1. rewrite external_ok by (apply Hq; cbn; lia).
  cbn [modify tick set_tick set_log set_files files].
  unfold bind at 1.
  match goal with
  | |- context [find_download_button env selectors ?s3] =>
      destruct (find_download_button_found env selectors s3 sel)
        as (el & k & ->); [intros m Hm; apply Hq; cbn in Hm; lia|done..|]
  end.
  cbn [tick set_files set_tick].
  unfold bind at 1, os_listdir. rewrite external_ok by (apply Hq; cbn; lia).
  unfold bind at 1, get_state, ret. cbn [tick set_files set_tick files].
  unfold bind at 1, element_click. rewrite external_ok by (apply Hq; cbn; lia).
  cbn [modify tick set_files set_tick files].
  unfold bind at 1, time_sleep at 1. rewrite external_ok by (apply Hq; cbn; lia).
  cbn [modify tick set_files set_tick files].
  match goal with
  | |- context [wait_for_download env max_wait url index ?initial ?s7] =>
      destruct (wait_for_download_exhausted env max_wait url index initial s7)
        as (s' & -> & _ & Hf & Hc & Hl)
  end.
  - intros m Hm. apply Hq. cbn in Hm. lia.
  - cbn [files set_files set_tick]. intros f [Hin Hout]%elem_of_difference.
    apply Hbrowser in Hin as [Hin|Hp]; [|done].
    apply Hbrowser in Hin as [Hin|Hp]; [|done]. done.
  - intros n dir Hdir f [Hin Hout]%elem_of_difference.
    apply Hbrowser in Hin as [Hin|Hp]; [|done].
    apply Hdir. by apply elem_of_difference.
  - cbn. eexists. split; [reflexivity|]. cbn in Hf, Hc, Hl.
    split_and!; [done|done|]. rewrite Hl. cbn. by rewrite <- app_assoc.
Qed.

(** ** C9 and C6: outcomes of the per-URL download *)

(** C9, as stated, fails: a call interrupted by the user (the first external
    call raises KeyboardInterrupt) ends with neither outcome; nothing is
    counted and nothing is recorded. *)
Lemma download_interrupted_has_no_outcome :
  let s := init ∅ in
  let run1 := download_workflow Examples.interrupted CONFIG Examples.cat_url 1 s in
  run1.1 = Raise KeyboardInterrupt
  /\ downloaded_count run1.2 = downloaded_count s
  /\ failed_downloads run1.2 = failed_downloads s
  /\ ~ exactly_one_outcome Examples.cat_url s run1.1 run1.2.
Proof.
  cbv zeta. split_and!; [reflexivity..|].
  intros [[H _]|[H _]]; vm_compute in H; discriminate.
Qed.

(** C9, amended.  Every call of [download_workflow] that returns has exactly
    one of the two outcomes: it returns True with the downloaded count up by
    one and the failure list unchanged, or it returns False with the URL
    appended once to the failure list and the count unchanged.  The only
    calls that do not return are those in which an external call raised an
    exception that is not an [Exception] (KeyboardInterrupt, SystemExit); it
    passes through with both counters unchanged. *)
Theorem download_workflow_one_outcome env config url index s :
  let r := (download_workflow env config url index s).1 in
  let s' := (download_workflow env config url index s).2 in
  exactly_one_outcome url s r s'
  \/ (exists e, r = Raise e
                /\ is_Exception e = false
                /\ (exists n, fault env n = Some e)
                /\ same_counters s s').
Proof.
  cbv zeta.
  destruct (download_workflow_cases env config url index s)
    as (r & s' & -> & Ho & _ & Hf).
  cbn. destruct r as [[]|e|]; cbn in Ho.
  - left. left. tauto.
  - left. right. tauto.
  - right. exists e. destruct Ho as [He Hc]. eauto.
  - done.
Qed.

(** C6.  Whatever goes wrong while one URL is processed, [download_workflow]
    contains it: an [Exception] raised in its [try] body (page-load timeout or
    any other) makes it return False with the URL appended to the failure list
    and a WARNING/ERROR line about it last in the log; nothing that is an
    [Exception] ever comes out of the call.  So do a page on which no
    selector finds a download button, with the button-not-found warning, and
    a button whose click never brings a completed file into the folder, with
    the download-timeout warning after the poll has run out.  The loop of [run] therefore goes through the
    URLs in order, attempting each (index, url) exactly once, never a second
    time, and stops early only on an exception that is not an [Exception];
    the attempts of a whole run are a prefix of the enumeration of a
    duplicate-free list of URLs. *)
Theorem per_item_errors_are_contained env config :
  (forall url index s e s1,
     (s0 <- get_state ;;
      logger INFO (MsgProcessing index (py_len_set (workflow_urls s0)) url) ;;;
      download_steps env config url index) s = (Raise e, s1) ->
     is_Exception e = true ->
     exists s',
       download_workflow env config url index s = (Val false, s')
       /\ failed_downloads s' = failed_downloads s ++ [url]
       /\ downloaded_count s' = downloaded_count s
       /\ failure_logged url s')
  /\ (forall url index s,
        match download_workflow env config url index s with
        | (Val true, s') => failed_downloads s' = failed_downloads s
        | (Val false, s') =>
            failed_downloads s' = failed_downloads s ++ [url]
            /\ failure_logged url s'
        | (Raise e, s') =>
            is_Exception e = false /\ failed_downloads s' = failed_downloads s
        | (OutOfFuel, _) => False
        end)
  /\ (forall url index s,
        (forall k, (k < 9)%nat -> fault env (tick s + k) = None) ->
        (forall j sel, selectors !! j = Some sel ->
                       locate env (tick s + 3 + j) sel = None) ->
        exists s',
          download_workflow env config url index s = (Val false, s')
          /\ failed_downloads s' = failed_downloads s ++ [url]
          /\ downloaded_count s' = downloaded_count s
          /\ last (log s') = Some (WARNING, MsgButtonNotFound url))
  /\ (forall url index s sel,
        quiet env (tick s) ->
        sel ∈ selectors ->
        (forall n, locate env n sel <> None) ->
        (forall n dir f,
           f ∈ dom (browser_writes env n dir) ->
           f ∈ dom dir \/ partial_marker f) ->
        exists s',
          download_workflow env config url index s = (Val false, s')
          /\ failed_downloads s' = failed_downloads s ++ [url]
          /\ downloaded_count s' = downloaded_count s
          /\ last (log s') = Some (WARNING, MsgDownloadTimeout url))
  /\ (forall urls idx total_urls s,
        exists k,
          (k <= length urls)%nat
          /\ attempts (log (download_all env config urls idx total_urls s).2)
             = attempts (log s) ++ take k (enumerate urls idx)
          /\ match (download_all env config urls idx total_urls s).1 with
             | Val _ => k = length urls
             | Raise e => is_Exception e = false
             | OutOfFuel => False
             end)
  /\ (forall fuel s,
        exists urls k,
          NoDup urls
          /\ attempts (log (run env config fuel s).2)
             = attempts (log s) ++ take k (enumerate urls 1)).
Proof.
  split_and!.
  - intros url index s e s1 Hbody He.
    pose proof (download_workflow_outcome env config url index s) as Ho.
    unfold wp in Ho. unfold download_workflow, try_except2 in *.
    rewrite Hbody in *.
    destruct (is_TimeoutException e); [|rewrite He in *];
      cbn in Ho |- *; eexists; (split; [reflexivity|]); tauto.
  - intros url index s.
    pose proof (download_workflow_outcome env config url index s) as Ho.
    unfold wp in Ho.
    destruct (download_workflow env config url index s) as [[[]|e|] s'];
      cbn in Ho; [tauto|tauto| |done].
    destruct Ho as [? []]. done.
  - intros url index s Hok Hnone.
    destruct (download_workflow_button_missing env config url index s Hok Hnone)
      as (s' & Hrun & _ & Hf & Hc & Hl & _).
    exists s'. split_and!; [done..|].
    by rewrite Hl, last_app.
  - intros url index s sel Hq Hsel Hloc Hbrowser.
    destruct (download_workflow_poll_exhausted env config url index s sel
                Hq Hsel Hloc Hbrowser) as (s' & Hrun & Hf & Hc & Hl).
    exists s'. split_and!; [done..|].
    by rewrite Hl, last_app.
  - intros urls idx total_urls s.
    destruct (download_all_attempts env config urls idx total_urls s)
      as (k & r & s' & -> & Hk & Ha & Hr).
    exists k. split_and!; [done..|]. destruct r; tauto.
  - intros fuel s. destruct (run_attempts env config fuel s) as (urls & Hnd & k & Hk).
    by exists urls, k.
Qed.

Lemma per_item_errors_are_contained_witness :
  exists s',
    download_workflow Examples.slow_page CONFIG Examples.cat_url 1 (init ∅)
    = (Val false, s')
    /\ failed_downloads s' = [Examples.cat_url].
Proof.
  destruct (per_item_errors_are_contained Examples.slow_page CONFIG) as [Hcaught _].
  destruct (Hcaught Examples.cat_url 1 (init ∅) TimeoutException
              ((s0 <- get_state ;;
                logger INFO (MsgProcessing 1 (py_len_set (workflow_urls s0))
                               Examples.cat_url) ;;;
                download_steps Examples.slow_page CONFIG Examples.cat_url 1)
                 (init ∅)).2 eq_refl eq_refl)
    as (s' & Hrun & Hfailed & _).
  exists s'. split; [exact Hrun|exact Hfailed].
Defined.

(** * Further properties of the script *)

(** ** Locating the download button *)

Lemma find_download_button_head env sel sels s el :
  fault env (tick s) = None ->
  locate env (tick s) sel = Some el ->
  find_download_button env (sel :: sels) s
  = (Val (Some el), set_tick (tick s + 1) s).
Proof.
  intros Hok Hat.
  cbn [find_download_button]. unfold try_except, bind, driver_find_element.
  rewrite external_ok by done. rewrite Hat. cbn. do 2 f_equal. lia.
Qed.

(** X1.  The selectors are tried in order and the first match wins: when the
    calls go through, the selectors before position [i] find nothing and the
    one at [i] finds [el], the search returns [el] after exactly [i + 1]
    calls; the selectors after it are not tried. *)
Theorem find_download_button_first_match env sels s i sel el :
  (forall k, (k <= i)%nat -> fault env (tick s + k) = None) ->
  sels !! i = Some sel ->
  (forall j sel', (j < i)%nat -> sels !! j = Some sel' ->
                  locate env (tick s + j) sel' = None) ->
  locate env (tick s + i) sel = Some el ->
  find_download_button env sels s
  = (Val (Some el), set_tick (tick s + S i) s).
Proof.
  revert s i. induction sels as [|sel0 sels IH]; intros s i Hok Hi Hbefore Hat;
    [done|].
  cbn [find_download_button]. unfold try_except, bind, driver_find_element.
  rewrite external_ok by (specialize (Hok 0%nat); rewrite Nat.add_0_r in Hok;
                          apply Hok; lia).
  destruct i as [|i].
  - cbn in Hi. injection Hi as ->. rewrite Nat.add_0_r in Hat. rewrite Hat.
    cbn. do 2 f_equal. lia.
  - specialize (Hbefore 0%nat sel0 ltac:(lia) eq_refl) as H0.
    rewrite Nat.add_0_r in H0. rewrite H0. cbn.
    rewrite (IH _ i).
    + rewrite set_tick_set_tick. do 2 f_equal. cbn. lia.
    + intros k Hk. cbn. replace (S (tick s + k)) with (tick s + S k)%nat by lia.
      apply Hok. lia.
    + exact Hi.
    + intros j sel' Hj Hsel. cbn.
      replace (S (tick s + j)) with (tick s + S j)%nat by lia.
      apply Hbefore; [lia|done].
    + cbn. by replace (S (tick s + i)) with (tick s + S i)%nat by lia.
Qed.

Lemma find_download_button_first_match_witness :
  find_download_button MoreExamples.second_selector selectors (init ∅)
  = (Val (Some (Element 7)), set_tick 2 (init ∅)).
Proof.
  apply (find_download_button_first_match MoreExamples.second_selector selectors
           (init ∅) 1 "//button[contains(text(), 'download')]" (Element 7)).
  - intros k _. reflexivity.
  - reflexivity.
  - intros j sel' Hj Hsel. destruct j as [|j]; [|lia].
    cbn in Hsel. injection Hsel as <-. reflexivity.
  - reflexivity.
Defined.

(** X2.  A page on which no selector finds anything: when the calls go
    through, [download_workflow] returns False after exactly nine calls (page
    load, wait, pause, six selectors), records the URL once and logs the
    missing button; it never lists the folder, clicks or counts a download. *)
Theorem download_without_button env config url index s :
  quiet env (tick s) ->
  (forall n sel, locate env n sel = None) ->
  exists s',
    download_workflow env config url index s = (Val false, s')
    /\ tick s' = (tick s + 9)%nat
    /\ failed_downloads s' = failed_downloads s ++ [url]
    /\ downloaded_count s' = downloaded_count s
    /\ log s' = log s
         ++ [(INFO, MsgProcessing index (py_len_set (workflow_urls s)) url);
             (WARNING, MsgButtonNotFound url)]
    /\ files s' = browser_writes env (tick s + 2) (files s).
Proof.
  intros Hq Hnone.
  apply download_workflow_button_missing.
  - intros k _. apply Hq. lia.
  - intros j sel _. apply Hnone.
Qed.

Lemma download_without_button_witness :
  exists s',
    download_workflow Examples.empty_page CONFIG Examples.cat_url 1 (init ∅)
    = (Val false, s')
    /\ tick s' = 9%nat.
Proof.
  destruct (download_without_button Examples.empty_page CONFIG Examples.cat_url 1
              (init ∅)) as (s' & Hrun & Htick & _).
  - intros k _. reflexivity.
  - intros n sel. reflexivity.
  - exists s'. split; [exact Hrun|exact Htick].
Defined.

(** ** The poll loop *)

(** X3.  A download that never completes: when the calls go through and
    neither the folder nor anything the browser writes during the pauses
    shows a new file that is not a partial-download marker, the poll lists
    the folder [remaining] times, pausing after each, then gives up: it
    returns False, records the URL once, logs the timeout and leaves the
    downloaded count alone. *)
Theorem wait_for_download_gives_up env remaining url index
    (initial : gset string) s :
  quiet env (tick s) ->
  (forall f, f ∈ dom (files s) ∖ initial -> partial_marker f) ->
  (forall n dir,
     (forall f, f ∈ dom dir ∖ initial -> partial_marker f) ->
     forall f, f ∈ dom (browser_writes env n dir) ∖ initial -> partial_marker f) ->
  exists s',
    wait_for_download env remaining url index initial s = (Val false, s')
    /\ tick s' = (tick s + 2 * remaining)%nat
    /\ failed_downloads s' = failed_downloads s ++ [url]
    /\ downloaded_count s' = downloaded_count s
    /\ log s' = log s ++ [(WARNING, MsgDownloadTimeout url)].
Proof.
  intros Hq Hnow Hkeep.
  destruct (wait_for_download_exhausted env remaining url index initial s
              Hq Hnow Hkeep) as (s' & Hrun & Ht & Hf & Hc & Hl).
  exists s'. by split_and!.
Qed.

Lemma wait_for_download_gives_up_witness :
  exists s',
    wait_for_download Examples.still_page max_wait Examples.cat_url 1 ∅ (init ∅)
    = (Val false, s')
    /\ tick s' = 60%nat.
Proof.
  destruct (wait_for_download_gives_up Examples.still_page max_wait
              Examples.cat_url 1 ∅ (init ∅)) as (s' & Hrun & Ht & _).
  - intros k _. reflexivity.
  - intros f Hf. cbn in Hf. rewrite dom_empty_L in Hf. set_unfold. tauto.
  - intros n dir H. exact H.
  - exists s'. split; [exact Hrun|exact Ht].
Defined.

(** ** Saving a download *)

Lemma rename_download_free env completed index s dest s' :
  workflow_name index ∉ dom (files s) ->
  rename_download env completed index s = (Val dest, s') ->
  dest = workflow_name index
  /\ os_rename env completed dest (set_tick (S (tick s)) s) = (Val tt, s').
Proof.
  intros Hfree. unfold rename_download, path_exists.
  unfold bind at 1. unfold external at 1.
  destruct (fault env (tick s)); [done|].
  unfold bind at 1, get_state, ret. cbn [files set_tick].
  rewrite bool_decide_eq_false_2 by done.
  unfold bind at 1. unfold bind at 1. cbn [ret].
  destruct (os_rename env completed _ _) as [[[]|e|] s2] eqn:E; [|done..].
  intros [= <- <-]. split; [done|]. exact E.
Qed.

(** X4.  Without a collision the rename step asks no clock: a rename that
    succeeds moves the download to [workflow_<index>.json] in two calls,
    its text unchanged, removes it under its old name and leaves every other
    file of the folder as it was. *)
Theorem rename_without_collision env completed index s dest s' :
  workflow_name index ∉ dom (files s) ->
  rename_download env completed index s = (Val dest, s') ->
  dest = workflow_name index
  /\ tick s' = (tick s + 2)%nat
  /\ is_Some (files s !! completed)
  /\ files s' !! dest = files s !! completed
  /\ (completed <> dest -> files s' !! completed = None)
  /\ (forall name, name <> completed -> name <> dest ->
                   files s' !! name = files s !! name).
Proof.
  intros Hfree Hrun.
  destruct (rename_download_free _ _ _ _ _ _ Hfree Hrun) as [-> Hren].
  pose proof (os_rename_files _ _ _ _ _ Hren) as (Hnew & Hold & Hgone & Hother).
  cbn in *. split_and!; try done.
  unfold os_rename, external in Hren. cbn in Hren.
  destruct (fault env (S (tick s))); [done|].
  unfold bind, get_state, raise, ret, modify in Hren. cbn in Hren.
  destruct (files s !! completed); [|done].
  case_bool_decide; [injection Hren as <-; cbn; lia|].
  destruct (os_platform env), (files s !! workflow_name index);
    try done; injection Hren as <-; cbn; lia.
Qed.

Lemma rename_without_collision_witness :
  let s := init MoreExamples.fresh_download in
  let renamed := rename_download Examples.still_page "download.json" 1 s in
  renamed.1 = Val "workflow_1.json"
  /\ files renamed.2 !! "workflow_1.json" = Some "third"
  /\ files renamed.2 !! "download.json" = None.
Proof.
  cbv zeta.
  assert (workflow_name 1 ∉ dom (files (init MoreExamples.fresh_download))) as Hfree.
  { apply not_elem_of_dom. reflexivity. }
  destruct (rename_without_collision Examples.still_page "download.json" 1
              (init MoreExamples.fresh_download) "workflow_1.json"
              (rename_download Examples.still_page "download.json" 1
                 (init MoreExamples.fresh_download)).2 Hfree eq_refl)
    as (_ & _ & _ & Hnew & Hgone & _).
  split; [reflexivity|]. split; [exact Hnew|]. apply Hgone. discriminate.
Defined.

(** ** File names *)

Lemma string_app_cons (c : ascii) (a b : string) :
  String c a +:+ b = String c (a +:+ b).
Proof. done. Qed.

Lemma string_length_app (a b : string) :
  String.length (a +:+ b) = (String.length a + String.length b)%nat.
Proof.
  induction a as [|c a IH]; [done|].
  rewrite string_app_cons. cbn [String.length]. by rewrite IH.
Qed.

Lemma string_app_assoc (a b c : string) : (a +:+ b) +:+ c = a +:+ (b +:+ c).
Proof.
  induction a as [|x a IH]; [done|]. by rewrite !string_app_cons, IH.
Qed.

Lemma string_app_inj_r (a b c : string) : a +:+ c = b +:+ c -> a = b.
Proof.
  revert b. induction a as [|x a IH]; intros [|y b] H; [done| | |].
  - apply (f_equal String.length) in H.
    rewrite !string_length_app in H. cbn in H. lia.
  - apply (f_equal String.length) in H.
    rewrite !string_length_app in H. cbn in H. lia.
  - rewrite !string_app_cons in H. injection H as -> H. f_equal. by apply IH.
Qed.

Lemma workflow_name_is_workflow_file index : workflow_file (workflow_name index).
Proof. by exists (PyStr.str_int index). Qed.

Lemma workflow_name_stamped_is_workflow_file index now :
  workflow_file (workflow_name_stamped index now).
Proof.
  exists (PyStr.str_int index +:+ "_" +:+ PyStr.str_int now).
  unfold workflow_name_stamped. by rewrite !string_app_assoc.
Qed.

(** X5.  Two different indices never give the same file name
    [workflow_<index>.json], so two downloads of one run are not saved under
    the same plain name. *)
Theorem workflow_name_inj (i j : Z) : i <> j -> workflow_name i <> workflow_name j.
Proof.
  unfold workflow_name. intros Hne H. apply Hne.
  apply (string_app_inj_l "workflow_") in H.
  apply string_app_inj_r in H.
  by apply (inj pretty) in H.
Qed.

Lemma workflow_name_inj_witness : workflow_name 1 <> workflow_name 11.
Proof. apply workflow_name_inj. lia. Defined.

Lemma save_download_result env completed index s r s' :
  save_download env completed index s = (Val r, s') ->
  r = true
  /\ downloaded_count s' = (downloaded_count s + 1)%Z
  /\ failed_downloads s' = failed_downloads s
  /\ exists dest,
      workflow_file dest
      /\ (workflow_name index ∉ dom (files s) -> dest = workflow_name index)
      /\ is_Some (files s' !! dest)
      /\ files s' !! dest = files s !! completed
      /\ dest ∈ merge_candidates (files s')
      /\ last (log s') = Some (INFO, MsgSavedAs dest).
Proof.
  unfold save_download. unfold bind at 1.
  destruct (rename_download env completed index s) as [[dest|e|] s1] eqn:Hren;
    [|done..].
  unfold bind, logger, modify, ret. cbn. intros [= <- <-]. cbn.
  assert (downloaded_count s1 = downloaded_count s
          /\ failed_downloads s1 = failed_downloads s) as [Hc Hf].
  { pose proof (stable_rename_download same_counters env completed index s) as H.
    rewrite Hren in H. apply H. }
  split; [done|]. split; [by rewrite Hc|]. split; [done|].
  exists dest.
  assert (workflow_file dest /\ files s1 !! dest = files s !! completed
          /\ is_Some (files s !! completed)
          /\ (workflow_name index ∉ dom (files s) -> dest = workflow_name index))
    as (Hw & Hnew & Hold & Hplain).
  { destruct (decide (workflow_name index ∈ dom (files s))) as [Hin|Hfree].
    - destruct (rename_download_taken _ _ _ _ _ _ Hin Hren) as [-> Hos].
      apply os_rename_files in Hos as (? & ? & _). cbn in *.
      split; [apply workflow_name_stamped_is_workflow_file|done].
    - destruct (rename_download_free _ _ _ _ _ _ Hfree Hren) as [-> Hos].
      apply os_rename_files in Hos as (? & ? & _). cbn in *.
      split; [apply workflow_name_is_workflow_file|done]. }
  split; [done|]. split; [done|]. split; [by rewrite Hnew|]. split; [done|]. split.
  - apply merge_candidates_spec. split; [|done].
    apply elem_of_dom. by rewrite Hnew.
  - by rewrite last_snoc.
Qed.


(** X6.  What the downloader saves, the merger finds: a [save_download]
    that returns has returned True, counted one download, and left the
    downloaded text in the folder under a name of the form
    [workflow_*.json], which is among the candidates of a merge of that
    folder. *)
Theorem saved_download_is_merge_candidate env completed index s r s' :
  save_download env completed index s = (Val r, s') ->
  r = true
  /\ downloaded_count s' = (downloaded_count s + 1)%Z
  /\ exists dest,
      workflow_file dest
      /\ is_Some (files s' !! dest)
      /\ files s' !! dest = files s !! completed
      /\ dest ∈ merge_candidates (files s')
      /\ last (log s') = Some (INFO, MsgSavedAs dest).
Proof.
  intros Hrun.
  destruct (save_download_result _ _ _ _ _ _ Hrun)
    as (-> & Hc & _ & dest & Hw & _ & Hsome & Hnew & Hcand & Hlast).
  split; [done|]. split; [done|]. by exists dest.
Qed.

Lemma saved_download_is_merge_candidate_witness :
  "workflow_1.json"
  ∈ merge_candidates
      (files (save_download Examples.still_page "download.json" 1
                (init MoreExamples.fresh_download)).2).
Proof.
  destruct (saved_download_is_merge_candidate Examples.still_page "download.json" 1
              (init MoreExamples.fresh_download) true
              (save_download Examples.still_page "download.json" 1
                 (init MoreExamples.fresh_download)).2 eq_refl)
    as (_ & _ & dest & _ & _ & _ & Hcand & Hlast).
  vm_compute in Hlast. injection Hlast as <-. exact Hcand.
Defined.
(** ** The merger in any environment *)

Lemma load_entry_filename env dir name r :
  load_entry env dir name = Some r -> filename r = name.
Proof. intros (? & ? & _ & _ & ->)%load_entry_Some. done. Qed.

Lemma merged_from_nil env dir n : merged_from env dir n [] [].
Proof. split_and!; [done|constructor|]. by intros i name r. Qed.

Lemma merged_from_skip env dir n name names extra :
  fault env n <> None \/ load_entry env dir name = None ->
  merged_from env dir (S n) names extra ->
  merged_from env dir n (name :: names) extra.
Proof.
  intros Hskip (Hsub & Hall & Hin). split_and!; [by apply sublist_cons|done|].
  intros [|i] name' r Hname Hok Hr; cbn in Hname.
  - injection Hname as <-. rewrite Nat.add_0_r in Hok.
    destruct Hskip; congruence.
  - apply (Hin i name'); [done| |done].
    by replace (S n + i)%nat with (n + S i)%nat by lia.
Qed.

Lemma merged_from_cons env dir n name names r extra :
  load_entry env dir name = Some r ->
  merged_from env dir (S n) names extra ->
  merged_from env dir n (name :: names) (r :: extra).
Proof.
  intros Hr (Hsub & Hall & Hin).
  pose proof (load_entry_filename _ _ _ _ Hr) as Hname.
  split_and!.
  - cbn. rewrite Hname. by apply sublist_skip.
  - constructor; [by rewrite Hname|done].
  - intros [|i] name' r' Hname' Hok Hr'; cbn in Hname'.
    + injection Hname' as <-. assert (r' = r) as -> by congruence. left.
    + right. apply (Hin i name'); [done| |done].
      by replace (S n + i)%nat with (n + S i)%nat by lia.
Qed.

Lemma merge_loop_any env (l : list string) acc s :
  exists r s',
    merge_loop env l acc s = (r, s')
    /\ files s' = files s
    /\ merged_out s' = merged_out s
    /\ match r with
       | Val acc' =>
           exists extra, acc' = acc ++ extra
                         /\ merged_from env (files s) (tick s) l extra
       | Raise e => is_Exception e = false
       | OutOfFuel => False
       end.
Proof.
  revert acc s. induction l as [|name l IH]; intros acc s.
  { exists (Val acc), s. split_and!; try done. exists []. rewrite app_nil_r.
    split; [done|apply merged_from_nil]. }
  cbn [merge_loop]. unfold bind at 1, try_except, open_and_load.
  unfold bind at 1. unfold external.
  destruct (fault env (tick s)) as [e|] eqn:Hfault.
  - destruct (is_Exception e) eqn:He.
    2:{ eexists _, _. split; [reflexivity|]. by split_and!. }
    unfold bind at 1, logger, modify, ret.
    set (s1 := set_log _ _).
    destruct (IH acc s1) as (r & s' & -> & Hf & Hm & Hr).
    exists r, s'. split_and!; try done.
    destruct r as [acc'|e'|]; [|done..].
    destruct Hr as (extra & -> & Hfrom). exists extra. split; [done|].
    apply merged_from_skip; [left; congruence|done].
  - unfold bind at 1, get_state. cbn [files set_tick].
    destruct (load_entry env (files s) name) as [r0|] eqn:Hload.
    + pose proof Hload as (text & v & Htext & Hv & ->)%load_entry_Some.
      rewrite Htext, Hv. unfold ret at 1 2.
      set (s1 := set_tick _ _).
      destruct (IH (acc ++ [mkRecord name v]) s1) as (r & s' & -> & Hf & Hm & Hr).
      exists r, s'. split_and!; try done.
      destruct r as [acc'|e'|]; [|done..].
      destruct Hr as (extra & -> & Hfrom).
      exists (mkRecord name v :: extra). split; [by rewrite <- app_assoc|].
      by apply merged_from_cons.
    + assert (exists e,
                is_Exception e = true
                /\ match files s !! name with
                   | Some text =>
                       match json_load env text with
                       | Some data => ret data
                       | None => raise ValueError
                       end
                   | None => raise OSError
                   end (set_tick (S (tick s)) s)
                   = (Raise e, set_tick (S (tick s)) s)) as (e & He & ->).
      { unfold load_entry in Hload.
        destruct (files s !! name) as [text|]; [|by exists OSError].
        destruct (json_load env text); [done|by exists ValueError]. }
      rewrite He. unfold bind at 1, logger, modify, ret.
      set (s1 := set_log _ _).
      destruct (IH acc s1) as (r & s' & -> & Hf & Hm & Hr).
      exists r, s'. split_and!; try done.
      destruct r as [acc'|e'|]; [|done..].
      destruct Hr as (extra & -> & Hfrom). exists extra. split; [done|].
      apply merged_from_skip; [by right|done].
Qed.

(** X8.  The per-file loop of the merger reads every file once, in order,
    one call each, and never fails on a file: whatever the environment, the
    list it returns is the one it was given followed by the entries of the
    files, in their order and at most one for each, every entry the parse of
    the file it names; a file whose read goes through and parses always has
    its entry, so an [Exception] while opening or parsing a file costs that
    file's entry only, and no [Exception] leaves the loop. *)
Theorem merge_loop_contains_read_errors env (l : list string) acc s :
  match merge_loop env l acc s with
  | (Val acc', s') =>
      exists extra,
        acc' = acc ++ extra
        /\ sublist (filename <$> extra) l
        /\ Forall (fun r => load_entry env (files s) (filename r) = Some r) extra
        /\ (forall i name r,
              l !! i = Some name ->
              fault env (tick s + i) = None ->
              load_entry env (files s) name = Some r ->
              r ∈ extra)
  | (Raise e, _) => is_Exception e = false
  | (OutOfFuel, _) => False
  end.
Proof.
  destruct (merge_loop_any env l acc s) as (r & s' & -> & _ & _ & H).
  destruct r as [acc'|e|]; [|done..].
  destruct H as (extra & -> & Hsub & Hall & Hin). by exists extra.
Qed.

(** X7.  Whatever the environment, a merge that returns has dumped a list
    and returns its length, which is at most the number of files of the form
    [workflow_*.json] in the folder; every entry of the list is the parse of
    one of those files.  A merge that raises has either not opened the
    merged file or left it truncated: it holds no list dumped by this
    merge. *)
Theorem merge_returns_what_it_dumped env config s :
  match merge_json_files env config s with
  | (Val n, s') =>
      exists data,
        merged_out s' = Some (Dumped data)
        /\ n = py_len data
        /\ (n <= py_len (merge_candidates (files s)))%Z
        /\ Forall (fun r => filename r ∈ merge_candidates (files s)
                            /\ load_entry env (files s) (filename r) = Some r) data
  | (Raise e, s') =>
      merged_out s' = merged_out s \/ merged_out s' = Some Unfinished
  | (OutOfFuel, _) => False
  end.
Proof.
  assert (wp (merge_json_files env config)
            (fun r s' =>
               match r with
               | Val n =>
                   exists data,
                     merged_out s' = Some (Dumped data)
                     /\ n = py_len data
                     /\ (n <= py_len (merge_candidates (files s)))%Z
                     /\ Forall (fun r => filename r ∈ merge_candidates (files s)
                                 /\ load_entry env (files s) (filename r) = Some r) data
               | Raise e =>
                   merged_out s' = merged_out s \/ merged_out s' = Some Unfinished
               | OutOfFuel => False
               end) s) as Hwp; [|unfold wp in Hwp;
    by destruct (merge_json_files env config s) as [[n|e|] s']].
  unfold merge_json_files.
  apply wp_bind, wp_logger, wp_bind. unfold folder_glob.
  apply wp_external; [by left|]. intros _.
  apply wp_bind, wp_get_state, wp_ret. cbn [files set_tick set_log tick].
  pose proof (listed_candidates_perm (dir_order env (tick s)) (files s)) as Hperm.
  fold (listed_candidates (dir_order env (tick s)) (files s)).
  set (json_files := listed_candidates _ _) in *.
  apply wp_bind, wp_logger, wp_bind. unfold wp at 1.
  match goal with
  | |- context [merge_loop env json_files [] ?s1] =>
      destruct (merge_loop_any env json_files [] s1) as (r & s2 & -> & Hf & Hm & Hr)
  end.
  cbn in Hf, Hm |- *.
  destruct r as [data|e|]; [|by left|done].
  destruct Hr as (extra & -> & Hsub & Hall & _). cbn [app] in *.
  apply wp_bind. unfold open_and_dump.
  apply wp_bind. unfold open_for_writing.
  apply wp_external; [by left|]. intros _. apply wp_modify.
  unfold json_dump. apply wp_external; [by right|]. intros _.
  destruct (unencodable env extra); [apply wp_raise; by right|].
  apply wp_modify, wp_bind, wp_logger, wp_ret. cbn.
  exists extra. split_and!; try done.
  - unfold py_len. apply sublist_length in Hsub.
    rewrite length_fmap, Hperm in Hsub. lia.
  - apply Forall_forall. intros r Hr. split.
    + rewrite <- Hperm. apply (sublist_subseteq _ _ Hsub).
      apply list_elem_of_fmap. by exists r.
    + by apply (proj1 (Forall_forall _ _) Hall).
Qed.

(** ** The URL collector *)

Lemma qualifies_link_ok config u (seen : gset string) :
  qualifies config (Some u) seen
  = link_ok config u && negb (bool_decide (u ∈ seen)).
Proof.
  unfold qualifies, link_ok.
  destruct (negb (u =? "")%string), (PyStr.contains "/workflows/" u),
    (negb (bool_decide (u ∈ seen))),
    (negb (u =? base_url config)%string), (negb (PyStr.endswith u "/workflows/all"));
    done.
Qed.

(** What one anchor does to the state: its [get_attribute] call is counted,
    and a URL that qualifies is added. *)
Lemma collect_from_cons config el l s :
  collect_from config (el :: l) s =
  let s1 := set_tick (S (tick s)) s in
  match el with
  | Href (Some u) =>
      if qualifies config (Some u) (workflow_urls s)
      then collect_from config l (set_workflow_urls ({[u]} ∪ workflow_urls s) s1)
      else collect_from config l s1
  | Href None => collect_from config l s1
  | AttrRaises e =>
      if is_StaleElementReferenceException e
      then collect_from config l s1
      else (Raise e, s1)
  end.
Proof.
  cbn [collect_from]. unfold bind at 1, try_except.
  destruct el as [[u|]|e].
  - unfold bind at 1, element_get_attribute. unfold bind at 1, get_state.
    cbn [workflow_urls set_tick].
    by destruct (qualifies config (Some u) (workflow_urls s)).
  - reflexivity.
  - unfold bind at 1, element_get_attribute.
    by destruct (is_StaleElementReferenceException e).
Qed.

(** The pass does not look at the call counter: started [d] calls later it
    does the same and ends [d] calls later. *)
Lemma collect_from_shift config l s d :
  collect_from config l (set_tick (tick s + d) s)
  = ((collect_from config l s).1,
     set_tick (tick (collect_from config l s).2 + d) (collect_from config l s).2).
Proof.
  revert s. induction l as [|el l IH]; intros s; [done|].
  rewrite !collect_from_cons. cbv zeta. cbn [tick set_tick workflow_urls].
  assert (forall s0 : State,
            tick s0 = S (tick s) ->
            collect_from config l (set_tick (S (tick s + d)) s0)
            = ((collect_from config l s0).1,
               set_tick (tick (collect_from config l s0).2 + d)
                 (collect_from config l s0).2)) as Hnext.
  { intros s0 Hs0. rewrite <- (IH s0), Hs0. done. }
  destruct el as [[u|]|e].
  - destruct (qualifies config (Some u) (workflow_urls s)).
    + by rewrite <- Hnext.
    + by rewrite <- Hnext.
  - by rewrite <- Hnext.
  - destruct (is_StaleElementReferenceException e); [by rewrite <- Hnext|done].
Qed.

(** X9.  A stale anchor, or one without href, is skipped and nothing else:
    the anchors before and after it are processed as if it were not in the
    list.  The pass gives the same result and the same state, but for the
    count of calls: the call on that anchor is one more, if the pass gets
    that far. *)
Theorem collect_from_skips_stale config l1 l2 el s :
  el = AttrRaises StaleElementReferenceException \/ el = Href None ->
  let with_it := collect_from config (l1 ++ el :: l2) s in
  let without := collect_from config (l1 ++ l2) s in
  with_it.1 = without.1
  /\ with_it.2 = set_tick (tick with_it.2) without.2
  /\ (tick without.2 <= tick with_it.2 <= S (tick without.2))%nat
  /\ (with_it.1 = Val tt -> tick with_it.2 = S (tick without.2)).
Proof.
  intros Hel. cbv zeta. revert s. induction l1 as [|a l1 IH]; intros s.
  { cbn [app]. rewrite collect_from_cons. cbv zeta.
    assert (collect_from config (el :: l2) s
            = collect_from config l2 (set_tick (tick s + 1) s)) as Hskip.
    { rewrite collect_from_cons, Nat.add_1_r. by destruct Hel as [-> | ->]. }
    rewrite collect_from_cons in Hskip. cbv zeta in Hskip. rewrite Hskip.
    rewrite collect_from_shift. cbn [fst snd tick set_tick].
    split_and!; first [done | lia | intros _; lia]. }
  change ((a :: l1) ++ el :: l2) with (a :: (l1 ++ el :: l2)).
  change ((a :: l1) ++ l2) with (a :: (l1 ++ l2)).
  rewrite !collect_from_cons. cbv zeta.
  destruct a as [[u|]|e].
  - destruct (qualifies config (Some u) (workflow_urls s)); apply IH.
  - apply IH.
  - destruct (is_StaleElementReferenceException e); [apply IH|].
    cbn [fst snd tick set_tick]. split_and!; first [done | lia].
Qed.

Lemma collect_from_skips_stale_witness :
  let with_it :=
    collect_from CONFIG
      ([Href (Some Examples.cat_url)]
         ++ AttrRaises StaleElementReferenceException :: [Href None]) (init ∅) in
  let without :=
    collect_from CONFIG ([Href (Some Examples.cat_url)] ++ [Href None]) (init ∅) in
  with_it.1 = without.1
  /\ workflow_urls with_it.2 = workflow_urls without.2
  /\ tick with_it.2 = 3%nat
  /\ tick without.2 = 2%nat.
Proof.
  cbv zeta.
  destruct (collect_from_skips_stale CONFIG [Href (Some Examples.cat_url)]
              [Href None] (AttrRaises StaleElementReferenceException) (init ∅))
    as (Hr & Hs & _ & _); [by left|].
  cbv zeta in Hr, Hs. split_and!.
  - exact Hr.
  - rewrite Hs. reflexivity.
  - reflexivity.
  - reflexivity.
Defined.

Lemma collect_from_sound config l s :
  let r := (collect_from config l s).1 in
  let s' := (collect_from config l s).2 in
  r <> OutOfFuel
  /\ (tick s <= tick s' <= tick s + length l)%nat
  /\ (r = Val tt -> tick s' = (tick s + length l)%nat)
  /\ workflow_urls s ⊆ workflow_urls s'
  /\ (forall u, u ∈ workflow_urls s' ->
        u ∈ workflow_urls s
        \/ (Href (Some u) ∈ l /\ link_ok config u = true)).
Proof.
  cbv zeta. revert s. induction l as [|el l IH]; intros s.
  { cbn. split_and!; try done; try lia. by left. }
  rewrite collect_from_cons. cbv zeta.
  assert (forall s1,
            tick s1 = S (tick s) -> workflow_urls s1 = workflow_urls s ->
            (collect_from config l s1).1 <> OutOfFuel
            /\ (tick s <= tick (collect_from config l s1).2
                <= tick s + length (el :: l))%nat
            /\ ((collect_from config l s1).1 = Val tt ->
                tick (collect_from config l s1).2 = (tick s + length (el :: l))%nat)
            /\ workflow_urls s ⊆ workflow_urls (collect_from config l s1).2
            /\ (forall u, u ∈ workflow_urls (collect_from config l s1).2 ->
                  u ∈ workflow_urls s
                  \/ (Href (Some u) ∈ el :: l /\ link_ok config u = true))) as Hnext.
  { intros s1 Ht1 Hu1. destruct (IH s1) as (Hr & Ht & Hv & Hsub & Hsound).
    rewrite Ht1, Hu1 in *. cbn [length].
    split; [done|]. split; [lia|]. split; [|split; [done|]].
    - intros Hval. rewrite (Hv Hval). lia.
    - intros u' Hin. destruct (Hsound u' Hin) as [?|[? ?]]; [by left|].
      right. split; [by right|done]. }
  destruct el as [[u|]|e].
  - destruct (qualifies config (Some u) (workflow_urls s)) eqn:Hq; [|by apply Hnext].
    specialize (IH (set_workflow_urls ({[u]} ∪ workflow_urls s)
                      (set_tick (S (tick s)) s))).
    destruct IH as (Hr & Ht & Hv & Hsub & Hsound). cbn in Ht, Hv, Hsub.
    cbn [length]. split; [done|]. split; [lia|]. split; [|split].
    + intros Hval. rewrite (Hv Hval). lia.
    + etrans; [|exact Hsub]. apply union_subseteq_r.
    + intros u' Hin. destruct (Hsound u' Hin) as [Hold|[Hl Hok]].
      * cbn in Hold. apply elem_of_union in Hold as [->%elem_of_singleton|Hold].
        -- right. split; [by left|].
           rewrite qualifies_link_ok in Hq. by apply andb_true_iff in Hq as [? _].
        -- by left.
      * right. split; [by right|done].
  - by apply Hnext.
  - destruct (is_StaleElementReferenceException e); [by apply Hnext|].
    cbn. split_and!; try done; try lia. by left.
Qed.

(** X10.  When every anchor's href can be read (or the anchor is stale),
    one pass over the anchors returns and leaves in the URL set exactly what
    was there before plus every href on the list that is non-empty, contains
    [/workflows/], is not the listing URL and does not end in
    [/workflows/all]. *)
Theorem collect_from_adds_exactly_the_qualifying config l s :
  Forall readable l ->
  (collect_from config l s).1 = Val tt
  /\ (forall u,
        u ∈ workflow_urls (collect_from config l s).2
        <-> u ∈ workflow_urls s
            \/ (Href (Some u) ∈ l /\ link_ok config u = true)).
Proof.
  intros Hall. revert s. induction Hall as [|el l Hel Hall IH]; intros s.
  { cbn. split; [done|]. intros u. split; [by left|].
    intros [?|[Hin _]]; [done|]. by apply elem_of_nil in Hin. }
  rewrite collect_from_cons. cbv zeta.
  assert (forall s1,
            workflow_urls s1 = workflow_urls s ->
            (collect_from config l s1).1 = Val tt
            /\ (forall u, u ∈ workflow_urls (collect_from config l s1).2
                  <-> u ∈ workflow_urls s
                      \/ (Href (Some u) ∈ l /\ link_ok config u = true))) as Hsame.
  { intros s1 Hs1. destruct (IH s1) as [Hr Hiff]. split; [done|].
    intros u. by rewrite Hiff, Hs1. }
  set (s1 := set_tick (S (tick s)) s).
  destruct el as [[u0|]|e].
  - destruct (qualifies config (Some u0) (workflow_urls s)) eqn:Hq.
    + destruct (IH (set_workflow_urls ({[u0]} ∪ workflow_urls s) s1)) as [Hr Hiff].
      split; [done|]. intros u. rewrite Hiff. cbn.
      rewrite qualifies_link_ok in Hq. apply andb_true_iff in Hq as [Hok _].
      rewrite elem_of_union, elem_of_singleton, elem_of_cons.
      split.
      * intros [[->|?]|[? ?]]; [right|left|right]; auto.
      * intros [?|[[[= ->]|?] ?]]; auto.
    + destruct (Hsame s1 eq_refl) as [Hr Hiff]. split; [done|].
      intros u. rewrite Hiff, elem_of_cons. split.
      * intros [?|[? ?]]; auto.
      * intros [?|[[[= ->]|?] Hok]]; auto.
        left. rewrite qualifies_link_ok, Hok in Hq. cbn in Hq.
        apply negb_false_iff, bool_decide_eq_true in Hq. done.
  - destruct (Hsame s1 eq_refl) as [Hr Hiff]. split; [done|].
    intros u. rewrite Hiff, elem_of_cons. split.
    + intros [?|[? ?]]; auto.
    + intros [?|[[[=]|?] ?]]; auto.
  - cbn in Hel. subst e. cbn.
    destruct (Hsame s1 eq_refl) as [Hr Hiff]. split; [done|].
    intros u. rewrite Hiff, elem_of_cons. split.
    + intros [?|[? ?]]; auto.
    + intros [?|[[[=]|?] ?]]; auto.
Qed.

Lemma collect_from_adds_exactly_the_qualifying_witness :
  Examples.cat_url
  ∈ workflow_urls
      (collect_from CONFIG (page_links Examples.still_page 0) (init ∅)).2.
Proof.
  assert (Forall readable (page_links Examples.still_page 0)) as Hall.
  { repeat constructor. }
  destruct (collect_from_adds_exactly_the_qualifying CONFIG
              (page_links Examples.still_page 0) (init ∅) Hall) as [_ Hiff].
  apply Hiff. right. split; [by left|reflexivity].
Defined.

(** ** One scrape of the listing page *)

Lemma collect_from_returns config l s :
  Forall readable l -> (collect_from config l s).1 = Val tt.
Proof.
  intros Hall. revert s. induction Hall as [|el l Hel Hall IH]; intros s; [done|].
  rewrite collect_from_cons. cbv zeta. destruct el as [[u|]|e].
  - destruct (qualifies config (Some u) (workflow_urls s)); apply IH.
  - apply IH.
  - cbn in Hel. subst e. apply IH.
Qed.

Lemma scrape_links_sound env config s :
  let r := (scrape_links env config s).1 in
  let s' := (scrape_links env config s).2 in
  let anchors := page_links env (tick s) in
  r <> OutOfFuel
  /\ (forall e, r = Raise e -> is_Exception e = false)
  /\ (S (tick s) <= tick s' <= S (tick s) + length anchors)%nat
  /\ (fault env (tick s) = None -> Forall readable anchors ->
      tick s' = (S (tick s) + length anchors)%nat)
  /\ workflow_urls s ⊆ workflow_urls s'
  /\ (forall u, u ∈ workflow_urls s' ->
        u ∈ workflow_urls s
        \/ (Href (Some u) ∈ anchors /\ link_ok config u = true)).
Proof.
  cbv zeta. destruct (scrape_links env config s) as [r s'] eqn:E.
  cbn [fst snd]. revert E.
  unfold scrape_links, try_except. unfold bind at 1, driver_find_elements, external.
  destruct (fault env (tick s)) as [e|] eqn:Hfault.
  { destruct (is_Exception e) eqn:He; cbn; intros [= <- <-]; cbn;
      (split; [done|]; split; [intros e0 [= <-]; done|]; split; [lia|];
       split; [done|]; split; [done|by left]). }
  cbn [ret]. unfold bind at 1.
  pose proof (collect_from_sound config (page_links env (tick s))
                (set_tick (S (tick s)) s)) as Hsound.
  pose proof (collect_from_returns config (page_links env (tick s))
                (set_tick (S (tick s)) s)) as Hret.
  cbv zeta in Hsound.
  destruct (collect_from config _ _) as [[[]|e|] s1]; cbn in Hsound, Hret;
    destruct Hsound as (Hr & Ht & Hv & Hsub & Hfrom); [| |done].
  - cbn. intros [= <- <-]. cbn.
    split; [done|]. split; [done|]. split; [lia|].
    split; [intros _ _; by apply Hv|]. by split.
  - destruct (is_Exception e) eqn:He; cbn; intros [= <- <-]; cbn;
      (split; [done|]; split; [intros e0 [= <-]; done|]; split; [lia|];
       split; [by intros _ ?%Hret|]; by split).
Qed.

(** X11.  A scrape of the page makes one call to find the anchors and one
    call per anchor it reads, all of them when no call raises; it never
    removes a URL from the set and lets no [Exception] out: an [Exception]
    raised while finding or reading the anchors ends the scrape, which still
    returns and keeps the URLs gathered so far.  Every URL it adds is a
    qualifying href of an anchor the page showed at that call. *)
Theorem scrape_links_contains_errors env config s :
  let anchors := page_links env (tick s) in
  match scrape_links env config s with
  | (Val _, s') =>
      (S (tick s) <= tick s' <= S (tick s) + length anchors)%nat
      /\ (fault env (tick s) = None -> Forall readable anchors ->
          tick s' = (S (tick s) + length anchors)%nat)
      /\ workflow_urls s ⊆ workflow_urls s'
      /\ (forall u, u ∈ workflow_urls s' ->
            u ∈ workflow_urls s
            \/ (Href (Some u) ∈ anchors /\ link_ok config u = true))
  | (Raise e, s') =>
      is_Exception e = false
      /\ (S (tick s) <= tick s' <= S (tick s) + length anchors)%nat
      /\ workflow_urls s ⊆ workflow_urls s'
  | (OutOfFuel, _) => False
  end.
Proof.
  pose proof (scrape_links_sound env config s) as H. cbv zeta in H |- *.
  destruct (scrape_links env config s) as [[[]|e|] s']; cbn in H;
    destruct H as (Hr & He & Ht & Hv & Hsub & Hfrom); [done| |done].
  split; [by apply He|]. by split.
Qed.

#[export] Instance keeps_from_page_frame env config :
  Frame (keeps_from_page env config).
Proof.
  split; [split|..]; unfold keeps_from_page.
  - by intros s.
  - intros s1 s2 s3 H12 H23 H. auto.
  - done.
  - done.
  - done.
Qed.

Lemma stable_scrape_links_from_page env config :
  stable (keeps_from_page env config) (scrape_links env config).
Proof.
  intros s Hfrom.
  pose proof (scrape_links_sound env config s) as H. cbv zeta in H.
  destruct H as (_ & _ & _ & _ & _ & Hnew). intros u Hu.
  destruct (Hnew u Hu) as [Hold|[Hl Hok]]; [by apply Hfrom|].
  split; [done|]. by exists (tick s).
Qed.

(** The scroll loop changes the state only through external calls, log
    lines and scrapes. *)
Section ScrollByScrape.

Context (R : State -> State -> Prop) `{!Frame R}.
Variable env : Env.
Variable config : Config.
Hypothesis R_scrape : stable R (scrape_links env config).

Lemma stable_scroll_attempt_by_scrape : stable R (scroll_attempt env config).
Proof.
  unfold scroll_attempt.
  repeat first [exact R_scrape | stable_step | stable_lib].
Qed.

Lemma stable_scroll_loop_by_scrape fuel h c :
  stable R (scroll_loop env config fuel h c).
Proof.
  revert h c. induction fuel as [|fuel IH]; intros h c; cbn [scroll_loop];
    repeat first [apply stable_scroll_attempt_by_scrape | apply IH
                 | stable_step | stable_lib].
Qed.

Lemma stable_scroll_and_collect_urls_by_scrape fuel :
  stable R (scroll_and_collect_urls env config fuel).
Proof.
  unfold scroll_and_collect_urls.
  repeat first [apply stable_scroll_loop_by_scrape | stable_step | stable_lib].
Qed.

End ScrollByScrape.

(** X12.  Started with an empty URL set, the collector returns only URLs
    that were the href of an anchor shown by the page at some call and that
    are non-empty, contain [/workflows/], differ from the listing URL and do
    not end in [/workflows/all]: it never invents or rewrites a URL. *)
Theorem collected_urls_come_from_the_page env config fuel s l s' :
  workflow_urls s = ∅ ->
  scroll_and_collect_urls env config fuel s = (Val l, s') ->
  forall u, u ∈ l ->
    (exists n, Href (Some u) ∈ page_links env n)
    /\ u <> ""
    /\ PyStr.contains "/workflows/" u = true
    /\ u <> base_url config
    /\ PyStr.endswith u "/workflows/all" = false.
Proof.
  intros Hempty Hrun u Hu.
  apply (scroll_returns_set _ _ _ _ _ _ Hrun) in Hu.
  pose proof (stable_scroll_and_collect_urls_by_scrape (keeps_from_page env config)
                env config (stable_scrape_links_from_page env config) fuel s) as Hk.
  rewrite Hrun in Hk. cbn in Hk.
  destruct (Hk ltac:(rewrite Hempty; intros ? ?; set_solver) u Hu) as [Hok Hpage].
  split; [done|].
  unfold link_ok in Hok. rewrite !andb_true_iff, !negb_true_iff in Hok.
  destruct Hok as [[Hne Hc] [Hb He]]. split_and!; try done.
  - intros ->. done.
  - intros ->. by rewrite String.eqb_refl in Hb.
Qed.

Lemma collected_urls_come_from_the_page_witness :
  let collected := scroll_and_collect_urls Examples.still_page CONFIG 5 (init ∅) in
  exists l,
    collected.1 = Val l
    /\ "https://openart.ai/workflows/cat/1" ∈ l
    /\ exists n, Href (Some "https://openart.ai/workflows/cat/1")
                   ∈ page_links Examples.still_page n.
Proof.
  cbv zeta.
  destruct (scroll_and_collect_urls Examples.still_page CONFIG 5 (init ∅))
    as [r s'] eqn:Hrun.
  assert (exists l, r = Val l /\ "https://openart.ai/workflows/cat/1" ∈ l)
    as (l & -> & Hin).
  { apply (f_equal fst) in Hrun. vm_compute in Hrun. subst r. eexists.
    split; [reflexivity|].
    set_solver. }
  exists l. split; [done|]. split; [done|].
  destruct (collected_urls_come_from_the_page Examples.still_page CONFIG 5
              (init ∅) l s' eq_refl Hrun _ Hin) as (Hpage & _).
  exact Hpage.
Defined.

(** ** Why the scroll loop ends *)

Lemma scroll_attempt_ticks env config s h' s1 :
  scroll_attempt env config s = (Val h', s1) -> (tick s + 4 <= tick s1)%nat.
Proof.
  unfold scroll_attempt. unfold bind at 1.
  pose proof (scrape_links_sound env config s) as H. cbv zeta in H.
  destruct (scrape_links env config s) as [[[]|e|] s0]; cbn in H; [|done..].
  destruct H as (_ & _ & Ht & _).
  unfold bind at 1, driver_scroll_to_bottom, external.
  destruct (fault env (tick s0)); [done|]. cbn [ret].
  unfold bind at 1, time_sleep, external. cbn [tick set_tick].
  destruct (fault env (S (tick s0))); [done|]. cbn [modify].
  unfold driver_scroll_height, external. cbn [tick set_tick set_files].
  destruct (fault env (S (S (tick s0)))); [done|]. cbn.
  intros [= _ <-]. cbn. lia.
Qed.

Lemma scroll_loop_exit env config fuel h c s s' :
  (0 <= c)%Z ->
  scroll_loop env config fuel h c s = (Val tt, s') ->
  (target_count config <= py_len_set (workflow_urls s'))%Z
  \/ (last (log s') = Some (WARNING, MsgNoNewContent max_no_new_attempts)
      /\ (Z.of_nat (tick s) + 4 * (max_no_new_attempts - c)
          <= Z.of_nat (tick s'))%Z).
Proof.
  revert h c s. induction fuel as [|fuel IH]; intros h c s Hc Hrun.
  { cbn [scroll_loop] in Hrun. unfold bind, get_state in Hrun.
    destruct (Z.ltb_spec (py_len_set (workflow_urls s)) (target_count config));
      cbn in Hrun; [done|].
    injection Hrun as <-. by left. }
  destruct (Z.ltb_spec (py_len_set (workflow_urls s)) (target_count config))
    as [Ht|Ht].
  2:{ rewrite scroll_loop_at_target in Hrun by done. injection Hrun as <-. by left. }
  destruct (scroll_attempt env config s) as [[h'|e|] s1] eqn:Hatt.
  - pose proof (scroll_attempt_ticks _ _ _ _ _ Hatt) as Hticks.
    rewrite (scroll_loop_step _ _ _ _ _ _ _ _ Ht Hatt) in Hrun.
    unfold max_no_new_attempts in *.
    destruct (h' =? h)%Z.
    + destruct (Z.leb_spec 5 (c + 1)) as [Hstop|Hgo].
      * injection Hrun as <-. right.
        split; [cbn [log set_log]; apply last_snoc|cbn [tick set_log]; lia].
      * apply IH in Hrun; [|lia]. destruct Hrun as [?|[Hlast Hle]]; [by left|].
        right. split; [done|]. lia.
    + apply IH in Hrun; [|lia]. destruct Hrun as [?|[Hlast Hle]]; [by left|].
      right. split; [done|]. lia.
  - cbn [scroll_loop] in Hrun. unfold bind at 1, get_state in Hrun.
    rewrite (proj2 (Z.ltb_lt _ _) Ht) in Hrun. cbn [negb] in Hrun.
    unfold bind at 1 in Hrun. by rewrite Hatt in Hrun.
  - cbn [scroll_loop] in Hrun. unfold bind at 1, get_state in Hrun.
    rewrite (proj2 (Z.ltb_lt _ _) Ht) in Hrun. cbn [negb] in Hrun.
    unfold bind at 1 in Hrun. by rewrite Hatt in Hrun.
Qed.

(** X13.  The collector returns for one of two reasons only: it returns at
    least the target number of URLs, or it has logged the no-new-content
    warning, and then it has made at least 23 calls: a scroll attempt makes
    no fewer than four, the warning takes five attempts, and three calls
    open the page. *)
Theorem collector_returns_full_or_after_giving_up env config fuel s l s' :
  scroll_and_collect_urls env config fuel s = (Val l, s') ->
  (target_count config <= py_len l)%Z
  \/ ((WARNING, MsgNoNewContent max_no_new_attempts) ∈ log s'
      /\ (tick s + 23 <= tick s')%nat).
Proof.
  unfold scroll_and_collect_urls.
  unfold bind at 1, logger at 1, modify.
  unfold bind at 1, driver_get, external. cbn [tick set_log].
  destruct (fault env (tick s)); [done|]. cbn [ret].
  unfold bind at 1, time_sleep, external. cbn [tick set_tick].
  destruct (fault env (S (tick s))); [done|]. cbn [modify].
  unfold bind at 1, driver_scroll_height, external. cbn [tick set_tick set_files].
  destruct (fault env (S (S (tick s)))); [done|]. cbn [ret].
  unfold bind at 1.
  destruct (scroll_loop env config fuel _ 0 _) as [[[]|e|] s1] eqn:Hloop; [|done..].
  apply scroll_loop_exit in Hloop; [|lia].
  unfold bind, get_state, logger, modify, ret. cbn. intros [= <- <-]. cbn.
  destruct Hloop as [Hfull|[Hlast Hticks]].
  - left. unfold py_len. unfold py_len_set in Hfull.
    by rewrite (in_order_perm _ _).
  - right. split.
    + apply elem_of_app. left.
      apply last_Some in Hlast as [l' ->]. apply elem_of_app. right. by left.
    + cbn in Hticks. unfold max_no_new_attempts in Hticks. lia.
Qed.

Lemma collector_returns_full_or_after_giving_up_witness :
  let collected := scroll_and_collect_urls Examples.still_page CONFIG 5 (init ∅) in
  (WARNING, MsgNoNewContent max_no_new_attempts) ∈ log collected.2.
Proof.
  cbv zeta.
  destruct (scroll_and_collect_urls Examples.still_page CONFIG 5 (init ∅))
    as [r s'] eqn:Hrun.
  assert (exists l, r = Val l /\ (py_len l < target_count CONFIG)%Z)
    as (l & -> & Hfew).
  { apply (f_equal fst) in Hrun. vm_compute in Hrun. subst r.
    eexists. split; [reflexivity|]. by vm_compute. }
  destruct (collector_returns_full_or_after_giving_up Examples.still_page CONFIG 5
              (init ∅) l s' Hrun) as [Hfull|[Hwarn _]]; [lia|exact Hwarn].
Defined.

(** ** The counters after the download loop *)

Lemma download_all_accounts env config urls idx total_urls s :
  exists r s' fs,
    download_all env config urls idx total_urls s = (r, s')
    /\ failed_downloads s' = failed_downloads s ++ fs
    /\ sublist fs urls
    /\ match r with
       | Val _ =>
           (downloaded_count s' - downloaded_count s + py_len fs = py_len urls)%Z
       | Raise e =>
           is_Exception e = false
           /\ (downloaded_count s <= downloaded_count s')%Z
           /\ (downloaded_count s' - downloaded_count s + py_len fs < py_len urls)%Z
       | OutOfFuel => False
       end.
Proof.
  revert idx s. induction urls as [|url urls IH]; intros idx s.
  { exists (Val tt), s, []. cbn. rewrite app_nil_r. split_and!; try done. lia. }
  cbn [download_all]. unfold bind at 1.
  destruct (download_workflow_cases env config url idx s) as (r & s1 & -> & Ho & _ & _).
  destruct r as [b|e|]; [| |done].
  - unfold bind at 1.
    set (progress := if (idx mod 50 =? 0)%Z then _ else _).
    assert (same_counters s1 (progress s1).2 /\ exists u, (progress s1).1 = Val u)
      as [[Hpc Hpf] [u Hu]].
    { subst progress. destruct (_ =? _)%Z; cbn; (split; [|by eexists]); done. }
    destruct (progress s1) as [rp s2]. cbn in Hpc, Hpf, Hu. subst rp.
    destruct (IH (idx + 1)%Z s2) as (r & s' & fs & -> & Hf & Hsub & Hr).
    unfold py_len in *. cbn [length].
    destruct b; cbn in Ho.
    + destruct Ho as [Hc1 Hf1]. exists r, s', fs.
      split; [done|]. split; [by rewrite Hf, Hpf, Hf1|].
      split; [by constructor|].
      destruct r as [[]|e|]; [lia| |done].
      destruct Hr as (? & ? & ?). split_and!; [done|lia|lia].
    + destruct Ho as (Hc1 & Hf1 & _). exists r, s', (url :: fs).
      split; [done|]. split; [by rewrite Hf, Hpf, Hf1, <- app_assoc|].
      split; [by constructor|]. cbn [length].
      destruct r as [[]|e|]; [lia| |done].
      destruct Hr as (? & ? & ?). split_and!; [done|lia|lia].
  - exists (Raise e), s1, []. cbn in Ho. destruct Ho as [He [Hc Hf]].
    split; [done|]. split; [by rewrite Hf, app_nil_r|].
    split; [apply sublist_nil_l|]. unfold py_len. cbn [length].
    split_and!; [done|lia|lia].
Qed.

(** X14.  When the download loop completes, every URL is accounted for
    exactly once: the failures appended to the failure list are a
    subsequence of the URLs, in order, and together with the downloads
    counted they are as many as the URLs.  When it is cut short by an
    exception that is not an [Exception], fewer are, and nothing was removed
    from either counter. *)
Theorem download_all_accounts_for_every_url env config urls idx total_urls s :
  match download_all env config urls idx total_urls s with
  | (Val _, s') =>
      exists fs,
        failed_downloads s' = failed_downloads s ++ fs
        /\ sublist fs urls
        /\ (downloaded_count s' - downloaded_count s + py_len fs = py_len urls)%Z
  | (Raise e, s') =>
      is_Exception e = false
      /\ exists fs,
          failed_downloads s' = failed_downloads s ++ fs
          /\ sublist fs urls
          /\ (downloaded_count s <= downloaded_count s')%Z
          /\ (downloaded_count s' - downloaded_count s + py_len fs < py_len urls)%Z
  | (OutOfFuel, _) => False
  end.
Proof.
  destruct (download_all_accounts env config urls idx total_urls s)
    as (r & s' & fs & -> & Hf & Hsub & Hr).
  destruct r as [[]|e|]; [by exists fs| |done].
  destruct Hr as (? & ? & ?). split; [done|]. by exists fs.
Qed.

(** ** What [run] lets out *)

(** X15.  [run] lets out no exception of its [try] body except SystemExit:
    when a run raises, it raises SystemExit or the exception that
    [driver.quit()], its last call, raised in the [finally] block. *)
Theorem run_lets_out_only_exit_or_quit env config fuel s e s' :
  run env config fuel s = (Raise e, s') ->
  e = SystemExit
  \/ (driver s' = true /\ exists n, tick s' = S n /\ fault env n = Some e).
Proof.
  unfold run, try_finally.
  assert (forall e1, (try_except2 (run_body env config fuel)
                        is_KeyboardInterrupt (fun _ => logger INFO MsgInterrupted)
                        is_Exception (fun e => logger ERROR (MsgUnexpected e)) s).1
                     = Raise e1 -> e1 = SystemExit) as Htry.
  { intros e1. unfold try_except2.
    destruct (run_body env config fuel s) as [[[]|e0|] s0]; cbn; [done| |done].
    destruct e0; cbn; intros [= <-]; done. }
  destruct (try_except2 _ _ _ _ _ s) as [rb s1]. cbn in Htry.
  destruct rb as [[]|e1|]; [| |done].
  - unfold run_cleanup, bind, get_state, driver_quit, modify, external, logger, ret.
    destruct (driver s1) eqn:Hd; cbn; [|done].
    destruct (fault env (tick s1)) eqn:Hf; cbn; [|done].
    intros [= <- <-]. right. cbn. split; [done|]. by exists (tick s1).
  - specialize (Htry e1 eq_refl). subst e1.
    unfold run_cleanup, bind, get_state, driver_quit, modify, external, logger, ret.
    destruct (driver s1) eqn:Hd; cbn; [|by intros [= <- <-]; left].
    destruct (fault env (tick s1)) eqn:Hf; cbn; [|by intros [= <- <-]; left].
    intros [= <- <-]. right. cbn. split; [done|]. by exists (tick s1).
Qed.

Lemma run_lets_out_only_exit_or_quit_witness :
  (run MoreExamples.exiting CONFIG 5 (init ∅)).1 = Raise SystemExit.
Proof.
  destruct (run MoreExamples.exiting CONFIG 5 (init ∅)) as [r s'] eqn:Hrun.
  assert (exists e, r = Raise e) as [e ->].
  { apply (f_equal fst) in Hrun. vm_compute in Hrun. subst r. by eexists. }
  destruct (run_lets_out_only_exit_or_quit MoreExamples.exiting CONFIG 5 (init ∅)
              e s' Hrun) as [->|(_ & n & _ & Hf)]; [reflexivity|].
  cbn in Hf. destruct (Nat.eqb n 11); [|discriminate].
  injection Hf as <-. reflexivity.
Defined.

(** X16.  A browser that cannot be started ends the program quietly: when
    the first call, creating the driver, raises anything but SystemExit,
    [main] returns after that one call, having logged the start and the
    interruption or error; it downloads nothing, writes no merged file,
    leaves the folder as it was and never calls [driver.quit()]. *)
Theorem main_without_browser env fuel dir e :
  fault env 0 = Some e ->
  e <> SystemExit ->
  exists s',
    main env fuel dir = (Val tt, s')
    /\ tick s' = 1%nat
    /\ log s' = [(INFO, MsgStarting);
                 if is_KeyboardInterrupt e then (INFO, MsgInterrupted)
                 else (ERROR, MsgUnexpected e)]
    /\ files s' = dir
    /\ merged_out s' = None
    /\ driver s' = false
    /\ quit_calls s' = 0%nat
    /\ downloaded_count s' = 0%Z
    /\ failed_downloads s' = [].
Proof.
  intros Hfault He.
  unfold main, run, try_finally, try_except2, run_body.
  unfold bind at 1, logger at 1, modify.
  unfold bind at 1, setup_driver. unfold bind at 1, webdriver_Chrome, external.
  cbn [tick init set_log]. rewrite Hfault.
  destruct e; try done; cbn; eexists; (split; [reflexivity|]); cbn; done.
Qed.

Lemma main_without_browser_witness :
  exists s',
    main MoreExamples.no_browser 5 ∅ = (Val tt, s') /\ quit_calls s' = 0%nat.
Proof.
  destruct (main_without_browser MoreExamples.no_browser 5 ∅ WebDriverException)
    as (s' & Hrun & _ & _ & _ & _ & _ & Hq & _).
  - reflexivity.
  - discriminate.
  - exists s'. split; [exact Hrun|exact Hq].
Defined.

(** ** A download that succeeds *)

Lemma save_download_posix env completed index s :
  quiet env (tick s) ->
  os_platform env = Posix ->
  is_Some (files s !! completed) ->
  exists s', save_download env completed index s = (Val true, s').
Proof.
  intros Hq Hposix [text Htext].
  unfold save_download, rename_download, path_exists.
  unfold bind at 1. unfold bind at 1. rewrite external_ok by by apply Hq.
  unfold bind at 1, get_state, ret. cbn [files set_tick].
  assert (forall dest s1,
            files s1 = files s -> quiet env (tick s1) ->
            exists s',
              (new_path <- (os_rename env completed dest ;;; ret dest) ;;
               logger INFO (MsgSavedAs new_path) ;;;
               modify (fun s => set_downloaded_count (downloaded_count s + 1)%Z s) ;;;
               ret true) s1 = (Val true, s')) as Hrename.
  { intros dest s1 Hf Hq1. unfold bind at 1. unfold bind at 1, os_rename.
    rewrite external_ok by by apply Hq1.
    unfold bind at 1, get_state. cbn [files set_tick]. rewrite Hf, Htext.
    case_bool_decide; [by eexists|].
    rewrite Hposix. destruct (files s !! dest); by eexists. }
  case_bool_decide.
  - unfold bind at 1. unfold bind at 1, time_time.
    rewrite external_ok by (apply Hq; cbn; lia). cbn [ret].
    apply Hrename; [done|]. intros k Hk. apply Hq. cbn in Hk. lia.
  - unfold bind at 1. cbn [ret].
    apply Hrename; [done|]. intros k Hk. apply Hq. cbn in Hk. lia.
Qed.

(** X17.  A download that goes well, on POSIX: when the calls go through,
    the first selector finds the button, and at the first poll the folder
    holds completed files that were not there before the click, [f] being
    the first of them in the order in which Python iterates the set of new
    files, then [download_workflow] returns True, counts one download,
    records no failure, and leaves the text of [f] under a [workflow_*.json]
    name, the plain [workflow_<index>.json] if that name was free. *)
Theorem download_succeeds env config url index s el f rest :
  let dir1 := browser_writes env (tick s + 2) (files s) in
  let dir2 := browser_writes env (tick s + 6)
                (browser_writes env (tick s + 5) dir1) in
  quiet env (tick s) ->
  os_platform env = Posix ->
  locate env (tick s + 3) "//button[contains(text(), 'Download')]" = Some el ->
  completed_files (hash_order env (tick s + 8)) (dom dir2 ∖ dom dir1)
  = f :: rest ->
  exists s' dest,
    download_workflow env config url index s = (Val true, s')
    /\ downloaded_count s' = (downloaded_count s + 1)%Z
    /\ failed_downloads s' = failed_downloads s
    /\ workflow_file dest
    /\ (workflow_name index ∉ dom dir2 -> dest = workflow_name index)
    /\ is_Some (files s' !! dest)
    /\ files s' !! dest = dir2 !! f.
Proof.
  intros dir1 dir2 Hq Hposix Hbutton Hnew.
  unfold download_workflow, try_except2, download_steps.
  unfold bind at 1, get_state. unfold bind at 1, logger at 1, modify.
  unfold bind at 1, driver_get. rewrite external_ok by (apply Hq; cbn; lia).
  cbn [ret tick set_tick set_log].
  unfold bind at 1, wait_for_body. rewrite external_ok by (apply Hq; cbn; lia).
  cbn [ret tick set_tick set_log].
  unfold bind at 1, time_sleep at 1. rewrite external_ok by (apply Hq; cbn; lia).
  cbn [modify tick set_tick set_log set_files files].
  unfold bind at 1.
  unfold selectors. rewrite (find_download_button_head env _ _ _ el).
  2:{ apply Hq. cbn. lia. }
  2:{ cbn [tick set_files set_tick].
      by replace (S (S (S (tick s)))) with (tick s + 3)%nat by lia. }
  cbn [tick set_files set_tick].
  unfold bind at 1, os_listdir. rewrite external_ok by (apply Hq; cbn; lia).
  unfold bind at 1, get_state, ret. cbn [tick set_files set_tick files].
  unfold bind at 1, element_click. rewrite external_ok by (apply Hq; cbn; lia).
  cbn [modify tick set_files set_tick files].
  unfold bind at 1, time_sleep at 1. rewrite external_ok by (apply Hq; cbn; lia).
  cbn [modify tick set_files set_tick files].
  unfold max_wait. rewrite wait_for_download_listed by (apply Hq; cbn; lia).
  cbn [tick set_files set_tick files].
  match goal with
  | |- context [browser_writes env ?a
                  (browser_writes env ?b (browser_writes env ?c (files s)))] =>
      replace a with (tick s + 6)%nat by lia;
      replace b with (tick s + 5)%nat by lia;
      replace c with (tick s + 2)%nat by lia
  end.
  match goal with
  | |- context [hash_order env ?d] => replace d with (tick s + 8)%nat by lia
  end.
  fold dir1. fold dir2. rewrite Hnew.
  set (s7 := set_tick _ _).
  assert (files s7 = dir2) as Hfiles by done.
  assert (f ∈ dom dir2) as Hf.
  { apply completed_files_head in Hnew as [Hin _].
    by apply elem_of_difference in Hin as [? _]. }
  destruct (save_download_posix env f index s7) as [s' Hsave].
  { intros k Hk. apply Hq. cbn in Hk. lia. }
  { done. }
  { rewrite Hfiles. by apply elem_of_dom. }
  rewrite Hsave.
  destruct (save_download_result _ _ _ _ _ _ Hsave)
    as (_ & Hc & Hfail & dest & Hw & Hplain & Hsome & Hnewfile & _ & _).
  exists s', dest. split; [done|]. rewrite Hfiles in *. cbn in Hc, Hfail.
  split_and!; done.
Qed.

Lemma download_succeeds_witness :
  exists s',
    download_workflow MoreExamples.downloading CONFIG Examples.cat_url 1 (init ∅)
    = (Val true, s')
    /\ files s' !! "workflow_1.json" = Some "{}".
Proof.
  destruct (download_succeeds MoreExamples.downloading CONFIG Examples.cat_url 1
              (init ∅) (Element 1) "cat.json" [])
    as (s' & dest & Hrun & _ & _ & _ & Hplain & _ & Hfile).
  - intros k _. reflexivity.
  - reflexivity.
  - reflexivity.
  - reflexivity.
  - exists s'. split; [exact Hrun|].
    assert (dest = workflow_name 1) as Hdest.
    { apply Hplain. apply not_elem_of_dom. reflexivity. }
    rewrite Hdest in Hfile. exact Hfile.
Defined.

(** ** The final report *)

Lemma log_each_lines urls s :
  log_each urls s
  = (Val tt, set_log (log s ++ ((fun url => (INFO, MsgFailedUrl url)) <$> urls)) s).
Proof.
  revert s. induction urls as [|url urls IH]; intros s.
  { cbn. rewrite app_nil_r. by destruct s. }
  cbn [log_each]. unfold bind, logger, modify. cbn. rewrite IH. cbn.
  by rewrite <- app_assoc.
Qed.

Lemma report_lines config urls merged_count s :
  exists s',
    report config urls merged_count s = (Val tt, s')
    /\ s' = set_log (log s') s
    /\ log s' = log s
         ++ (INFO, MsgSummary (py_len urls) (downloaded_count s)
                     (py_len (failed_downloads s)) merged_count
                     (merged_file config))
         :: failure_lines (failed_downloads s).
Proof.
  unfold report. unfold bind at 1, get_state. unfold bind at 1, logger at 1, modify.
  unfold failure_lines.
  destruct (failed_downloads s) as [|url0 failed] eqn:Hfailed.
  { eexists. split; [reflexivity|]. cbn. by split. }
  unfold bind at 1, logger at 1, modify. unfold bind at 1.
  rewrite log_each_lines. cbn [set_log log].
  destruct (10 <? py_len (url0 :: failed))%Z; cbn [ret logger modify];
    (eexists; split; [reflexivity|]); cbn [log set_log];
    (split; [done|]); by rewrite ?app_nil_r, <- !app_assoc.
Qed.

Lemma failure_lines_length failed : (length (failure_lines failed) <= 12)%nat.
Proof.
  unfold failure_lines. destruct failed as [|url0 failed]; [cbn; lia|].
  rewrite !length_app, length_fmap, length_take.
  destruct (10 <? py_len (url0 :: failed))%Z; cbn [length]; lia.
Qed.

Lemma failure_lines_urls failed u :
  (INFO, MsgFailedUrl u) ∈ failure_lines failed <-> u ∈ take 10 failed.
Proof.
  unfold failure_lines. destruct failed as [|url0 failed]; [set_solver|].
  rewrite !elem_of_app, list_elem_of_fmap, list_elem_of_singleton.
  split.
  - intros [Hhead|[Hurl|Hmore]].
    + discriminate.
    + by destruct Hurl as (v & [= ->] & Hv).
    + destruct (10 <? py_len (url0 :: failed))%Z.
      * apply list_elem_of_singleton in Hmore. discriminate.
      * by apply elem_of_nil in Hmore.
  - intros Hu. right. left. by exists u.
Qed.

Lemma failure_lines_more failed k :
  (INFO, MsgAndMore k) ∈ failure_lines failed
  <-> (10 < py_len failed)%Z /\ k = (py_len failed - 10)%Z.
Proof.
  unfold failure_lines. destruct failed as [|url0 failed].
  { split; [set_solver|]. unfold py_len. cbn. lia. }
  rewrite !elem_of_app, list_elem_of_fmap, list_elem_of_singleton.
  destruct (10 <? py_len (url0 :: failed))%Z eqn:Hlen.
  - apply Z.ltb_lt in Hlen. rewrite list_elem_of_singleton. split.
    + intros [[=]|[(v & [=] & _)|[= ->]]]. by split.
    + intros [_ ->]. by right; right.
  - apply Z.ltb_ge in Hlen. split.
    + intros [[=]|[(v & [=] & _)|Hnil]]. set_solver.
    + intros [Hlt _]. lia.
Qed.

(** X18.  The report always returns and changes nothing but the log.  After
    the summary line it writes nothing if there was no failure, and at most
    twelve lines otherwise: a line for a URL exactly when it is among the
    first ten failures, and a line counting the rest exactly when there are
    more than ten, with the number of failures less ten. *)
Theorem report_shows_at_most_ten_failures config urls merged_count s :
  exists s' lines,
    report config urls merged_count s = (Val tt, s')
    /\ s' = set_log (log s') s
    /\ log s' = log s
         ++ (INFO, MsgSummary (py_len urls) (downloaded_count s)
                     (py_len (failed_downloads s)) merged_count
                     (merged_file config))
         :: lines
    /\ (failed_downloads s = [] -> lines = [])
    /\ (length lines <= 12)%nat
    /\ (forall u, (INFO, MsgFailedUrl u) ∈ lines
                  <-> u ∈ take 10 (failed_downloads s))
    /\ (forall k, (INFO, MsgAndMore k) ∈ lines
                  <-> (10 < py_len (failed_downloads s))%Z
                      /\ k = (py_len (failed_downloads s) - 10)%Z).
Proof.
  destruct (report_lines config urls merged_count s) as (s' & Hrun & Hs & Hlog).
  exists s', (failure_lines (failed_downloads s)).
  split_and!; try done.
  - by intros ->.
  - apply failure_lines_length.
  - apply failure_lines_urls.
  - apply failure_lines_more.
Qed.

(** ** The URL set only grows *)

#[export] Instance urls_grow_frame : Frame urls_grow.
Proof.
  split; [split|..]; unfold urls_grow.
  - by intros s.
  - intros s1 s2 s3 H12 H23. by etrans.
  - done.
  - done.
  - done.
Qed.

Lemma stable_scrape_links_grow env config :
  stable urls_grow (scrape_links env config).
Proof.
  intros s. pose proof (scrape_links_sound env config s) as H. cbv zeta in H.
  by destruct H as (_ & _ & _ & _ & Hsub & _).
Qed.

(** X19.  The collector never drops a URL: whatever the URL set held when
    it was called is in the list it returns. *)
Theorem collector_keeps_earlier_urls env config fuel s l s' :
  scroll_and_collect_urls env config fuel s = (Val l, s') ->
  forall u, u ∈ workflow_urls s -> u ∈ l.
Proof.
  intros Hrun u Hu.
  apply (scroll_returns_set _ _ _ _ _ _ Hrun).
  pose proof (stable_scroll_and_collect_urls_by_scrape urls_grow env config
                (stable_scrape_links_grow env config) fuel s) as Hgrow.
  rewrite Hrun in Hgrow. by apply Hgrow.
Qed.

Lemma collector_keeps_earlier_urls_witness :
  let s := set_workflow_urls {["https://openart.ai/workflows/old/0"]} (init ∅) in
  exists l,
    (scroll_and_collect_urls Examples.still_page CONFIG 5 s).1 = Val l
    /\ length l = 3%nat
    /\ "https://openart.ai/workflows/old/0" ∈ l.
Proof.
  cbv zeta.
  destruct (scroll_and_collect_urls Examples.still_page CONFIG 5 _)
    as [r s'] eqn:Hrun.
  assert (exists l, r = Val l /\ length l = 3%nat) as (l & -> & Hlen).
  { apply (f_equal fst) in Hrun. vm_compute in Hrun. subst r. eexists.
    split; reflexivity. }
  exists l. split; [done|]. split; [done|].
  apply (collector_keeps_earlier_urls Examples.still_page CONFIG 5 _ l s' Hrun).
  cbn. by apply elem_of_singleton.
Defined.

(** ** Renaming on Windows *)

Lemma os_rename_windows env old new s r s' :
  os_platform env = Windows ->
  os_rename env old new s = (r, s') ->
  forall name text,
    name <> old -> files s !! name = Some text -> files s' !! name = Some text.
Proof.
  intros Hwin. unfold os_rename, external, bind, get_state, raise, ret, modify.
  destruct (fault env (tick s)); [by intros [= <- <-]|]. cbn.
  destruct (files s !! old) as [text0|]; [|by intros [= <- <-]].
  case_bool_decide; [by intros [= <- <-]|].
  rewrite Hwin. destruct (files s !! new) as [text1|] eqn:Hnew;
    intros [= <- <-]; cbn; [done|].
  intros name text Hne Hname.
  rewrite lookup_insert_ne by congruence. by rewrite lookup_delete_ne.
Qed.

(** X20.  On Windows the rename step never replaces a file: whatever it
    returns or raises, every file of the folder other than the download
    itself still has its text afterwards. *)
Theorem rename_never_overwrites_on_windows env completed index s r s' :
  os_platform env = Windows ->
  rename_download env completed index s = (r, s') ->
  forall name text,
    name <> completed -> files s !! name = Some text ->
    files s' !! name = Some text.
Proof.
  intros Hwin. unfold rename_download, path_exists.
  unfold bind at 1. unfold external at 1.
  destruct (fault env (tick s)); [by intros [= <- <-]|].
  unfold bind at 1, get_state, ret. cbn [files set_tick].
  assert (forall dest s1 r s',
            files s1 = files s ->
            (os_rename env completed dest ;;; ret dest) s1 = (r, s') ->
            forall name text,
              name <> completed -> files s !! name = Some text ->
              files s' !! name = Some text) as Hrename.
  { intros dest s1 r1 s1' Hf. unfold bind at 1.
    destruct (os_rename env completed dest s1) as [r2 s2] eqn:Hos.
    pose proof (os_rename_windows _ _ _ _ _ _ Hwin Hos) as Hkeep.
    rewrite Hf in Hkeep.
    destruct r2 as [[]|e|]; intros [= <- <-]; exact Hkeep. }
  case_bool_decide.
  - unfold bind at 1. unfold bind at 1, time_time, external. cbn [tick set_tick].
    destruct (fault env (S (tick s))); [by intros [= <- <-]|]. cbn [ret].
    by apply Hrename.
  - unfold bind at 1. cbn [ret]. by apply Hrename.
Qed.

Lemma rename_never_overwrites_on_windows_witness :
  let s := init Examples.crowded_folder in
  let renamed := rename_download MoreExamples.on_windows "download.json" 1 s in
  renamed.1 = Raise OSError
  /\ files renamed.2 !! "workflow_1_1700000000.json" = Some "second".
Proof.
  cbv zeta. split; [reflexivity|].
  apply (rename_never_overwrites_on_windows MoreExamples.on_windows
           "download.json" 1 (init Examples.crowded_folder)
           (rename_download MoreExamples.on_windows "download.json" 1
              (init Examples.crowded_folder)).1
           (rename_download MoreExamples.on_windows "download.json" 1
              (init Examples.crowded_folder)).2).
  - reflexivity.
  - reflexivity.
  - discriminate.
  - reflexivity.
Defined.
